(** * Project Manta: flight dynamics, input fusion and the simulation loop

    A shallow embedding of the TypeScript sources
    [CraftController] (flight dynamics), [InputManager] (input fusion),
    [GameEngine] (simulation loop), [useGameState] (published session
    state) and the [App] handlers that drive them, followed by the
    parts of [Environment], [AudioSystem], [CloakingSystem],
    [PropulsionSystem] and [HUD] that compute with numbers.

    Numbers.  JavaScript numbers are modelled as real numbers: the
    arithmetic of the sources is read exactly, without IEEE rounding,
    infinities or NaN.  [Math.max], [Math.min], [Math.abs] and
    [Math.sqrt] are [Rmax], [Rmin], [Rabs] and [sqrt].  The one place
    where the flight dynamics enforce a bound by renormalising, the
    speed limit, is a place where rounding decides on which side of
    the bound the result lands; for it the module [Binary64] repeats
    [updatePhysics] over binary64 floats.

    Exceptions.  [GameEngine.update()] ends in a [TypeError] on every
    tick (see [GameEngine.callIsActive]); the functions of the loop
    return the state at the point where they end together with how
    they end, and [GameEngine.initialize()] and the host are the two
    places where the exception arrives.

    Objects.  The pure model of a class keeps the fields of [this] in a
    record and every method is a function from record to record.  The
    vectors held by [CraftState] and the [touch] record held by
    [InputState] are JavaScript objects that are mutated in place, so
    the module [Alias] adds an explicit store of such objects to speak
    about what an accessor shares with its caller. *)

From Stdlib Require Import Reals Lra Lia List String.
From Stdlib Require PrimFloat.
From stdpp Require Import base list gmap strings.

Open Scope R_scope.

(** ** The part of three.js the sources use

    three.js is an external library.  The definitions below follow its
    documented behaviour for the handful of methods the sources call. *)

Module Vector3.

Record t : Type := mk { x : R; y : R; z : R }.

(** [new THREE.Vector3()] *)
Definition zero : t := mk 0 0 0.

Definition set (_ : t) (a b c : R) : t := mk a b c.

Definition clone (v : t) : t := v.

Definition add (v w : t) : t := mk (x v + x w) (y v + y w) (z v + z w).

Definition multiplyScalar (v : t) (s : R) : t :=
  mk (x v * s) (y v * s) (z v * s).

(** [divideScalar(s)] is [multiplyScalar(1 / s)]. *)
Definition divideScalar (v : t) (s : R) : t := multiplyScalar v (1 / s).

Definition lengthSq (v : t) : R := x v * x v + y v * y v + z v * z v.

Definition length (v : t) : R := sqrt (lengthSq v).

(** JavaScript [a || 1] on numbers: [1] when [a] is [0]. *)
Definition orOne (a : R) : R := if Req_dec_T a 0 then 1 else a.

(** [normalize()] is [divideScalar(length() || 1)]. *)
Definition normalize (v : t) : t := divideScalar v (orOne (length v)).

End Vector3.

Module Euler.

(** Three angles; the rotation order is the default ['XYZ'], which no
    source changes. *)
Record t : Type := mk { x : R; y : R; z : R }.

Definition set (_ : t) (a b c : R) : t := mk a b c.

End Euler.

Module Quaternion.

Record t : Type := mk { x : R; y : R; z : R; w : R }.

(** [setFromEuler] for the order ['XYZ']. *)
Definition setFromEuler (e : Euler.t) : t :=
  let c1 := cos (Euler.x e / 2) in
  let c2 := cos (Euler.y e / 2) in
  let c3 := cos (Euler.z e / 2) in
  let s1 := sin (Euler.x e / 2) in
  let s2 := sin (Euler.y e / 2) in
  let s3 := sin (Euler.z e / 2) in
  mk (s1 * c2 * c3 + c1 * s2 * s3)
     (c1 * s2 * c3 - s1 * c2 * s3)
     (c1 * c2 * s3 + s1 * s2 * c3)
     (c1 * c2 * c3 - s1 * s2 * s3).

End Quaternion.

Module Rotate.

(** [Vector3.applyQuaternion(q)]: [v + w * t + q × t] with
    [t = 2 * (q × v)]. *)
Definition applyQuaternion (v : Vector3.t) (q : Quaternion.t) : Vector3.t :=
  let vx := Vector3.x v in
  let vy := Vector3.y v in
  let vz := Vector3.z v in
  let qx := Quaternion.x q in
  let qy := Quaternion.y q in
  let qz := Quaternion.z q in
  let qw := Quaternion.w q in
  let tx := 2 * (qy * vz - qz * vy) in
  let ty := 2 * (qz * vx - qx * vz) in
  let tz := 2 * (qx * vy - qy * vx) in
  Vector3.mk (vx + qw * tx + qy * tz - qz * ty)
             (vy + qw * ty + qz * tx - qx * tz)
             (vz + qw * tz + qx * ty - qy * tx).

(** [Vector3.applyEuler(e)] *)
Definition applyEuler (v : Vector3.t) (e : Euler.t) : Vector3.t :=
  applyQuaternion v (Quaternion.setFromEuler e).

End Rotate.

(** ** InputManager.ts: the data *)

Module Touch.

Record t : Type := mk {
  active : bool;
  x : R;
  y : R;
  deltaX : R;
  deltaY : R
}.

End Touch.

Module InputState.

Record t : Type := mk {
  forward : bool;
  backward : bool;
  left : bool;
  right : bool;
  up : bool;
  down : bool;
  pitch : R;
  yaw : R;
  roll : R;
  touch : Touch.t
}.

End InputState.

(** ** CraftController.ts *)

Module CraftState.

Record t : Type := mk {
  position : Vector3.t;
  velocity : Vector3.t;
  acceleration : Vector3.t;
  rotation : Euler.t;
  angularVelocity : Vector3.t;
  mass : R;
  gravityReduction : R;
  speed : R;
  altitude : R;
  gForce : R
}.

End CraftState.

Module CraftController.

Import CraftState.

Definition baseThrust : R := 500.
Definition maxSpeed : R := 2000.
Definition gravityStrength : R := 9.81.

(** The state the constructor builds. *)
Definition constructor : CraftState.t :=
  {| position := Vector3.mk 0 1000 0;
     velocity := Vector3.mk 0 0 0;
     acceleration := Vector3.mk 0 0 0;
     rotation := Euler.mk 0 0 0;
     angularVelocity := Vector3.mk 0 0 0;
     mass := 1000;
     gravityReduction := 0.892;
     speed := 0;
     altitude := 1000;
     gForce := 1 |}.

(** The six [if (inputState.f) thrustForce.c ±= baseThrust] statements,
    in source order, on a fresh [new THREE.Vector3()]. *)
Definition thrustForce (i : InputState.t) : Vector3.t :=
  let t0 := Vector3.zero in
  let t1 := if InputState.forward i
            then Vector3.mk (Vector3.x t0) (Vector3.y t0) (Vector3.z t0 - baseThrust)
            else t0 in
  let t2 := if InputState.backward i
            then Vector3.mk (Vector3.x t1) (Vector3.y t1) (Vector3.z t1 + baseThrust)
            else t1 in
  let t3 := if InputState.left i
            then Vector3.mk (Vector3.x t2 - baseThrust) (Vector3.y t2) (Vector3.z t2)
            else t2 in
  let t4 := if InputState.right i
            then Vector3.mk (Vector3.x t3 + baseThrust) (Vector3.y t3) (Vector3.z t3)
            else t3 in
  let t5 := if InputState.up i
            then Vector3.mk (Vector3.x t4) (Vector3.y t4 + baseThrust) (Vector3.z t4)
            else t4 in
  if InputState.down i
  then Vector3.mk (Vector3.x t5) (Vector3.y t5 - baseThrust) (Vector3.z t5)
  else t5.

(** The speed limit: [if (velocity.length() > maxSpeed)
    velocity.normalize().multiplyScalar(maxSpeed)].  Over the reals the
    renormalised vector has length [maxSpeed] exactly; what the rounded
    operations of the program give is [Binary64.CraftController.limitSpeed]. *)
Definition limitSpeed (v : Vector3.t) : Vector3.t :=
  if Rlt_dec maxSpeed (Vector3.length v)
  then Vector3.multiplyScalar (Vector3.normalize v) maxSpeed
  else v.

(** [updatePhysics(deltaTime, input)], with [inputState] the value of
    [input.getState()]. *)
Definition updatePhysics (deltaTime : R) (inputState : InputState.t)
    (s : CraftState.t) : CraftState.t :=
  (* Reset acceleration *)
  let acceleration0 := Vector3.set (acceleration s) 0 0 0 in
  (* Apply gravity (reduced by anti-gravity system) *)
  let gravity := gravityStrength * (1 - gravityReduction s) in
  let acceleration1 :=
    Vector3.mk (Vector3.x acceleration0)
               (Vector3.y acceleration0 - gravity)
               (Vector3.z acceleration0) in
  (* Apply thrust based on input *)
  let thrust := thrustForce inputState in
  (* Apply rotation from input *)
  let angularVelocity1 :=
    Vector3.mk (InputState.pitch inputState * 2)
               (InputState.yaw inputState * 2)
               (InputState.roll inputState * 2) in
  (* Apply thrust in world space *)
  let thrustWorld := Rotate.applyEuler thrust (rotation s) in
  let acceleration2 :=
    Vector3.add acceleration1 (Vector3.divideScalar thrustWorld (mass s)) in
  (* Update velocity *)
  let velocity1 :=
    Vector3.add (velocity s)
      (Vector3.multiplyScalar (Vector3.clone acceleration2) deltaTime) in
  (* Apply drag *)
  let drag := 0.98 in
  let velocity2 := Vector3.multiplyScalar velocity1 drag in
  (* Limit speed *)
  let velocity3 := limitSpeed velocity2 in
  (* Update position *)
  let position1 :=
    Vector3.add (position s)
      (Vector3.multiplyScalar (Vector3.clone velocity3) deltaTime) in
  (* Update rotation *)
  let rotation1 :=
    Euler.mk (Euler.x (rotation s) + Vector3.x angularVelocity1 * deltaTime)
             (Euler.y (rotation s) + Vector3.y angularVelocity1 * deltaTime)
             (Euler.z (rotation s) + Vector3.z angularVelocity1 * deltaTime) in
  (* Update derived values *)
  {| position := position1;
     velocity := velocity3;
     acceleration := acceleration2;
     rotation := rotation1;
     angularVelocity := angularVelocity1;
     mass := mass s;
     gravityReduction := gravityReduction s;
     speed := Vector3.length velocity3;
     altitude := Vector3.y position1;
     gForce := Rmax 1 (Vector3.length acceleration2 / gravityStrength) |}.

(** [update(deltaTime, input)]: the physics step; [updateVisuals] and
    [updateCamera] only write to the mesh and the camera. *)
Definition update (deltaTime : R) (inputState : InputState.t)
    (s : CraftState.t) : CraftState.t :=
  updatePhysics deltaTime inputState s.

Definition reset (s : CraftState.t) : CraftState.t :=
  {| position := Vector3.set (position s) 0 1000 0;
     velocity := Vector3.set (velocity s) 0 0 0;
     acceleration := Vector3.set (acceleration s) 0 0 0;
     rotation := Euler.set (rotation s) 0 0 0;
     angularVelocity := Vector3.set (angularVelocity s) 0 0 0;
     mass := mass s;
     gravityReduction := gravityReduction s;
     speed := 0;
     altitude := 1000;
     gForce := 1 |}.

Definition getPosition (s : CraftState.t) : Vector3.t :=
  Vector3.clone (position s).

Definition getVelocity (s : CraftState.t) : Vector3.t :=
  Vector3.clone (velocity s).

Definition getSpeed (s : CraftState.t) : R := speed s.
Definition getAltitude (s : CraftState.t) : R := altitude s.
Definition getGForce (s : CraftState.t) : R := gForce s.

(** The calls a client can make on a controller between construction
    and disposal. *)
Inductive call : Type :=
| Update (deltaTime : R) (inputState : InputState.t)
| Reset.

Definition perform (s : CraftState.t) (c : call) : CraftState.t :=
  match c with
  | Update dt i => update dt i s
  | Reset => reset s
  end.

Definition performAll (s : CraftState.t) (cs : list call) : CraftState.t :=
  fold_left perform cs s.

(** The states a controller can be in. *)
Inductive reachable : CraftState.t -> Prop :=
| reachable_constructor : reachable constructor
| reachable_perform s c : reachable s -> reachable (perform s c).

End CraftController.

(** ** InputManager.ts *)

Module InputManager.

Record t : Type := mk {
  keys : gset string;
  inputState : InputState.t;
  lastTouchX : R;
  lastTouchY : R;
  gyroscopeEnabled : bool;
  gyroAlpha : R;
  gyroBeta : R;
  gyroGamma : R
}.

(** What [requestGyroscopePermission] finds in [window]. *)
Inductive orientationSupport : Type :=
| Unsupported      (* no DeviceOrientationEvent *)
| Supported        (* DeviceOrientationEvent without requestPermission *)
| NeedsPermission. (* DeviceOrientationEvent.requestPermission exists *)

Definition constructor (env : orientationSupport) : t :=
  {| keys := ∅;
     inputState :=
       InputState.mk false false false false false false 0 0 0
         (Touch.mk false 0 0 0 0);
     lastTouchX := 0;
     lastTouchY := 0;
     gyroscopeEnabled :=
       match env with
       | Supported => true
       | Unsupported | NeedsPermission => false
       end;
     gyroAlpha := 0;
     gyroBeta := 0;
     gyroGamma := 0 |}.

(** The raw events the constructor subscribes to, and the settling of
    the permission request it starts. *)
Inductive event : Type :=
| KeyDown (code : string)
| KeyUp (code : string)
| TouchStart (clientX clientY : R)
| TouchMove (clientX clientY : R)
| TouchEnd
| MouseDown (clientX clientY : R)
| MouseMove (clientX clientY : R)
| MouseUp
| DeviceOrientation (alpha beta gamma : option R)
| PermissionResolved (permission : string)
| PermissionRejected.

Definition withTouch (m : t) (f : Touch.t -> Touch.t) : t :=
  let i := inputState m in
  mk (keys m)
     (InputState.mk (InputState.forward i) (InputState.backward i)
        (InputState.left i) (InputState.right i) (InputState.up i)
        (InputState.down i) (InputState.pitch i) (InputState.yaw i)
        (InputState.roll i) (f (InputState.touch i)))
     (lastTouchX m) (lastTouchY m) (gyroscopeEnabled m)
     (gyroAlpha m) (gyroBeta m) (gyroGamma m).

Definition withLastTouch (m : t) (a b : R) : t :=
  mk (keys m) (inputState m) a b (gyroscopeEnabled m)
     (gyroAlpha m) (gyroBeta m) (gyroGamma m).

Definition withKeys (m : t) (ks : gset string) : t :=
  mk ks (inputState m) (lastTouchX m) (lastTouchY m) (gyroscopeEnabled m)
     (gyroAlpha m) (gyroBeta m) (gyroGamma m).

Definition handleKeyDown (code : string) (m : t) : t :=
  withKeys m ({[ code ]} ∪ keys m).

Definition handleKeyUp (code : string) (m : t) : t :=
  withKeys m (keys m ∖ {[ code ]}).

(** [event.touches[0]] is given by its [clientX] and [clientY]. *)
Definition handleTouchStart (clientX clientY : R) (m : t) : t :=
  withLastTouch
    (withTouch m (fun t =>
       Touch.mk true clientX clientY (Touch.deltaX t) (Touch.deltaY t)))
    clientX clientY.

Definition handleTouchMove (clientX clientY : R) (m : t) : t :=
  if negb (Touch.active (InputState.touch (inputState m)))
  then m
  else
    withLastTouch
      (withTouch m (fun t =>
         Touch.mk (Touch.active t) (Touch.x t) (Touch.y t)
           (clientX - lastTouchX m) (clientY - lastTouchY m)))
      clientX clientY.

Definition handleTouchEnd (m : t) : t :=
  withTouch m (fun t => Touch.mk false (Touch.x t) (Touch.y t) 0 0).

Definition handleMouseDown (clientX clientY : R) (m : t) : t :=
  withLastTouch
    (withTouch m (fun t =>
       Touch.mk true clientX clientY (Touch.deltaX t) (Touch.deltaY t)))
    clientX clientY.

Definition handleMouseMove (clientX clientY : R) (m : t) : t :=
  if negb (Touch.active (InputState.touch (inputState m)))
  then m
  else
    withLastTouch
      (withTouch m (fun t =>
         Touch.mk (Touch.active t) (Touch.x t) (Touch.y t)
           (clientX - lastTouchX m) (clientY - lastTouchY m)))
      clientX clientY.

Definition handleMouseUp (m : t) : t :=
  withTouch m (fun t => Touch.mk false (Touch.x t) (Touch.y t) 0 0).

(** JavaScript [a || 0] on [number | null]. *)
Definition orZero (a : option R) : R :=
  match a with
  | Some v => v
  | None => 0
  end.

Definition handleDeviceOrientation (alpha beta gamma : option R) (m : t) : t :=
  if negb (gyroscopeEnabled m)
  then m
  else mk (keys m) (inputState m) (lastTouchX m) (lastTouchY m)
          (gyroscopeEnabled m) (orZero alpha) (orZero beta) (orZero gamma).

(** The continuation of [await requestPermission()]. *)
Definition permissionResolved (permission : string) (m : t) : t :=
  mk (keys m) (inputState m) (lastTouchX m) (lastTouchY m)
     (String.eqb permission "granted")
     (gyroAlpha m) (gyroBeta m) (gyroGamma m).

Definition handle (e : event) (m : t) : t :=
  match e with
  | KeyDown code => handleKeyDown code m
  | KeyUp code => handleKeyUp code m
  | TouchStart a b => handleTouchStart a b m
  | TouchMove a b => handleTouchMove a b m
  | TouchEnd => handleTouchEnd m
  | MouseDown a b => handleMouseDown a b m
  | MouseMove a b => handleMouseMove a b m
  | MouseUp => handleMouseUp m
  | DeviceOrientation a b g => handleDeviceOrientation a b g m
  | PermissionResolved p => permissionResolved p m
  | PermissionRejected => m
  end.

Definition has (m : t) (code : string) : bool :=
  bool_decide (code ∈ keys m).

(** [a > b] on numbers, as a condition. *)
Definition gt (a b : R) : bool := if Rlt_dec b a then true else false.

(** [Math.max(-1, Math.min(1, a))] *)
Definition clamp (a : R) : R := Rmax (-1) (Rmin 1 a).

Definition update (m : t) : t :=
  let touch := InputState.touch (inputState m) in
  (* Update keyboard input *)
  let forward := has m "KeyW" || has m "ArrowUp" in
  let backward := has m "KeyS" || has m "ArrowDown" in
  let left := has m "KeyA" || has m "ArrowLeft" in
  let right := has m "KeyD" || has m "ArrowRight" in
  let up := has m "Space" || has m "KeyQ" in
  let down := has m "ShiftLeft" || has m "KeyE" in
  (* Update rotation from touch/mouse *)
  let sensitivity := 0.002 in
  let yaw0 := if Touch.active touch
              then - Touch.deltaX touch * sensitivity else 0 in
  let pitch0 := if Touch.active touch
                then - Touch.deltaY touch * sensitivity else 0 in
  (* Update rotation from gyroscope *)
  let engaged := gyroscopeEnabled m && gt (Rabs (gyroGamma m)) 5 in
  let roll1 := if engaged then gyroGamma m * 0.01 else 0 in
  let pitch1 := if engaged then pitch0 + gyroBeta m * 0.005 else pitch0 in
  let yaw1 := if engaged then yaw0 + gyroAlpha m * 0.005 else yaw0 in
  (* Clamp rotation values *)
  mk (keys m)
     (InputState.mk forward backward left right up down
        (clamp pitch1) (clamp yaw1) (clamp roll1) touch)
     (lastTouchX m) (lastTouchY m) (gyroscopeEnabled m)
     (gyroAlpha m) (gyroBeta m) (gyroGamma m).

(** [getState()] is [{ ...this.inputState }]: the fields of the
    record (what the copy shares is the subject of [Alias]). *)
Definition getState (m : t) : InputState.t := inputState m.

(** What can happen to an input manager: a raw event, or the loop
    calling [update()]. *)
Inductive step : Type :=
| Event (e : event)
| Update.

Definition perform (m : t) (s : step) : t :=
  match s with
  | Event e => handle e m
  | Update => update m
  end.

Definition performAll (m : t) (ss : list step) : t := fold_left perform ss m.

End InputManager.

(** ** GameState.ts *)

Module GameState.

Inductive GameMode : Type := menu | playing | paused.
Inductive HudMode : Type := normal | stealth | tactical.

Record Systems : Type := mkSystems {
  propulsion : bool;
  cloaking : bool;
  sensors : bool
}.

Record Hud : Type := mkHud {
  visible : bool;
  mode : HudMode
}.

Record t : Type := mk {
  gameMode : GameMode;
  currentMission : option string; (* string | null *)
  position : Vector3.t;
  velocity : Vector3.t;
  altitude : R;
  speed : R;
  gForce : R;
  systems : Systems;
  hud : Hud
}.

(** [Partial<GameState>]: every field may be absent. *)
Record partial : Type := mkPartial {
  p_gameMode : option GameMode;
  p_currentMission : option (option string);
  p_position : option Vector3.t;
  p_velocity : option Vector3.t;
  p_altitude : option R;
  p_speed : option R;
  p_gForce : option R;
  p_systems : option Systems;
  p_hud : option Hud
}.

Definition noUpdates : partial :=
  mkPartial None None None None None None None None None.

Definition initialGameState : t :=
  {| gameMode := menu;
     currentMission := None;
     position := Vector3.mk 0 1000 0;
     velocity := Vector3.mk 0 0 0;
     altitude := 1000;
     speed := 0;
     gForce := 1;
     systems := mkSystems true false true;
     hud := mkHud true normal |}.

(** A field of [{ ...prev, ...updates }]. *)
Definition over {A : Type} (prev : A) (upd : option A) : A :=
  match upd with
  | Some a => a
  | None => prev
  end.

(** The state updater passed to [setGameState]. *)
Definition updateGameState (prev : t) (updates : partial) : t :=
  {| gameMode := over (gameMode prev) (p_gameMode updates);
     currentMission := over (currentMission prev) (p_currentMission updates);
     position := over (position prev) (p_position updates);
     velocity := over (velocity prev) (p_velocity updates);
     altitude := over (altitude prev) (p_altitude updates);
     speed := over (speed prev) (p_speed updates);
     gForce := over (gForce prev) (p_gForce updates);
     systems :=
       match p_systems updates with
       | Some u => mkSystems (propulsion u) (cloaking u) (sensors u)
       | None => systems prev
       end;
     hud :=
       match p_hud updates with
       | Some u => mkHud (visible u) (mode u)
       | None => hud prev
       end |}.

End GameState.

(** ** three.js Clock

    [new THREE.Clock()] starts on the first [getDelta()], which returns
    [0]; later calls return the time since the previous call.  Host time
    is kept in seconds. *)

Module Clock.

Record t : Type := mk { running : bool; oldTime : R; elapsedTime : R }.

Definition constructor : t := mk false 0 0.

Definition getDelta (now : R) (c : t) : R * t :=
  if running c
  then let diff := now - oldTime c in
       (diff, mk true now (elapsedTime c + diff))
  else (0, mk true now 0).

Definition getElapsedTime (now : R) (c : t) : R * t :=
  let '(_, c') := getDelta now c in (elapsedTime c', c').

End Clock.

(** ** GameEngine.ts *)

Module GameEngine.

(** The fields of the engine that the lifecycle and the tick read or
    write.  Of each effect module only the flag the engine can observe
    is kept: the field [isActive] of propulsion, cloaking and sensors
    (what their [update] reads and their [setActive] writes) and the
    field [isInitialized] of audio.  [released] records that
    [dispose()] has released the renderer and the audio context. *)
Record t : Type := mk {
  clock : Clock.t;
  animationId : option nat;
  craft : CraftState.t;
  propulsion : bool;
  cloaking : bool;
  sensors : bool;
  audio : bool;
  input : InputManager.t;
  isInitialized : bool;
  isPaused : bool;
  released : bool
}.

(** The engine together with what it talks to: the host (time and the
    queue of animation-frame callbacks, all of which are [animate]),
    the React state behind [updateGameState], the [initialize()]
    calls still waiting on [Promise.all], and three counters kept for
    the statements below: how many times [update()] was entered, how
    many times [console.error] was called, and how many exceptions
    left the engine uncaught (out of an animation-frame callback, or
    out of a public method into the event handler that called it). *)
Record World : Type := mkWorld {
  engine : t;
  now : R;
  frames : list nat;
  nextHandle : nat;
  gameState : GameState.t;
  initializing : nat;
  ticks : nat;
  errors : nat;
  uncaught : nat
}.

(** How a call ends: it returns, or it throws.  The state a call
    leaves behind is the state at that point in both cases. *)
Inductive completion : Type :=
| Returns
| Throws.

Definition onEngine (f : t -> t) (w : World) : World :=
  mkWorld (f (engine w)) (now w) (frames w) (nextHandle w) (gameState w)
          (initializing w) (ticks w) (errors w) (uncaught w).

Definition setAnimationId (a : option nat) (e : t) : t :=
  mk (clock e) a (craft e) (propulsion e) (cloaking e) (sensors e)
     (audio e) (input e) (isInitialized e) (isPaused e) (released e).

Definition setCraft (c : CraftState.t) (e : t) : t :=
  mk (clock e) (animationId e) c (propulsion e) (cloaking e) (sensors e)
     (audio e) (input e) (isInitialized e) (isPaused e) (released e).

Definition setInput (i : InputManager.t) (e : t) : t :=
  mk (clock e) (animationId e) (craft e) (propulsion e) (cloaking e)
     (sensors e) (audio e) i (isInitialized e) (isPaused e) (released e).

Definition setClock (c : Clock.t) (e : t) : t :=
  mk c (animationId e) (craft e) (propulsion e) (cloaking e) (sensors e)
     (audio e) (input e) (isInitialized e) (isPaused e) (released e).

Definition setIsPaused (b : bool) (e : t) : t :=
  mk (clock e) (animationId e) (craft e) (propulsion e) (cloaking e)
     (sensors e) (audio e) (input e) (isInitialized e) b (released e).

Definition setIsInitialized (b : bool) (e : t) : t :=
  mk (clock e) (animationId e) (craft e) (propulsion e) (cloaking e)
     (sensors e) (audio e) (input e) b (isPaused e) (released e).

Definition setAudio (b : bool) (e : t) : t :=
  mk (clock e) (animationId e) (craft e) (propulsion e) (cloaking e)
     (sensors e) b (input e) (isInitialized e) (isPaused e) (released e).

Definition setReleased (b : bool) (e : t) : t :=
  mk (clock e) (animationId e) (craft e) (propulsion e) (cloaking e)
     (sensors e) (audio e) (input e) (isInitialized e) (isPaused e) b.

Definition setSystems (p c s : bool) (e : t) : t :=
  mk (clock e) (animationId e) (craft e) p c s
     (audio e) (input e) (isInitialized e) (isPaused e) (released e).

Definition setGameState (g : GameState.t) (w : World) : World :=
  mkWorld (engine w) (now w) (frames w) (nextHandle w) g
          (initializing w) (ticks w) (errors w) (uncaught w).

Definition setInitializing (n : nat) (w : World) : World :=
  mkWorld (engine w) (now w) (frames w) (nextHandle w) (gameState w)
          n (ticks w) (errors w) (uncaught w).

(** [new GameEngine(canvas, updateGameState)] in a fresh page. *)
Definition constructor (env : InputManager.orientationSupport) : World :=
  {| engine :=
       {| clock := Clock.constructor;
          animationId := None;
          craft := CraftController.constructor;
          propulsion := true;
          cloaking := false;
          sensors := true;
          audio := false;
          input := InputManager.constructor env;
          isInitialized := false;
          isPaused := false;
          released := false |};
     now := 0;
     frames := [];
     nextHandle := 1;
     gameState := GameState.initialGameState;
     initializing := 0;
     ticks := 0;
     errors := 0;
     uncaught := 0 |}.

(** [requestAnimationFrame(animate)]: a fresh non-zero handle. *)
Definition requestAnimationFrame (w : World) : nat * World :=
  (nextHandle w,
   mkWorld (engine w) (now w) (frames w ++ [nextHandle w])
           (S (nextHandle w)) (gameState w) (initializing w)
           (ticks w) (errors w) (uncaught w)).

Definition cancelAnimationFrame (id : nat) (w : World) : World :=
  mkWorld (engine w) (now w)
          (filter (fun h => negb (Nat.eqb h id)) (frames w))
          (nextHandle w) (gameState w) (initializing w)
          (ticks w) (errors w) (uncaught w).

(** [console.error(...)] *)
Definition logError (w : World) : World :=
  mkWorld (engine w) (now w) (frames w) (nextHandle w) (gameState w)
          (initializing w) (ticks w) (S (errors w)) (uncaught w).

(** An exception that nothing catches is reported by the host. *)
Definition uncaughtError (r : World * completion) : World :=
  match r with
  | (w, Returns) => w
  | (w, Throws) =>
      mkWorld (engine w) (now w) (frames w) (nextHandle w) (gameState w)
              (initializing w) (ticks w) (errors w) (S (uncaught w))
  end.

(** [this.propulsion.isActive()], and the same call on cloaking and
    sensors.  Each of the three classes declares the field
    [isActive] and a method [isActive()].  The field is an own
    property of the instance and hides the method of the prototype,
    so [isActive] evaluates to the boolean [field], and calling a
    boolean throws a [TypeError]: the call yields no value. *)
Definition callIsActive (field : bool) : option bool := None.

(** [update()]: one tick.  The [update] methods of the effect modules
    only drive shaders, meshes and oscillators.  The argument of
    [this.updateGameState] is evaluated before the call; when one of
    its [isActive()] calls throws, nothing is published and the
    exception leaves [update()]. *)
Definition update (w : World) : World * completion :=
  let e := engine w in
  let '(deltaTime, clock1) := Clock.getDelta (now w) (clock e) in
  let '(_, clock2) := Clock.getElapsedTime (now w) clock1 in
  (* Update input *)
  let input1 := InputManager.update (input e) in
  (* Update craft *)
  let craft1 :=
    CraftController.update deltaTime (InputManager.getState input1) (craft e) in
  let w1 :=
    mkWorld (setCraft craft1 (setInput input1 (setClock clock2 e)))
            (now w) (frames w) (nextHandle w) (gameState w)
            (initializing w) (S (ticks w)) (errors w) (uncaught w) in
  (* Update game state *)
  match callIsActive (propulsion e) with
  | None => (w1, Throws)
  | Some p =>
  match callIsActive (cloaking e) with
  | None => (w1, Throws)
  | Some c =>
  match callIsActive (sensors e) with
  | None => (w1, Throws)
  | Some s =>
      let updates :=
        {| GameState.p_gameMode := None;
           GameState.p_currentMission := None;
           GameState.p_position := Some (CraftController.getPosition craft1);
           GameState.p_velocity := Some (CraftController.getVelocity craft1);
           GameState.p_altitude := Some (CraftController.getAltitude craft1);
           GameState.p_speed := Some (CraftController.getSpeed craft1);
           GameState.p_gForce := Some (CraftController.getGForce craft1);
           GameState.p_systems := Some (GameState.mkSystems p c s);
           GameState.p_hud := None |} in
      (setGameState (GameState.updateGameState (gameState w1) updates) w1,
       Returns)
  end end end.

(** The closure [animate] of [start()]: [this.render()], which draws
    only, runs when [this.update()] returns. *)
Definition animate (w : World) : World * completion :=
  if isPaused (engine w) then (w, Returns)
  else
    let '(id, w1) := requestAnimationFrame w in
    let '(w2, c) := update (onEngine (setAnimationId (Some id)) w1) in
    match c with
    | Throws => (w2, Throws)
    | Returns => (w2, Returns)
    end.

Definition start (w : World) : World * completion :=
  match animationId (engine w) with
  | Some _ => (w, Returns)
  | None => animate w
  end.

(** How the six promises given to [Promise.all] settle: [true] for
    fulfilled, [false] for rejected.  [AudioSystem.initialize()]
    catches its own failure and always fulfils; [audioOk] says
    whether its body succeeded. *)
Record outcome : Type := mkOutcome {
  craftOk : bool;
  propulsionOk : bool;
  cloakingOk : bool;
  sensorsOk : bool;
  environmentOk : bool;
  audioOk : bool
}.

Definition allFulfilled (o : outcome) : bool :=
  craftOk o && propulsionOk o && cloakingOk o && sensorsOk o
  && environmentOk o.

(** [initialize()] up to its [await]. *)
Definition initializeCall (w : World) : World :=
  if isInitialized (engine w) then w
  else setInitializing (S (initializing w)) w.

(** [initialize()] from the [await] on, once the promises have
    settled as [o].  The [catch] takes a rejection of [Promise.all]
    and also whatever [this.start()] throws. *)
Definition initializeSettled (o : outcome) (w : World) : World :=
  match initializing w with
  | O => w
  | S n =>
      let w1 :=
        onEngine (fun e => setAudio (audio e || audioOk o) e)
                 (setInitializing n w) in
      if allFulfilled o
      then
        match start (onEngine (setIsInitialized true) w1) with
        | (w2, Returns) => w2
        | (w2, Throws) => logError w2
        end
      else logError w1
  end.

(** [initialize()] when nothing else happens before its promises
    settle. *)
Definition initialize (o : outcome) (w : World) : World :=
  initializeSettled o (initializeCall w).

(** [environment.loadMission] only replaces the fog of the scene.
    Nothing in [startMission] catches what [this.start()] throws. *)
Definition startMission (mission : string) (w : World) : World :=
  uncaughtError
    (start
       (onEngine
          (fun e => setIsPaused false (setCraft (CraftController.reset (craft e)) e))
          w)).

Definition toggleSystem (system : string) (enabled : bool) (w : World) : World :=
  onEngine
    (fun e =>
       if String.eqb system "propulsion"
       then setSystems enabled (cloaking e) (sensors e) e
       else if String.eqb system "cloaking"
       then setSystems (propulsion e) enabled (sensors e) e
       else if String.eqb system "sensors"
       then setSystems (propulsion e) (cloaking e) enabled e
       else e)
    w.

Definition pause (w : World) : World :=
  let w1 := onEngine (setIsPaused true) w in
  match animationId (engine w1) with
  | Some id => onEngine (setAnimationId None) (cancelAnimationFrame id w1)
  | None => w1
  end.

Definition resume (w : World) : World :=
  uncaughtError (start (onEngine (setIsPaused false) w)).

(** [dispose()]: [pause()], then the renderer, the meshes and the
    audio context are released.  The two [removeEventListener] calls
    pass freshly bound functions, so the listeners stay. *)
Definition dispose (w : World) : World :=
  onEngine (setReleased true) (pause w).

Definition handleVisibilityChange (hidden : bool) (w : World) : World :=
  if hidden then pause w else w.

(** The host runs the animation-frame callbacks that were pending
    when the frame began. *)
Definition frame (w : World) : World :=
  fold_left (fun w' _ => uncaughtError (animate w')) (frames w)
    (mkWorld (engine w) (now w) [] (nextHandle w) (gameState w)
             (initializing w) (ticks w) (errors w) (uncaught w)).

Definition elapse (d : R) (w : World) : World :=
  mkWorld (engine w) (now w + d) (frames w) (nextHandle w) (gameState w)
          (initializing w) (ticks w) (errors w) (uncaught w).

End GameEngine.

(** ** App.tsx *)

Module App.

Import GameEngine.

(** [onMissionSelect] *)
Definition onMissionSelect (mission : string) (w : World) : World :=
  let updates :=
    {| GameState.p_gameMode := Some GameState.playing;
       GameState.p_currentMission := Some (Some mission);
       GameState.p_position := None;
       GameState.p_velocity := None;
       GameState.p_altitude := None;
       GameState.p_speed := None;
       GameState.p_gForce := None;
       GameState.p_systems := None;
       GameState.p_hud := None |} in
  startMission mission
    (setGameState (GameState.updateGameState (gameState w) updates) w).

(** [onSystemToggle]: [{ ...gameState.systems, [system]: enabled }] *)
Definition onSystemToggle (system : string) (enabled : bool) (w : World) : World :=
  let s := GameState.systems (gameState w) in
  let s' :=
    if String.eqb system "propulsion"
    then GameState.mkSystems enabled (GameState.cloaking s) (GameState.sensors s)
    else if String.eqb system "cloaking"
    then GameState.mkSystems (GameState.propulsion s) enabled (GameState.sensors s)
    else if String.eqb system "sensors"
    then GameState.mkSystems (GameState.propulsion s) (GameState.cloaking s) enabled
    else s in
  let updates :=
    {| GameState.p_gameMode := None;
       GameState.p_currentMission := None;
       GameState.p_position := None;
       GameState.p_velocity := None;
       GameState.p_altitude := None;
       GameState.p_speed := None;
       GameState.p_gForce := None;
       GameState.p_systems := Some s';
       GameState.p_hud := None |} in
  toggleSystem system enabled
    (setGameState (GameState.updateGameState (gameState w) updates) w).

(** [onPause] *)
Definition onPause (w : World) : World :=
  let updates :=
    {| GameState.p_gameMode := Some GameState.paused;
       GameState.p_currentMission := None;
       GameState.p_position := None;
       GameState.p_velocity := None;
       GameState.p_altitude := None;
       GameState.p_speed := None;
       GameState.p_gForce := None;
       GameState.p_systems := None;
       GameState.p_hud := None |} in
  pause (setGameState (GameState.updateGameState (gameState w) updates) w).

(** Everything that can happen to a running application. *)
Inductive op : Type :=
| Initialize
| InitializeSettled (o : outcome)
| StartMission (mission : string)
| ToggleSystem (system : string) (enabled : bool)
| Pause
| Resume
| Dispose
| VisibilityChange (hidden : bool)
| Frame
| Elapse (d : R)
| Input (e : InputManager.event)
| MissionSelect (mission : string)
| SystemToggle (system : string) (enabled : bool)
| HudPause.

Definition perform (w : World) (o : op) : World :=
  match o with
  | Initialize => initializeCall w
  | InitializeSettled r => initializeSettled r w
  | StartMission m => startMission m w
  | ToggleSystem s b => toggleSystem s b w
  | Pause => pause w
  | Resume => resume w
  | Dispose => dispose w
  | VisibilityChange h => handleVisibilityChange h w
  | Frame => frame w
  | Elapse d => elapse d w
  | Input e => onEngine (fun g => setInput (InputManager.handle e (input g)) g) w
  | MissionSelect m => onMissionSelect m w
  | SystemToggle s b => onSystemToggle s b w
  | HudPause => onPause w
  end.

Definition run (w : World) (os : list op) : World := fold_left perform os w.

(** The operations that set [isPaused] back to [false]. *)
Definition rearms (o : op) : bool :=
  match o with
  | Resume | StartMission _ | MissionSelect _ => true
  | _ => false
  end.

(** The motion fields of the published state; in the sources only
    [update()] passes them to [updateGameState]. *)
Definition published (w : World)
    : Vector3.t * Vector3.t * R * R * R :=
  let g := gameState w in
  (GameState.position g, GameState.velocity g, GameState.altitude g,
   GameState.speed g, GameState.gForce g).

(** No tick ran between [w] and [w']: the tick counter, the craft and
    the published motion are those of [w]. *)
Definition noTickBetween (w w' : World) : Prop :=
  ticks w' = ticks w
  /\ craft (engine w') = craft (engine w)
  /\ published w' = published w.

End App.

(** ** Objects and references

    [THREE.Vector3], [THREE.Euler] and the [touch] record are objects:
    a field that holds one holds a reference, and the methods [set],
    [add], [multiplyScalar] and [normalize], like an assignment to a
    field, change the object in place.  An object spread
    [{ ...obj }] builds a new object whose fields have the values of the
    fields of [obj]; where that value is a reference, both objects refer
    to the same vector. *)

Module Alias.

Definition ref : Type := nat.

Inductive object : Type :=
| VectorObj (v : Vector3.t)
| EulerObj (e : Euler.t)
| TouchObj (t : Touch.t).

Definition heap : Type := list object.

(** [new ...] and [clone()]: a fresh object. *)
Definition alloc (o : object) (h : heap) : ref * heap :=
  (length h, h ++ [o]).

Definition vectorAt (h : heap) (r : ref) : Vector3.t :=
  match h !! r with
  | Some (VectorObj v) => v
  | _ => Vector3.zero
  end.

Definition eulerAt (h : heap) (r : ref) : Euler.t :=
  match h !! r with
  | Some (EulerObj e) => e
  | _ => Euler.mk 0 0 0
  end.

Definition touchAt (h : heap) (r : ref) : Touch.t :=
  match h !! r with
  | Some (TouchObj t) => t
  | _ => Touch.mk false 0 0 0 0
  end.

(** *** CraftController *)

(** A [CraftState] object: references for the five object-valued
    fields, numbers for the rest. *)
Record CraftStateObj : Type := mkCraft {
  position : ref;
  velocity : ref;
  acceleration : ref;
  rotation : ref;
  angularVelocity : ref;
  mass : R;
  gravityReduction : R;
  speed : R;
  altitude : R;
  gForce : R
}.

(** What a [CraftState] object denotes in a heap. *)
Definition craftValue (h : heap) (o : CraftStateObj) : CraftState.t :=
  {| CraftState.position := vectorAt h (position o);
     CraftState.velocity := vectorAt h (velocity o);
     CraftState.acceleration := vectorAt h (acceleration o);
     CraftState.rotation := eulerAt h (rotation o);
     CraftState.angularVelocity := vectorAt h (angularVelocity o);
     CraftState.mass := mass o;
     CraftState.gravityReduction := gravityReduction o;
     CraftState.speed := speed o;
     CraftState.altitude := altitude o;
     CraftState.gForce := gForce o |}.

(** A controller: [this.state] and the heap it lives in. *)
Definition controller : Type := CraftStateObj * heap.

Definition craftConstructor (h : heap) : controller :=
  let s := CraftController.constructor in
  let '(p, h1) := alloc (VectorObj (CraftState.position s)) h in
  let '(v, h2) := alloc (VectorObj (CraftState.velocity s)) h1 in
  let '(a, h3) := alloc (VectorObj (CraftState.acceleration s)) h2 in
  let '(r, h4) := alloc (EulerObj (CraftState.rotation s)) h3 in
  let '(w, h5) := alloc (VectorObj (CraftState.angularVelocity s)) h4 in
  (mkCraft p v a r w (CraftState.mass s) (CraftState.gravityReduction s)
     (CraftState.speed s) (CraftState.altitude s) (CraftState.gForce s),
   h5).

(** The methods of [CraftController] change the five objects in
    place and assign the numeric fields of [this.state]; the vectors
    they [clone()] or create are temporaries. *)
Definition writeBack (s : CraftState.t) (c : controller) : controller :=
  let '(o, h) := c in
  (mkCraft (position o) (velocity o) (acceleration o) (rotation o)
     (angularVelocity o) (CraftState.mass s) (CraftState.gravityReduction s)
     (CraftState.speed s) (CraftState.altitude s) (CraftState.gForce s),
   <[angularVelocity o := VectorObj (CraftState.angularVelocity s)]>
     (<[rotation o := EulerObj (CraftState.rotation s)]>
        (<[acceleration o := VectorObj (CraftState.acceleration s)]>
           (<[velocity o := VectorObj (CraftState.velocity s)]>
              (<[position o := VectorObj (CraftState.position s)]> h))))).

Definition craftUpdate (deltaTime : R) (i : InputState.t) (c : controller)
    : controller :=
  writeBack (CraftController.update deltaTime i (craftValue (snd c) (fst c))) c.

Definition craftReset (c : controller) : controller :=
  writeBack (CraftController.reset (craftValue (snd c) (fst c))) c.

(** [getState()] is [{ ...this.state }]. *)
Definition craftGetState (c : controller) : CraftStateObj :=
  let o := fst c in
  mkCraft (position o) (velocity o) (acceleration o) (rotation o)
    (angularVelocity o) (mass o) (gravityReduction o) (speed o)
    (altitude o) (gForce o).

(** [getPosition()] is [this.state.position.clone()]. *)
Definition craftGetPosition (c : controller) : ref * heap :=
  alloc (VectorObj (vectorAt (snd c) (position (fst c)))) (snd c).

(** An assignment [v.y = a] through a reference to a vector. *)
Definition assignY (r : ref) (a : R) (h : heap) : heap :=
  let v := vectorAt h r in
  <[r := VectorObj (Vector3.mk (Vector3.x v) a (Vector3.z v))]> h.

(** *** InputManager *)

(** An [InputState] object: a reference for [touch]. *)
Record InputStateObj : Type := mkInput {
  forward : bool;
  backward : bool;
  left : bool;
  right : bool;
  up : bool;
  down : bool;
  pitch : R;
  yaw : R;
  roll : R;
  touch : ref
}.

Definition inputValue (h : heap) (o : InputStateObj) : InputState.t :=
  InputState.mk (forward o) (backward o) (left o) (right o) (up o) (down o)
    (pitch o) (yaw o) (roll o) (touchAt h (touch o)).

(** An input manager: the reference held by [this.inputState.touch],
    the other fields, and the heap. *)
Record manager : Type := mkManager {
  touchRef : ref;
  fields : InputManager.t;
  store : heap
}.

(** The manager with its [touch] read from the heap. *)
Definition managerValue (m : manager) : InputManager.t :=
  InputManager.withTouch (fields m) (fun _ => touchAt (store m) (touchRef m)).

Definition managerConstructor (env : InputManager.orientationSupport)
    (h : heap) : manager :=
  let m := InputManager.constructor env in
  let '(r, h1) :=
    alloc (TouchObj (InputState.touch (InputManager.inputState m))) h in
  mkManager r m h1.

(** Handlers and [update()] assign fields of [this.inputState] and of
    [this.inputState.touch] in place. *)
Definition managerPerform (s : InputManager.step) (m : manager) : manager :=
  let v := InputManager.perform (managerValue m) s in
  mkManager (touchRef m) v
    (<[touchRef m :=
         TouchObj (InputState.touch (InputManager.inputState v))]> (store m)).

(** [getState()] is [{ ...this.inputState }]. *)
Definition managerGetState (m : manager) : InputStateObj :=
  let i := InputManager.inputState (managerValue m) in
  mkInput (InputState.forward i) (InputState.backward i) (InputState.left i)
    (InputState.right i) (InputState.up i) (InputState.down i)
    (InputState.pitch i) (InputState.yaw i) (InputState.roll i)
    (touchRef m).

(** An assignment [t.active = b] through a reference to a touch
    record. *)
Definition assignActive (r : ref) (b : bool) (h : heap) : heap :=
  let t := touchAt h r in
  <[r := TouchObj (Touch.mk b (Touch.x t) (Touch.y t)
                     (Touch.deltaX t) (Touch.deltaY t))]> h.

End Alias.

(** ** Scenarios

    The inputs and event sequences the statements below are evaluated
    at. *)

Module Scenario.

Definition idleTouch : Touch.t := Touch.mk false 0 0 0 0.

(** No key held, no contact, no tilt. *)
Definition noInput : InputState.t :=
  InputState.mk false false false false false false 0 0 0 idleTouch.

(** Only [up] held. *)
Definition upOnly : InputState.t :=
  InputState.mk false false false false true false 0 0 0 idleTouch.

(** Every promise of [initialize()] fulfils. *)
Definition allOk : GameEngine.outcome :=
  GameEngine.mkOutcome true true true true true true.

(** [SensorSystem.initialize()] rejects, the rest fulfil. *)
Definition sensorsFail : GameEngine.outcome :=
  GameEngine.mkOutcome true true true false true true.

(** The body of [AudioSystem.initialize()] throws (and catches); every
    promise fulfils. *)
Definition audioFail : GameEngine.outcome :=
  GameEngine.mkOutcome true true true true true false.

(** A page without orientation events, its engine initialised. *)
Definition running : GameEngine.World :=
  GameEngine.initialize allOk
    (GameEngine.constructor InputManager.Unsupported).

(** The page is hidden one second later, while the menu is shown. *)
Definition hiddenInMenu : GameEngine.World :=
  App.run running [App.Elapse 1; App.VisibilityChange true].

End Scenario.

(** ** CraftController.ts: the camera *)

Module CraftCamera.

(** What [updateCamera] writes: the position and the rotation of the
    camera. *)
Record t : Type := mk { position : Vector3.t; rotation : Euler.t }.

(** [a > b] on numbers, as a condition. *)
Definition gt (a b : R) : bool := if Rlt_dec b a then true else false.


End CraftCamera.

(** ** HUD.tsx *)

Module HUD.

(** The condition under which the HIGH G-FORCE WARNING is rendered. *)
Definition highGWarning (g : GameState.t) : bool :=
  CraftCamera.gt (GameState.gForce g) 5.

End HUD.

(** ** Environment.ts *)

Module Environment.

(** [Math.max(0, Math.min(255, c)) / 255] *)
Definition channel (c : R) : R := Rmax 0 (Rmin 255 c) / 255.

(** [Math.pow] and [Math.log] are only applied to positive numbers
    here, where they are [Rpower] and [ln]. *)
Definition temperatureToRGB (temp0 : R) : R * R * R :=
  let temp := temp0 / 100 in
  let '(r, g) :=
    if Rle_dec temp 66
    then (255,
          if Rlt_dec temp 19 then 0
          else 99.4708025861 * ln (temp - 10) - 161.1195681661)
    else (329.698727446 * Rpower (temp - 60) (-0.1332047592),
          288.1221695283 * Rpower (temp - 60) (-0.0755148492)) in
  let b :=
    if Rle_dec 66 temp then 255
    else if Rle_dec temp 19 then 0
    else 138.5177312231 * ln (temp - 10) - 305.0447927307 in
  (channel r, channel g, channel b).

End Environment.

(** ** AudioSystem.ts *)

Module AudioSystem.

(** [audioContext] is [true] when the field is not [null]; [engines]
    holds the frequency of each oscillator. *)
Record t : Type := mk {
  audioContext : bool;
  engines : list R;
  isInitialized : bool
}.

Definition constructor : t := mk false [] false.

(** The three [push]es of [createEngineSound]. *)
Definition createEngineSound (a : t) : t :=
  if negb (audioContext a) then a
  else mk (audioContext a)
          (engines a ++ [432.7 + 0 * 10; 432.7 + 1 * 10; 432.7 + 2 * 10])
          (isInitialized a).

(** [initialize()]; [available] says whether the page has an
    [AudioContext] constructor.  Without one the [new] throws, the
    [catch] logs a warning and the fields keep their values. *)
Definition initialize (available : bool) (a : t) : t :=
  if isInitialized a then a
  else if available
  then let a1 := createEngineSound (mk true (engines a) (isInitialized a)) in
       mk (audioContext a1) (engines a1) true
  else a.

Definition update (craftState : CraftState.t) (a : t) : t :=
  if negb (isInitialized a) || negb (audioContext a) then a
  else
    let speedFactor := Rmin (CraftState.speed craftState / 1000) 1 in
    let gForceFactor := Rmin (CraftState.gForce craftState / 5) 1 in
    mk (audioContext a)
       (imap (fun index _ =>
                let baseFreq := 432.7 + INR index * 10 in
                let modulation := speedFactor * 100 + gForceFactor * 50 in
                baseFreq + modulation)
             (engines a))
       (isInitialized a).

(** What a client can do with an audio system. *)
Inductive call : Type :=
| Initialize (available : bool)
| Update (craftState : CraftState.t).

Definition perform (a : t) (c : call) : t :=
  match c with
  | Initialize b => initialize b a
  | Update s => update s a
  end.

End AudioSystem.

(** ** CloakingSystem.ts *)

Module CloakingSystem.

(** [cloakMaterial] is [true] when the field is not [null]. *)
Record t : Type := mk {
  cloakMaterial : bool;
  isActive : bool;
  cloakIntensity : R
}.

Definition constructor : t := mk false false 0.

Definition initialize (c : t) : t := mk true (isActive c) (cloakIntensity c).

(** [update(deltaTime, craftState)]: the field it changes. *)
Definition update (deltaTime : R) (c : t) : t :=
  if negb (cloakMaterial c) then c
  else
    (* Smoothly transition cloak intensity *)
    let targetIntensity := if isActive c then 1.0 else 0.0 in
    mk (cloakMaterial c) (isActive c)
       (cloakIntensity c + (targetIntensity - cloakIntensity c) * deltaTime * 2).

Definition setActive (active : bool) (c : t) : t :=
  mk (cloakMaterial c) active (cloakIntensity c).

Inductive call : Type :=
| Initialize
| Update (deltaTime : R)
| SetActive (active : bool).

Definition perform (c : t) (k : call) : t :=
  match k with
  | Initialize => initialize c
  | Update dt => update dt c
  | SetActive b => setActive b c
  end.

End CloakingSystem.

(** ** PropulsionSystem.ts *)

Module PropulsionSystem.

(** A plasma ring: its [rotation.y] and the [time] and [intensity]
    uniforms of its material. *)
Record ring : Type := mkRing { rotationY : R; time : R; intensity : R }.

(** [particles] pairs each position of the [position] attribute with
    the velocity at the same index of the [velocity] attribute; it is
    [None] while [particleSystem] is [null]. *)
Record t : Type := mk {
  plasmaRings : list ring;
  particles : option (list (Vector3.t * Vector3.t));
  isActive : bool
}.

Definition constructor : t := mk [] None true.

(** [Math.random()]: the [k]-th number it returns is [rng k]. *)
Definition random : Type := nat -> R.

(** The body of the particle loop for one particle; [k] counts the
    calls of [Math.random()] so far. *)
Definition stepParticle (rng : random) (deltaTime : R)
    (pv : Vector3.t * Vector3.t) (k : nat) : (Vector3.t * Vector3.t) * nat :=
  let '(p, v) := pv in
  (* Update positions based on velocities *)
  let p1 := Vector3.mk (Vector3.x p + Vector3.x v * deltaTime)
                       (Vector3.y p + Vector3.y v * deltaTime)
                       (Vector3.z p + Vector3.z v * deltaTime) in
  (* Reset particles that go too far *)
  let distance := sqrt (Vector3.x p1 * Vector3.x p1 + Vector3.y p1 * Vector3.y p1
                        + Vector3.z p1 * Vector3.z p1) in
  if CraftCamera.gt distance 100
  then ((Vector3.mk ((rng k - 0.5) * 10) ((rng (S k) - 0.5) * 10)
                    ((rng (S (S k)) - 0.5) * 10), v),
        S (S (S k)))
  else ((p1, v), k).

Fixpoint stepParticles (rng : random) (deltaTime : R)
    (ps : list (Vector3.t * Vector3.t)) (k : nat)
    : list (Vector3.t * Vector3.t) * nat :=
  match ps with
  | [] => ([], k)
  | pv :: rest =>
      let '(pv', k1) := stepParticle rng deltaTime pv k in
      let '(rest', k2) := stepParticles rng deltaTime rest k1 in
      (pv' :: rest', k2)
  end.

(** [createParticleSystem] for [particleCount] particles: six random
    numbers each, positions first. *)
Fixpoint createParticles (rng : random) (particleCount : nat) (k : nat)
    : list (Vector3.t * Vector3.t) * nat :=
  match particleCount with
  | O => ([], k)
  | S n =>
      let p := Vector3.mk ((rng k - 0.5) * 50) ((rng (k + 1)%nat - 0.5) * 50)
                          ((rng (k + 2)%nat - 0.5) * 50) in
      let v := Vector3.mk ((rng (k + 3)%nat - 0.5) * 10)
                          ((rng (k + 4)%nat - 0.5) * 10)
                          ((rng (k + 5)%nat - 0.5) * 10) in
      let '(rest, k') := createParticles rng n (k + 6)%nat in
      ((p, v) :: rest, k')
  end.

(** [initialize()]: three rings, then the particles. *)
Definition initialize (rng : random) (k : nat) (s : t) : t * nat :=
  let rings := plasmaRings s ++ [mkRing 0 0 1.0; mkRing 0 0 1.0; mkRing 0 0 1.0] in
  let '(ps, k') := createParticles rng 1000 k in
  (mk rings (Some ps) (isActive s), k').

(** [update(deltaTime, craftState)]; [now] is [Date.now() * 0.001]. *)
Definition update (rng : random) (k : nat) (now deltaTime : R)
    (craftState : CraftState.t) (s : t) : t * nat :=
  if negb (isActive s) then (s, k)
  else
    let speedFactor := Rmin (CraftState.speed craftState / 1000) 1 in
    (* Update plasma rings *)
    let rings :=
      map (fun r => mkRing (rotationY r + deltaTime * (2 + speedFactor * 3))
                           now (0.5 + speedFactor * 0.5))
          (plasmaRings s) in
    (* Update particle system *)
    match particles s with
    | Some ps =>
        let '(ps', k') := stepParticles rng deltaTime ps k in
        (mk rings (Some ps') (isActive s), k')
    | None => (mk rings None (isActive s), k)
    end.

Definition setActive (active : bool) (s : t) : t :=
  mk (plasmaRings s) (particles s) active.

End PropulsionSystem.

(** ** Sessions

    Vocabulary for the statements about whole runs. *)

Module Session.

(** A call that does not run time backwards. *)
Definition forwardCall (c : CraftController.call) : Prop :=
  match c with
  | CraftController.Update dt _ => 0 <= dt
  | CraftController.Reset => True
  end.

(** An operation that does not run host time backwards. *)
Definition forwardOp (o : App.op) : Prop :=
  match o with
  | App.Elapse d => 0 <= d
  | _ => True
  end.

(** An operation of the application itself, as opposed to a direct
    call of [GameEngine.toggleSystem]. *)
Definition viaHandlers (o : App.op) : bool :=
  match o with
  | App.ToggleSystem _ _ => false
  | _ => true
  end.

(** The flags of the three effect modules as the engine holds them. *)
Definition engineSystems (w : GameEngine.World) : GameState.Systems :=
  GameState.mkSystems (GameEngine.propulsion (GameEngine.engine w))
                      (GameEngine.cloaking (GameEngine.engine w))
                      (GameEngine.sensors (GameEngine.engine w)).

(** One pending animation frame when a handle is held, none
    otherwise. *)
Definition framesOf (a : option nat) : list nat :=
  match a with
  | Some id => [id]
  | None => []
  end.

(** The key events of a list decide whether [code] is held after
    them: the last [keydown] or [keyup] for [code] wins, and without
    one the key is as it was. *)
Fixpoint heldAfter (es : list InputManager.event) (code : string)
    (initially : bool) : bool :=
  match es with
  | [] => initially
  | InputManager.KeyDown c :: es' =>
      heldAfter es' code (if String.eqb c code then true else initially)
  | InputManager.KeyUp c :: es' =>
      heldAfter es' code (if String.eqb c code then false else initially)
  | _ :: es' => heldAfter es' code initially
  end.

(** A step that switches tilt sensing on. *)
Definition grants (s : InputManager.step) : bool :=
  match s with
  | InputManager.Event (InputManager.PermissionResolved p) =>
      String.eqb p "granted"
  | _ => false
  end.

(** What a world holds apart from the bookkeeping of the loop: the
    craft, the clock, the input manager, the flags of the effect
    modules, host time and the published state. *)
Record content : Type := mkContent {
  cCraft : CraftState.t;
  cClock : Clock.t;
  cInput : InputManager.t;
  cSystems : GameState.Systems;
  cNow : R;
  cGameState : GameState.t
}.

Definition contentOf (w : GameEngine.World) : content :=
  mkContent (GameEngine.craft (GameEngine.engine w))
            (GameEngine.clock (GameEngine.engine w))
            (GameEngine.input (GameEngine.engine w))
            (engineSystems w) (GameEngine.now w) (GameEngine.gameState w).

(** The loop holds a frame handle exactly when one frame is pending,
    and holds none while paused. *)
Definition loopInvariant (w : GameEngine.World) : Prop :=
  GameEngine.frames w = framesOf (GameEngine.animationId (GameEngine.engine w))
  /\ (GameEngine.isPaused (GameEngine.engine w) = true ->
      GameEngine.animationId (GameEngine.engine w) = None).

(** The clock is not ahead of host time; the craft has its constants,
    does not move upward, is not above its initial altitude and has
    consistent derived fields. *)
Definition sound (c : content) : Prop :=
  (Clock.running (cClock c) = true -> Clock.oldTime (cClock c) <= cNow c)
  /\ CraftState.mass (cCraft c) = 1000
  /\ CraftState.gravityReduction (cCraft c) = 0.892
  /\ Vector3.y (CraftState.velocity (cCraft c)) <= 0
  /\ Vector3.y (CraftState.position (cCraft c)) <= 1000
  /\ CraftState.gForce (cCraft c) = 1
  /\ CraftState.altitude (cCraft c) = Vector3.y (CraftState.position (cCraft c))
  /\ CraftState.speed (cCraft c) = Vector3.length (CraftState.velocity (cCraft c)).

(** The motion fields of a published state. *)
Definition publishedMotion (g : GameState.t)
    : Vector3.t * Vector3.t * R * R * R :=
  (GameState.position g, GameState.velocity g, GameState.altitude g,
   GameState.speed g, GameState.gForce g).

(** The published motion is still that of [initialGameState]. *)
Definition unpublished (c : content) : Prop :=
  publishedMotion (cGameState c) = publishedMotion GameState.initialGameState.

(** The published flags are those of the engine. *)
Definition inSync (c : content) : Prop :=
  GameState.systems (cGameState c) = cSystems c.


(** [Math.random()] returns numbers in [[0, 1)]. *)
Definition unitRandom (rng : PropulsionSystem.random) : Prop :=
  forall k : nat, 0 <= rng k < 1.

(** A controller whose five references point into its heap. *)
Definition wellFormed (c : Alias.controller) : Prop :=
  let n := length (snd c) in
  (Alias.position (fst c) < n)%nat
  /\ (Alias.velocity (fst c) < n)%nat
  /\ (Alias.acceleration (fst c) < n)%nat
  /\ (Alias.rotation (fst c) < n)%nat
  /\ (Alias.angularVelocity (fst c) < n)%nat.

Definition aliasPerform (c : Alias.controller) (k : CraftController.call)
    : Alias.controller :=
  match k with
  | CraftController.Update dt i => Alias.craftUpdate dt i c
  | CraftController.Reset => Alias.craftReset c
  end.

(** None of the five references of a craft object is [p]. *)
Definition apartFrom (p : nat) (o : Alias.CraftStateObj) : Prop :=
  Alias.position o <> p
  /\ Alias.velocity o <> p
  /\ Alias.acceleration o <> p
  /\ Alias.rotation o <> p
  /\ Alias.angularVelocity o <> p.

End Session.

(** ** CraftController.ts in binary64

    JavaScript numbers are IEEE 754 binary64 values.  This module
    repeats [CraftController.updatePhysics], and the three.js methods
    it calls, over primitive floats: every operation of the sources is
    one rounded operation here, in the order the sources evaluate
    them.  It is what the speed limit is checked against, since the
    limit is a bound the code enforces by renormalising and a rounded
    renormalisation need not land on the bound. *)

Module Binary64.

Import PrimFloat.
#[local] Set Warnings "-inexact-float".
Local Open Scope float_scope.

(** [Math.cos] and [Math.sin].  ECMAScript leaves their values to the
    implementation, except at a few arguments: [Math.cos(+0)] is [1]
    and [Math.sin(+0)] is [+0].  The model takes the two functions as
    given. *)
Record Math : Type := mkMath {
  cos : float -> float;
  sin : float -> float
}.

(** JavaScript [a || 1] on numbers: [1] when [a] is [0], [-0] or
    [NaN]. *)
Definition orOne (a : float) : float :=
  if (a =? 0) || is_nan a then 1 else a.

(** [Math.max(1, a)]: [NaN] when [a] is [NaN]. *)
Definition maxOne (a : float) : float :=
  if is_nan a then a else if 1 <? a then a else 1.

Module Vector3.

Record t : Type := mk { x : float; y : float; z : float }.

Definition zero : t := mk 0 0 0.

Definition set (_ : t) (a b c : float) : t := mk a b c.

Definition clone (v : t) : t := v.

Definition add (v w : t) : t := mk (x v + x w) (y v + y w) (z v + z w).

Definition multiplyScalar (v : t) (s : float) : t :=
  mk (x v * s) (y v * s) (z v * s).

(** [divideScalar(s)] is [multiplyScalar(1 / s)]. *)
Definition divideScalar (v : t) (s : float) : t := multiplyScalar v (1 / s).

(** [Math.sqrt(x * x + y * y + z * z)] *)
Definition length (v : t) : float := sqrt (x v * x v + y v * y v + z v * z v).

(** [normalize()] is [divideScalar(length() || 1)]. *)
Definition normalize (v : t) : t := divideScalar v (orOne (length v)).

End Vector3.

Module Euler.

Record t : Type := mk { x : float; y : float; z : float }.

End Euler.

Module Quaternion.

Record t : Type := mk { x : float; y : float; z : float; w : float }.

(** [new THREE.Quaternion()] *)
Definition identity : t := mk 0 0 0 1.

(** [setFromEuler] for the order ['XYZ']. *)
Definition setFromEuler (M : Math) (e : Euler.t) : t :=
  let c1 := cos M (Euler.x e / 2) in
  let c2 := cos M (Euler.y e / 2) in
  let c3 := cos M (Euler.z e / 2) in
  let s1 := sin M (Euler.x e / 2) in
  let s2 := sin M (Euler.y e / 2) in
  let s3 := sin M (Euler.z e / 2) in
  mk (s1 * c2 * c3 + c1 * s2 * s3)
     (c1 * s2 * c3 - s1 * c2 * s3)
     (c1 * c2 * s3 + s1 * s2 * c3)
     (c1 * c2 * c3 - s1 * s2 * s3).

End Quaternion.

Module Rotate.

(** [Vector3.applyQuaternion(q)] *)
Definition applyQuaternion (v : Vector3.t) (q : Quaternion.t) : Vector3.t :=
  let vx := Vector3.x v in
  let vy := Vector3.y v in
  let vz := Vector3.z v in
  let qx := Quaternion.x q in
  let qy := Quaternion.y q in
  let qz := Quaternion.z q in
  let qw := Quaternion.w q in
  let tx := 2 * (qy * vz - qz * vy) in
  let ty := 2 * (qz * vx - qx * vz) in
  let tz := 2 * (qx * vy - qy * vx) in
  Vector3.mk (vx + qw * tx + qy * tz - qz * ty)
             (vy + qw * ty + qz * tx - qx * tz)
             (vz + qw * tz + qx * ty - qy * tx).

(** [Vector3.applyEuler(e)] *)
Definition applyEuler (M : Math) (v : Vector3.t) (e : Euler.t) : Vector3.t :=
  applyQuaternion v (Quaternion.setFromEuler M e).

End Rotate.

Module InputState.

(** The fields of [InputState] that [updatePhysics] reads. *)
Record t : Type := mk {
  forward : bool;
  backward : bool;
  left : bool;
  right : bool;
  up : bool;
  down : bool;
  pitch : float;
  yaw : float;
  roll : float
}.

End InputState.

Module CraftState.

Record t : Type := mk {
  position : Vector3.t;
  velocity : Vector3.t;
  acceleration : Vector3.t;
  rotation : Euler.t;
  angularVelocity : Vector3.t;
  mass : float;
  gravityReduction : float;
  speed : float;
  altitude : float;
  gForce : float
}.

End CraftState.

Module CraftController.

Import CraftState.

Definition baseThrust : float := 500.
Definition maxSpeed : float := 2000.
Definition gravityStrength : float := 9.81.

Definition constructor : CraftState.t :=
  {| position := Vector3.mk 0 1000 0;
     velocity := Vector3.mk 0 0 0;
     acceleration := Vector3.mk 0 0 0;
     rotation := Euler.mk 0 0 0;
     angularVelocity := Vector3.mk 0 0 0;
     mass := 1000;
     gravityReduction := 0.892;
     speed := 0;
     altitude := 1000;
     gForce := 1 |}.

Definition thrustForce (i : InputState.t) : Vector3.t :=
  let t0 := Vector3.zero in
  let t1 := if InputState.forward i
            then Vector3.mk (Vector3.x t0) (Vector3.y t0) (Vector3.z t0 - baseThrust)
            else t0 in
  let t2 := if InputState.backward i
            then Vector3.mk (Vector3.x t1) (Vector3.y t1) (Vector3.z t1 + baseThrust)
            else t1 in
  let t3 := if InputState.left i
            then Vector3.mk (Vector3.x t2 - baseThrust) (Vector3.y t2) (Vector3.z t2)
            else t2 in
  let t4 := if InputState.right i
            then Vector3.mk (Vector3.x t3 + baseThrust) (Vector3.y t3) (Vector3.z t3)
            else t3 in
  let t5 := if InputState.up i
            then Vector3.mk (Vector3.x t4) (Vector3.y t4 + baseThrust) (Vector3.z t4)
            else t4 in
  if InputState.down i
  then Vector3.mk (Vector3.x t5) (Vector3.y t5 - baseThrust) (Vector3.z t5)
  else t5.

(** The speed limit: [if (velocity.length() > maxSpeed)
    velocity.normalize().multiplyScalar(maxSpeed)]. *)
Definition limitSpeed (v : Vector3.t) : Vector3.t :=
  if maxSpeed <? Vector3.length v
  then Vector3.multiplyScalar (Vector3.normalize v) maxSpeed
  else v.

Definition updatePhysics (M : Math) (deltaTime : float)
    (inputState : InputState.t) (s : CraftState.t) : CraftState.t :=
  (* Reset acceleration *)
  let acceleration0 := Vector3.set (acceleration s) 0 0 0 in
  (* Apply gravity (reduced by anti-gravity system) *)
  let gravity := gravityStrength * (1 - gravityReduction s) in
  let acceleration1 :=
    Vector3.mk (Vector3.x acceleration0)
               (Vector3.y acceleration0 - gravity)
               (Vector3.z acceleration0) in
  (* Apply thrust based on input *)
  let thrust := thrustForce inputState in
  (* Apply rotation from input *)
  let angularVelocity1 :=
    Vector3.mk (InputState.pitch inputState * 2)
               (InputState.yaw inputState * 2)
               (InputState.roll inputState * 2) in
  (* Apply thrust in world space *)
  let thrustWorld := Rotate.applyEuler M thrust (rotation s) in
  let acceleration2 :=
    Vector3.add acceleration1 (Vector3.divideScalar thrustWorld (mass s)) in
  (* Update velocity *)
  let velocity1 :=
    Vector3.add (velocity s)
      (Vector3.multiplyScalar (Vector3.clone acceleration2) deltaTime) in
  (* Apply drag *)
  let drag := 0.98 in
  let velocity2 := Vector3.multiplyScalar velocity1 drag in
  (* Limit speed *)
  let velocity3 := limitSpeed velocity2 in
  (* Update position *)
  let position1 :=
    Vector3.add (position s)
      (Vector3.multiplyScalar (Vector3.clone velocity3) deltaTime) in
  (* Update rotation *)
  let rotation1 :=
    Euler.mk (Euler.x (rotation s) + Vector3.x angularVelocity1 * deltaTime)
             (Euler.y (rotation s) + Vector3.y angularVelocity1 * deltaTime)
             (Euler.z (rotation s) + Vector3.z angularVelocity1 * deltaTime) in
  (* Update derived values *)
  {| position := position1;
     velocity := velocity3;
     acceleration := acceleration2;
     rotation := rotation1;
     angularVelocity := angularVelocity1;
     mass := mass s;
     gravityReduction := gravityReduction s;
     speed := Vector3.length velocity3;
     altitude := Vector3.y position1;
     gForce := maxOne (Vector3.length acceleration2 / gravityStrength) |}.

Definition update (M : Math) (deltaTime : float) (inputState : InputState.t)
    (s : CraftState.t) : CraftState.t :=
  updatePhysics M deltaTime inputState s.

End CraftController.

(** Only [right] is held; no look input. *)
Definition rightOnly : InputState.t :=
  InputState.mk false false false true false false 0 0 0.

(** Half an hour: what [Clock.getDelta()] hands the first tick after
    the engine was paused for that long. *)
Definition halfAnHour : float := 1800.

(** The speed the craft then has, [2000.0000000000005]. *)
Definition overshoot : float := 0x1.f400000000002p+10.

(** What ECMAScript fixes of [Math.cos] and [Math.sin] at [+0]. *)
Definition exactAtZero (M : Math) : Prop := cos M 0 = 1 /\ sin M 0 = 0.

(** [a > b] *)
Definition gt (a b : float) : bool := b <? a.

(** A [Math] for examples: the first terms of the two series. *)
Definition seriesMath : Math :=
  mkMath (fun a => 1 - a * a / 2) (fun a => a - a * a * a / 6).

End Binary64.

(** * Properties *)

(** ** Vectors *)

Lemma lengthSq_nonneg (v : Vector3.t) : 0 <= Vector3.lengthSq v.
Proof. unfold Vector3.lengthSq. nra. Qed.

Lemma length_nonneg (v : Vector3.t) : 0 <= Vector3.length v.
Proof. apply sqrt_pos. Qed.

Lemma length_sqr (v : Vector3.t) :
  Vector3.length v * Vector3.length v = Vector3.lengthSq v.
Proof. apply sqrt_sqrt, lengthSq_nonneg. Qed.

Lemma lengthSq_multiplyScalar (v : Vector3.t) (s : R) :
  Vector3.lengthSq (Vector3.multiplyScalar v s) = Vector3.lengthSq v * (s * s).
Proof. unfold Vector3.lengthSq, Vector3.multiplyScalar. simpl. ring. Qed.

Lemma length_le_of_lengthSq (v : Vector3.t) (b : R) :
  0 <= b -> Vector3.lengthSq v <= b * b -> Vector3.length v <= b.
Proof.
  intros Hb Hle. unfold Vector3.length.
  rewrite <- (sqrt_square b Hb). now apply sqrt_le_1_alt.
Qed.

(** A vector longer than [0], normalised and scaled by [m >= 0], has
    length [m]. *)
Lemma length_normalize_scaled (v : Vector3.t) (m : R) :
  0 < Vector3.length v -> 0 <= m ->
  Vector3.length (Vector3.multiplyScalar (Vector3.normalize v) m) = m.
Proof.
  intros Hpos Hm.
  unfold Vector3.normalize, Vector3.divideScalar, Vector3.orOne.
  destruct (Req_dec_T (Vector3.length v) 0) as [E | _]; [lra |].
  unfold Vector3.length at 1.
  rewrite !lengthSq_multiplyScalar, <- length_sqr.
  replace (Vector3.length v * Vector3.length v
           * (1 / Vector3.length v * (1 / Vector3.length v)) * (m * m))
    with (m * m) by (field; lra).
  now apply sqrt_square.
Qed.

Lemma applyEuler_zero (v : Vector3.t) :
  Rotate.applyEuler v (Euler.mk 0 0 0) = v.
Proof.
  destruct v as [a b c].
  unfold Rotate.applyEuler, Rotate.applyQuaternion, Quaternion.setFromEuler.
  cbn [Euler.x Euler.y Euler.z Quaternion.x Quaternion.y Quaternion.z
       Quaternion.w Vector3.x Vector3.y Vector3.z].
  replace (0 / 2) with 0 by lra. rewrite cos_0, sin_0.
  f_equal; ring.
Qed.

(** ** CraftController *)

(** In exact arithmetic the speed limit is exact: the renormalised
    velocity has length [maxSpeed].  What the rounded operations of the
    program give is evaluated on [Binary64.CraftController.update]. *)
Lemma limitSpeed_bound (v : Vector3.t) :
  Vector3.length (CraftController.limitSpeed v) <= CraftController.maxSpeed.
Proof.
  unfold CraftController.limitSpeed.
  destruct (Rlt_dec CraftController.maxSpeed (Vector3.length v)) as [Hgt | Hle].
  - rewrite length_normalize_scaled.
    + lra.
    + unfold CraftController.maxSpeed in Hgt. lra.
    + unfold CraftController.maxSpeed. lra.
  - lra.
Qed.

Lemma limitSpeed_small (v : Vector3.t) :
  Vector3.lengthSq v <= CraftController.maxSpeed * CraftController.maxSpeed ->
  CraftController.limitSpeed v = v.
Proof.
  intros Hle. unfold CraftController.limitSpeed.
  destruct (Rlt_dec _ _) as [Hgt | _]; [| reflexivity].
  apply length_le_of_lengthSq in Hle; [lra |].
  unfold CraftController.maxSpeed. lra.
Qed.

Lemma perform_constants (s : CraftState.t) (c : CraftController.call) :
  CraftState.mass (CraftController.perform s c) = CraftState.mass s
  /\ CraftState.gravityReduction (CraftController.perform s c)
     = CraftState.gravityReduction s.
Proof. destruct c; split; reflexivity. Qed.

Lemma performAll_constants (cs : list CraftController.call) (s : CraftState.t) :
  CraftState.mass (CraftController.performAll s cs) = CraftState.mass s
  /\ CraftState.gravityReduction (CraftController.performAll s cs)
     = CraftState.gravityReduction s.
Proof.
  unfold CraftController.performAll. revert s.
  induction cs as [| c cs IH]; intros s; cbn [fold_left]; [easy |].
  destruct (IH (CraftController.perform s c)) as [Hm Hg].
  destruct (perform_constants s c) as [Hm' Hg'].
  split; congruence.
Qed.

Lemma reachable_constants (s : CraftState.t) :
  CraftController.reachable s ->
  CraftState.mass s = 1000 /\ CraftState.gravityReduction s = 0.892.
Proof.
  induction 1 as [| s c _ [Hm Hg]].
  - split; reflexivity.
  - destruct (perform_constants s c) as [Hm' Hg']. split; congruence.
Qed.

Lemma reset_constructor (s : CraftState.t) :
  CraftState.mass s = 1000 -> CraftState.gravityReduction s = 0.892 ->
  CraftController.reset s = CraftController.constructor.
Proof.
  intros Hm Hg. unfold CraftController.reset, CraftController.constructor.
  rewrite Hm, Hg. reflexivity.
Qed.

(** The three vectors a step computes, each from the one before. *)
Lemma update_acceleration (dt : R) (i : InputState.t) (s : CraftState.t) :
  CraftState.acceleration (CraftController.update dt i s)
  = Vector3.add
      (Vector3.mk 0 (0 - CraftController.gravityStrength
                         * (1 - CraftState.gravityReduction s)) 0)
      (Vector3.divideScalar
         (Rotate.applyEuler (CraftController.thrustForce i) (CraftState.rotation s))
         (CraftState.mass s)).
Proof. reflexivity. Qed.

Lemma update_velocity (dt : R) (i : InputState.t) (s : CraftState.t) :
  CraftState.velocity (CraftController.update dt i s)
  = CraftController.limitSpeed
      (Vector3.multiplyScalar
         (Vector3.add (CraftState.velocity s)
            (Vector3.multiplyScalar
               (CraftState.acceleration (CraftController.update dt i s)) dt))
         0.98).
Proof. reflexivity. Qed.

Lemma update_position (dt : R) (i : InputState.t) (s : CraftState.t) :
  CraftState.position (CraftController.update dt i s)
  = Vector3.add (CraftState.position s)
      (Vector3.multiplyScalar
         (CraftState.velocity (CraftController.update dt i s)) dt).
Proof. reflexivity. Qed.

Lemma update_altitude (dt : R) (i : InputState.t) (s : CraftState.t) :
  CraftState.altitude (CraftController.update dt i s)
  = Vector3.y (CraftState.position (CraftController.update dt i s)).
Proof. reflexivity. Qed.

Lemma vector_eq (a b c a' b' c' : R) :
  a = a' -> b = b' -> c = c' -> Vector3.mk a b c = Vector3.mk a' b' c'.
Proof. now intros -> -> ->. Qed.

(** One step from the initial state with a vertical thrust [f]. *)
Lemma update_vertical (dt f : R) (i : InputState.t) :
  CraftController.thrustForce i = Vector3.mk 0 f 0 ->
  let a := f / 1000 - 1.05948 in
  (a * dt * 0.98) * (a * dt * 0.98) <= 2000 * 2000 ->
  let s := CraftController.update dt i CraftController.constructor in
  CraftState.acceleration s = Vector3.mk 0 a 0
  /\ CraftState.velocity s = Vector3.mk 0 (a * dt * 0.98) 0
  /\ CraftState.position s = Vector3.mk 0 (1000 + a * dt * 0.98 * dt) 0.
Proof.
  intros Hf a Hsmall s.
  assert (Ha : CraftState.acceleration s = Vector3.mk 0 a 0).
  { subst s. rewrite update_acceleration, Hf.
    cbn [CraftController.constructor CraftState.rotation CraftState.mass
         CraftState.gravityReduction].
    rewrite applyEuler_zero.
    unfold Vector3.add, Vector3.divideScalar, Vector3.multiplyScalar,
      CraftController.gravityStrength.
    cbn [Vector3.x Vector3.y Vector3.z].
    apply vector_eq; subst a; lra. }
  assert (Hv : CraftState.velocity s = Vector3.mk 0 (a * dt * 0.98) 0).
  { subst s. rewrite update_velocity, Ha.
    cbn [CraftController.constructor CraftState.velocity].
    unfold Vector3.add, Vector3.multiplyScalar.
    cbn [Vector3.x Vector3.y Vector3.z].
    rewrite limitSpeed_small.
    - apply vector_eq; lra.
    - unfold Vector3.lengthSq, CraftController.maxSpeed.
      cbn [Vector3.x Vector3.y Vector3.z]. nra. }
  repeat split; [exact Ha | exact Hv |].
  subst s. rewrite update_position, Hv.
  cbn [CraftController.constructor CraftState.position].
  unfold Vector3.add, Vector3.multiplyScalar.
  cbn [Vector3.x Vector3.y Vector3.z].
  apply vector_eq; lra.
Qed.
Lemma thrustForce_upOnly :
  CraftController.thrustForce Scenario.upOnly = Vector3.mk 0 500 0.
Proof.
  unfold CraftController.thrustForce, Scenario.upOnly, CraftController.baseThrust, Vector3.zero.
  cbn [InputState.forward InputState.backward InputState.left InputState.right
       InputState.up InputState.down Vector3.x Vector3.y Vector3.z].
  apply vector_eq; lra.
Qed.

Lemma thrustForce_noInput :
  CraftController.thrustForce Scenario.noInput = Vector3.mk 0 0 0.
Proof. reflexivity. Qed.

Lemma thrustForce_y_le (i : InputState.t) :
  Vector3.y (CraftController.thrustForce i) <= 500.
Proof.
  destruct i as [f b l r u d p yw rl t].
  unfold CraftController.thrustForce, CraftController.baseThrust, Vector3.zero.
  cbn [InputState.forward InputState.backward InputState.left InputState.right
       InputState.up InputState.down].
  destruct f, b, l, r, u, d; cbn [Vector3.x Vector3.y Vector3.z]; lra.
Qed.

(** At zero rotation no combination of thrust flags gives an upward
    acceleration: the most the thrust adds is [500 / 1000]. *)
Lemma level_acceleration_is_downward (dt : R) (i : InputState.t)
    (s : CraftState.t) :
  CraftState.rotation s = Euler.mk 0 0 0 ->
  CraftState.mass s = 1000 ->
  CraftState.gravityReduction s = 0.892 ->
  Vector3.y (CraftState.acceleration (CraftController.update dt i s))
  <= -0.55948.
Proof.
  intros Hr Hm Hg.
  rewrite update_acceleration, Hr, Hm, Hg, applyEuler_zero.
  pose proof (thrustForce_y_le i) as Hy.
  unfold Vector3.add, Vector3.divideScalar, Vector3.multiplyScalar,
    CraftController.gravityStrength.
  cbn [Vector3.x Vector3.y Vector3.z]. lra.
Qed.

(** C1.  Start from the state [startMission] leaves the craft in
    ([reset()]: the fixed initial state, zero rotation) and call
    [update] once with [deltaTime = 0.1] and only [up] held.  The claim
    expects [velocity.y > 0] and [altitude > 1000]; the code gives the
    opposite signs, because the thrust [500] is divided by the mass
    [1000] and [0.5] is less than the residual gravity
    [9.81 * (1 - 0.892) = 1.05948]. *)
Theorem up_thrust_from_rest_descends :
  let s := CraftController.update 0.1 Scenario.upOnly
             (CraftController.reset CraftController.constructor) in
  CraftState.velocity s = Vector3.mk 0 (-0.05482904) 0
  /\ CraftState.altitude s = 999.994517096
  /\ Vector3.y (CraftState.velocity s) < 0
  /\ CraftState.altitude s < 1000.
Proof.
  intros s.
  assert (Hr : CraftController.reset CraftController.constructor
               = CraftController.constructor) by reflexivity.
  destruct (update_vertical 0.1 500 Scenario.upOnly thrustForce_upOnly)
    as (_ & Hv & Hp); [lra |].
  subst s. rewrite Hr, update_altitude, Hv, Hp.
  cbn [Vector3.y].
  repeat split; try lra.
  apply vector_eq; lra.
Qed.

(** With no rotation the thrust is applied as it is. *)
Lemma binary64_setFromEuler_zero (M : Binary64.Math) :
  Binary64.exactAtZero M ->
  Binary64.Quaternion.setFromEuler M
    (Binary64.CraftState.rotation Binary64.CraftController.constructor)
  = Binary64.Quaternion.identity.
Proof.
  intros [Hc Hs]. unfold Binary64.Quaternion.setFromEuler.
  cbn [Binary64.CraftController.constructor Binary64.CraftState.rotation
       Binary64.Euler.x Binary64.Euler.y Binary64.Euler.z].
  match goal with |- context [Binary64.cos M ?a] =>
    let b := eval vm_compute in a in change a with b end.
  rewrite Hc, Hs. reflexivity.
Qed.

(** C2, as stated, fails in the arithmetic the program runs in.  From
    the initial state, one [update] with [deltaTime = 1800] and only
    [right] held takes the speed-limit branch (the velocity before the
    limit has length [2066.59...]), and the renormalised velocity
    [normalize().multiplyScalar(2000)] has length
    [2000.0000000000005]: both [velocity.length()] and the [speed]
    field exceed [maxSpeed]. *)
Theorem binary64_speed_exceeds_maxSpeed (M : Binary64.Math) :
  Binary64.exactAtZero M ->
  let s := Binary64.CraftController.update M Binary64.halfAnHour
             Binary64.rightOnly Binary64.CraftController.constructor in
  Binary64.CraftState.speed s = Binary64.overshoot
  /\ Binary64.Vector3.length (Binary64.CraftState.velocity s)
     = Binary64.overshoot
  /\ Binary64.gt (Binary64.CraftState.speed s)
                 Binary64.CraftController.maxSpeed = true
  /\ PrimFloat.leb (Binary64.CraftState.speed s)
                   Binary64.CraftController.maxSpeed = false.
Proof.
  intros HM s. subst s.
  unfold Binary64.CraftController.update, Binary64.CraftController.updatePhysics,
    Binary64.Rotate.applyEuler.
  rewrite (binary64_setFromEuler_zero M HM).
  repeat split; vm_compute; reflexivity.
Qed.

Lemma binary64_speed_exceeds_maxSpeed_witness :
  Binary64.exactAtZero Binary64.seriesMath
  /\ Binary64.gt
       (Binary64.CraftState.speed
          (Binary64.CraftController.update Binary64.seriesMath
             Binary64.halfAnHour Binary64.rightOnly
             Binary64.CraftController.constructor))
       Binary64.CraftController.maxSpeed = true.
Proof.
  assert (H : Binary64.exactAtZero Binary64.seriesMath)
    by (split; reflexivity).
  split; [exact H |].
  exact (proj1 (proj2 (proj2
           (binary64_speed_exceeds_maxSpeed Binary64.seriesMath H)))).
Defined.

(** C8.  After every [update(deltaTime, control)] the [gForce] field is
    at least [1] and equals the maximum of [1] and the length of the
    new [acceleration] divided by [9.81]. *)
Theorem gForce_floor (dt : R) (i : InputState.t) (s : CraftState.t) :
  let s' := CraftController.update dt i s in
  1 <= CraftState.gForce s'
  /\ CraftState.gForce s'
     = Rmax 1 (Vector3.length (CraftState.acceleration s') / 9.81).
Proof.
  intros s'. split.
  - apply Rmax_l.
  - reflexivity.
Qed.

(** C9.  From any state a controller can be in, [reset()] gives exactly
    the initial state: position (0,1000,0), zero velocity, acceleration,
    rotation and angular velocity, speed 0, altitude 1000, gForce 1
    (with the constants mass 1000 and gravityReduction 0.892); and a
    second [reset()] changes nothing. *)
Theorem reset_restores_initial_state (s : CraftState.t) :
  CraftController.reachable s ->
  CraftController.reset s
  = {| CraftState.position := Vector3.mk 0 1000 0;
       CraftState.velocity := Vector3.mk 0 0 0;
       CraftState.acceleration := Vector3.mk 0 0 0;
       CraftState.rotation := Euler.mk 0 0 0;
       CraftState.angularVelocity := Vector3.mk 0 0 0;
       CraftState.mass := 1000;
       CraftState.gravityReduction := 0.892;
       CraftState.speed := 0;
       CraftState.altitude := 1000;
       CraftState.gForce := 1 |}
  /\ CraftController.reset s = CraftController.constructor
  /\ CraftController.reset (CraftController.reset s) = CraftController.reset s.
Proof.
  intros Hs. destruct (reachable_constants s Hs) as [Hm Hg].
  pose proof (reset_constructor s Hm Hg) as Hr.
  split; [exact Hr |]. split; [exact Hr | reflexivity].
Qed.

Lemma reset_restores_initial_state_witness :
  let s := CraftController.perform CraftController.constructor
             (CraftController.Update 0.1 Scenario.upOnly) in
  CraftController.reachable s
  /\ CraftController.reset s = CraftController.constructor
  /\ CraftController.reset (CraftController.reset s) = CraftController.reset s.
Proof.
  intros s.
  assert (H : CraftController.reachable s).
  { apply CraftController.reachable_perform,
      CraftController.reachable_constructor. }
  split; [exact H |].
  exact (proj2 (reset_restores_initial_state s H)).
Defined.

(** C10.  No sequence of [update] and [reset] calls changes [mass] or
    [gravityReduction]: after any such sequence on a constructed
    controller they are still [1000] and [0.892]. *)
Theorem mass_and_gravityReduction_constant (cs : list CraftController.call) :
  let s := CraftController.performAll CraftController.constructor cs in
  CraftState.mass s = 1000 /\ CraftState.gravityReduction s = 0.892.
Proof.
  intros s. subst s.
  destruct (performAll_constants cs CraftController.constructor) as [Hm Hg].
  rewrite Hm, Hg. split; reflexivity.
Qed.

(** ** InputManager *)

Lemma clamp_range (a : R) : -1 <= InputManager.clamp a <= 1.
Proof.
  unfold InputManager.clamp, Rmax, Rmin.
  destruct (Rle_dec 1 a); destruct (Rle_dec (-1) _); lra.
Qed.

Lemma handle_axes (e : InputManager.event) (m : InputManager.t) :
  InputState.pitch (InputManager.inputState (InputManager.handle e m))
  = InputState.pitch (InputManager.inputState m)
  /\ InputState.yaw (InputManager.inputState (InputManager.handle e m))
     = InputState.yaw (InputManager.inputState m)
  /\ InputState.roll (InputManager.inputState (InputManager.handle e m))
     = InputState.roll (InputManager.inputState m).
Proof.
  destruct e; cbn [InputManager.handle];
    unfold InputManager.handleTouchMove, InputManager.handleMouseMove,
      InputManager.handleDeviceOrientation;
    repeat match goal with |- context [if ?b then _ else _] => destruct b end;
    repeat split; reflexivity.
Qed.

Lemma perform_axes (m : InputManager.t) (s : InputManager.step) :
  let i := InputManager.inputState m in
  let i' := InputManager.inputState (InputManager.perform m s) in
  (-1 <= InputState.pitch i <= 1 /\ -1 <= InputState.yaw i <= 1
   /\ -1 <= InputState.roll i <= 1) ->
  -1 <= InputState.pitch i' <= 1 /\ -1 <= InputState.yaw i' <= 1
  /\ -1 <= InputState.roll i' <= 1.
Proof.
  intros i i' Hi. subst i i'. destruct s as [e |]; cbn [InputManager.perform].
  - destruct (handle_axes e m) as (-> & -> & ->). exact Hi.
  - unfold InputManager.update.
    cbn [InputManager.inputState InputState.pitch InputState.yaw InputState.roll].
    repeat split; apply clamp_range.
Qed.

(** C7.  Whatever raw events arrive and however they are interleaved
    with [update()] calls, the pitch, yaw and roll that [getState()]
    returns lie in [-1, 1]. *)
Theorem axes_always_clamped (env : InputManager.orientationSupport)
    (ss : list InputManager.step) :
  let i := InputManager.getState
             (InputManager.performAll (InputManager.constructor env) ss) in
  -1 <= InputState.pitch i <= 1
  /\ -1 <= InputState.yaw i <= 1
  /\ -1 <= InputState.roll i <= 1.
Proof.
  intros i. subst i. unfold InputManager.getState, InputManager.performAll.
  assert (H0 : let i := InputManager.inputState (InputManager.constructor env) in
               -1 <= InputState.pitch i <= 1 /\ -1 <= InputState.yaw i <= 1
               /\ -1 <= InputState.roll i <= 1).
  { cbn. lra. }
  revert H0. generalize (InputManager.constructor env) as m.
  induction ss as [| s ss IH]; intros m Hm; cbn [fold_left].
  - exact Hm.
  - apply IH. now apply perform_axes.
Qed.

(** ** GameEngine *)

(** Every tick ends at the [isActive()] call: [update()] throws. *)
Lemma update_throws (w : GameEngine.World) :
  snd (GameEngine.update w) = GameEngine.Throws.
Proof.
  unfold GameEngine.update.
  destruct (Clock.getDelta _ _) as [dt c1].
  destruct (Clock.getElapsedTime _ _) as [el c2].
  reflexivity.
Qed.

(** An uncaught exception changes nothing but its counter. *)
Lemma uncaughtError_fields (r : GameEngine.World * GameEngine.completion) :
  let w := GameEngine.uncaughtError r in
  GameEngine.engine w = GameEngine.engine (fst r)
  /\ GameEngine.now w = GameEngine.now (fst r)
  /\ GameEngine.frames w = GameEngine.frames (fst r)
  /\ GameEngine.nextHandle w = GameEngine.nextHandle (fst r)
  /\ GameEngine.gameState w = GameEngine.gameState (fst r)
  /\ GameEngine.initializing w = GameEngine.initializing (fst r)
  /\ GameEngine.ticks w = GameEngine.ticks (fst r)
  /\ GameEngine.errors w = GameEngine.errors (fst r).
Proof. destruct r as [w []]; cbn; repeat split. Qed.

Lemma uncaughtError_engine (r : GameEngine.World * GameEngine.completion) :
  GameEngine.engine (GameEngine.uncaughtError r) = GameEngine.engine (fst r).
Proof. apply uncaughtError_fields. Qed.

Lemma uncaughtError_ticks (r : GameEngine.World * GameEngine.completion) :
  GameEngine.ticks (GameEngine.uncaughtError r) = GameEngine.ticks (fst r).
Proof. apply uncaughtError_fields. Qed.

Lemma uncaughtError_gameState (r : GameEngine.World * GameEngine.completion) :
  GameEngine.gameState (GameEngine.uncaughtError r)
  = GameEngine.gameState (fst r).
Proof. apply uncaughtError_fields. Qed.

Lemma uncaughtError_now (r : GameEngine.World * GameEngine.completion) :
  GameEngine.now (GameEngine.uncaughtError r) = GameEngine.now (fst r).
Proof. apply uncaughtError_fields. Qed.

Lemma animate_paused (w : GameEngine.World) :
  GameEngine.isPaused (GameEngine.engine w) = true ->
  GameEngine.animate w = (w, GameEngine.Returns).
Proof. intros H. unfold GameEngine.animate. now rewrite H. Qed.

(** What [animate] is when the engine is not paused. *)
Lemma animate_unpaused (w : GameEngine.World) :
  GameEngine.isPaused (GameEngine.engine w) = false ->
  GameEngine.animate w
  = GameEngine.update
      (GameEngine.onEngine
         (GameEngine.setAnimationId (Some (GameEngine.nextHandle w)))
         (snd (GameEngine.requestAnimationFrame w))).
Proof.
  intros H. unfold GameEngine.animate. rewrite H.
  cbn [GameEngine.requestAnimationFrame snd].
  destruct (GameEngine.update _) as [w2 []]; reflexivity.
Qed.

Lemma start_paused (w : GameEngine.World) :
  GameEngine.isPaused (GameEngine.engine w) = true ->
  GameEngine.start w = (w, GameEngine.Returns).
Proof.
  intros H. unfold GameEngine.start.
  destruct (GameEngine.animationId _); [reflexivity | now apply animate_paused].
Qed.

Lemma frames_paused (l : list nat) (w : GameEngine.World) :
  GameEngine.isPaused (GameEngine.engine w) = true ->
  fold_left (fun w' _ => GameEngine.uncaughtError (GameEngine.animate w')) l w
  = w.
Proof.
  intros H. induction l as [| h l IH]; cbn [fold_left]; [reflexivity |].
  now rewrite animate_paused.
Qed.

Lemma pause_isPaused (w : GameEngine.World) :
  GameEngine.isPaused (GameEngine.engine (GameEngine.pause w)) = true.
Proof.
  unfold GameEngine.pause.
  destruct (GameEngine.animationId _); reflexivity.
Qed.

Lemma pause_noTick (w : GameEngine.World) : App.noTickBetween w (GameEngine.pause w).
Proof.
  unfold GameEngine.pause.
  destruct (GameEngine.animationId _); repeat split.
Qed.

Lemma dispose_isPaused (w : GameEngine.World) :
  GameEngine.isPaused (GameEngine.engine (GameEngine.dispose w)) = true.
Proof. unfold GameEngine.dispose. apply pause_isPaused. Qed.

(** While [isPaused] holds, an operation other than [resume()] and
    [startMission()] keeps it and runs no tick. *)
Lemma perform_paused (w : GameEngine.World) (o : App.op) :
  App.rearms o = false ->
  GameEngine.isPaused (GameEngine.engine w) = true ->
  GameEngine.isPaused (GameEngine.engine (App.perform w o)) = true
  /\ App.noTickBetween w (App.perform w o).
Proof.
  intros Ho Hp. destruct o; try discriminate Ho; cbn [App.perform].
  - (* initialize() *)
    unfold GameEngine.initializeCall.
    destruct (GameEngine.isInitialized _); repeat split; exact Hp.
  - (* its continuation *)
    unfold GameEngine.initializeSettled.
    destruct (GameEngine.initializing w); [repeat split; exact Hp |].
    destruct (GameEngine.allFulfilled o).
    + rewrite start_paused by exact Hp. repeat split; exact Hp.
    + repeat split; exact Hp.
  - (* toggleSystem *)
    unfold GameEngine.toggleSystem.
    repeat match goal with |- context [if ?b then _ else _] => destruct b end;
      repeat split; exact Hp.
  - split; [apply pause_isPaused | apply pause_noTick].
  - split; [apply dispose_isPaused |].
    unfold GameEngine.dispose. destruct (pause_noTick w) as (? & ? & ?).
    repeat split; assumption.
  - destruct hidden; cbn [GameEngine.handleVisibilityChange].
    + split; [apply pause_isPaused | apply pause_noTick].
    + repeat split; exact Hp.
  - (* a frame *)
    unfold GameEngine.frame. rewrite frames_paused by exact Hp.
    repeat split; exact Hp.
  - repeat split; exact Hp.
  - repeat split; exact Hp.
  - (* onSystemToggle *)
    unfold App.onSystemToggle, GameEngine.toggleSystem.
    repeat match goal with |- context [if ?b then _ else _] => destruct b end;
      repeat split; exact Hp.
  - (* onPause *)
    unfold App.onPause. split; [apply pause_isPaused |].
    match goal with |- App.noTickBetween _ (GameEngine.pause ?x) =>
      destruct (pause_noTick x) as (H1 & H2 & H3) end.
    repeat split; [rewrite H1 | rewrite H2 | rewrite H3]; reflexivity.
Qed.

Lemma run_paused (os : list App.op) (w : GameEngine.World) :
  forallb (fun o => negb (App.rearms o)) os = true ->
  GameEngine.isPaused (GameEngine.engine w) = true ->
  App.noTickBetween w (App.run w os).
Proof.
  unfold App.run. revert w.
  induction os as [| o os IH]; intros w Hos Hp; cbn [fold_left].
  - repeat split.
  - cbn [forallb] in Hos. apply andb_prop in Hos as [Ho Hos].
    apply negb_true_iff in Ho.
    destruct (perform_paused w o Ho Hp) as (Hp' & H1 & H2 & H3).
    destruct (IH _ Hos Hp') as (K1 & K2 & K3).
    repeat split; congruence.
Qed.

(** C5, as stated, fails: [dispose()] is [pause()] plus the release of
    resources, and nothing records that the engine was disposed.  After
    [dispose()] on a running engine a [resume()] runs a tick at once and
    schedules the next one, and so does [startMission]. *)
Lemma resume_after_dispose_ticks :
  let d := GameEngine.dispose Scenario.running in
  GameEngine.released (GameEngine.engine d) = true
  /\ GameEngine.ticks d = 1%nat
  /\ GameEngine.ticks (App.run d [App.Resume]) = 2%nat
  /\ GameEngine.ticks (App.run d [App.Resume; App.Frame; App.Frame]) = 4%nat
  /\ GameEngine.ticks (App.run d [App.StartMission "atmospheric"]) = 2%nat.
Proof. repeat split. Qed.

(** C5, amended.  After [dispose()], in any state, no tick runs for as
    long as neither [resume()] nor [startMission(id)] is called: the
    frames the host still delivers, [initialize()] and its continuation,
    [pause()], [dispose()], toggles, visibility changes and raw input
    leave the tick counter, the craft and the published motion as
    [dispose()] left them. *)
Theorem no_tick_after_dispose_until_rearmed
    (w : GameEngine.World) (os : list App.op) :
  forallb (fun o => negb (App.rearms o)) os = true ->
  let d := GameEngine.dispose w in
  let w' := App.run d os in
  GameEngine.ticks w' = GameEngine.ticks d
  /\ GameEngine.craft (GameEngine.engine w') = GameEngine.craft (GameEngine.engine d)
  /\ App.published w' = App.published d.
Proof.
  intros Hos d w'. subst w'. apply run_paused; [exact Hos |].
  subst d. apply dispose_isPaused.
Qed.

Lemma no_tick_after_dispose_until_rearmed_witness :
  let os := [App.Frame; App.Initialize; App.InitializeSettled Scenario.allOk;
             App.Elapse 1; App.Frame; App.HudPause] in
  let d := GameEngine.dispose Scenario.running in
  forallb (fun o => negb (App.rearms o)) os = true
  /\ GameEngine.ticks (App.run d os) = GameEngine.ticks d
  /\ GameEngine.craft (GameEngine.engine (App.run d os))
     = GameEngine.craft (GameEngine.engine d)
  /\ App.published (App.run d os) = App.published d.
Proof.
  intros os d.
  assert (H : forallb (fun o => negb (App.rearms o)) os = true) by reflexivity.
  split; [exact H |].
  exact (no_tick_after_dispose_until_rearmed Scenario.running os H).
Defined.

(** C4, as stated, fails: when [SensorSystem.initialize()] rejects,
    [Promise.all] rejects, the [catch] of [GameEngine.initialize()] logs
    the error, and the statements that set [isInitialized] and call
    [start()] are skipped: no frame is requested and no tick runs, now
    or on later frames. *)
Lemma sensors_failure_leaves_loop_stopped :
  let w := GameEngine.initialize Scenario.sensorsFail
             (GameEngine.constructor InputManager.Unsupported) in
  GameEngine.errors w = 1%nat
  /\ GameEngine.isInitialized (GameEngine.engine w) = false
  /\ GameEngine.animationId (GameEngine.engine w) = None
  /\ GameEngine.frames w = []
  /\ GameEngine.ticks w = 0%nat
  /\ GameEngine.ticks (App.run w [App.Frame; App.Elapse 1; App.Frame]) = 0%nat.
Proof. repeat split. Qed.

(** C4, amended.  On a fresh engine, if the promise of any module given
    to [Promise.all] rejects, [initialize()] catches and logs the
    failure once, leaves the engine uninitialised and does not start the
    loop: no frame is requested and no tick runs.  If all of them fulfil
    the engine is marked initialised and the loop starts: a frame is
    requested and a tick is entered at once.  A failure inside
    [AudioSystem.initialize()] is caught by that module, its promise
    fulfils, and it does not keep the loop from starting. *)
Theorem initialize_outcome (env : InputManager.orientationSupport)
    (o : GameEngine.outcome) :
  let w := GameEngine.initialize o (GameEngine.constructor env) in
  if GameEngine.allFulfilled o
  then GameEngine.isInitialized (GameEngine.engine w) = true
       /\ GameEngine.animationId (GameEngine.engine w) = Some 1%nat
       /\ GameEngine.frames w = [1%nat]
       /\ GameEngine.ticks w = 1%nat
       /\ GameEngine.audio (GameEngine.engine w) = GameEngine.audioOk o
  else GameEngine.errors w = 1%nat
       /\ GameEngine.isInitialized (GameEngine.engine w) = false
       /\ GameEngine.animationId (GameEngine.engine w) = None
       /\ GameEngine.frames w = []
       /\ GameEngine.ticks w = 0%nat
       /\ GameEngine.craft (GameEngine.engine w) = CraftController.constructor.
Proof.
  intros w. subst w.
  unfold GameEngine.initialize, GameEngine.initializeCall.
  cbn [GameEngine.constructor GameEngine.engine GameEngine.isInitialized].
  unfold GameEngine.initializeSettled.
  cbn [GameEngine.setInitializing GameEngine.initializing].
  destruct (GameEngine.allFulfilled o); repeat split.
Qed.

(** What a tick does to the craft. *)
Lemma update_craft (w : GameEngine.World) :
  GameEngine.craft (GameEngine.engine (fst (GameEngine.update w)))
  = CraftController.update
      (fst (Clock.getDelta (GameEngine.now w)
              (GameEngine.clock (GameEngine.engine w))))
      (InputManager.getState
         (InputManager.update (GameEngine.input (GameEngine.engine w))))
      (GameEngine.craft (GameEngine.engine w)).
Proof.
  unfold GameEngine.update.
  destruct (Clock.getDelta _ _) as [dt c1].
  destruct (Clock.getElapsedTime _ _) as [el c2].
  reflexivity.
Qed.

Lemma update_ticks (w : GameEngine.World) :
  GameEngine.ticks (fst (GameEngine.update w)) = S (GameEngine.ticks w).
Proof.
  unfold GameEngine.update.
  destruct (Clock.getDelta _ _) as [dt c1].
  destruct (Clock.getElapsedTime _ _) as [el c2].
  reflexivity.
Qed.

(** A tick throws before it reaches [this.updateGameState]: the
    published state is as it was. *)
Lemma update_gameState (w : GameEngine.World) :
  GameEngine.gameState (fst (GameEngine.update w)) = GameEngine.gameState w.
Proof.
  unfold GameEngine.update.
  destruct (Clock.getDelta _ _) as [dt c1].
  destruct (Clock.getElapsedTime _ _) as [el c2].
  reflexivity.
Qed.

Lemma update_craft_reachable (w : GameEngine.World) :
  CraftController.reachable (GameEngine.craft (GameEngine.engine w)) ->
  CraftController.reachable
    (GameEngine.craft (GameEngine.engine (fst (GameEngine.update w)))).
Proof.
  intros H. rewrite update_craft.
  exact (CraftController.reachable_perform _ (CraftController.Update _ _) H).
Qed.

Lemma animate_craft_reachable (w : GameEngine.World) :
  CraftController.reachable (GameEngine.craft (GameEngine.engine w)) ->
  CraftController.reachable
    (GameEngine.craft (GameEngine.engine (fst (GameEngine.animate w)))).
Proof.
  intros H.
  destruct (GameEngine.isPaused (GameEngine.engine w)) eqn:Hp.
  - now rewrite animate_paused.
  - rewrite animate_unpaused by exact Hp.
    apply update_craft_reachable. exact H.
Qed.

Lemma start_craft_reachable (w : GameEngine.World) :
  CraftController.reachable (GameEngine.craft (GameEngine.engine w)) ->
  CraftController.reachable
    (GameEngine.craft (GameEngine.engine (fst (GameEngine.start w)))).
Proof.
  intros H. unfold GameEngine.start.
  destruct (GameEngine.animationId _); [exact H |].
  now apply animate_craft_reachable.
Qed.

Lemma frames_craft_reachable (l : list nat) (w : GameEngine.World) :
  CraftController.reachable (GameEngine.craft (GameEngine.engine w)) ->
  CraftController.reachable
    (GameEngine.craft
       (GameEngine.engine
          (fold_left (fun w' _ => GameEngine.uncaughtError (GameEngine.animate w'))
                     l w))).
Proof.
  revert w. induction l as [| h l IH]; intros w H; cbn [fold_left].
  - exact H.
  - apply IH. rewrite uncaughtError_engine. now apply animate_craft_reachable.
Qed.

Lemma pause_craft (w : GameEngine.World) :
  GameEngine.craft (GameEngine.engine (GameEngine.pause w))
  = GameEngine.craft (GameEngine.engine w).
Proof. now destruct (pause_noTick w) as (_ & H & _). Qed.

Lemma startMission_craft_reachable (m : string) (w : GameEngine.World) :
  CraftController.reachable (GameEngine.craft (GameEngine.engine w)) ->
  CraftController.reachable
    (GameEngine.craft (GameEngine.engine (GameEngine.startMission m w))).
Proof.
  intros H. unfold GameEngine.startMission. rewrite uncaughtError_engine.
  apply start_craft_reachable.
  exact (CraftController.reachable_perform _ CraftController.Reset H).
Qed.

Lemma perform_craft_reachable (w : GameEngine.World) (o : App.op) :
  CraftController.reachable (GameEngine.craft (GameEngine.engine w)) ->
  CraftController.reachable
    (GameEngine.craft (GameEngine.engine (App.perform w o))).
Proof.
  intros H. destruct o; cbn [App.perform].
  - unfold GameEngine.initializeCall.
    destruct (GameEngine.isInitialized _); exact H.
  - unfold GameEngine.initializeSettled.
    destruct (GameEngine.initializing w); [exact H |].
    destruct (GameEngine.allFulfilled o); [| exact H].
    match goal with |- context [GameEngine.start ?x] =>
      pose proof (start_craft_reachable x H) as K;
      destruct (GameEngine.start x) as [w2 []] end; exact K.
  - now apply startMission_craft_reachable.
  - unfold GameEngine.toggleSystem.
    repeat match goal with |- context [if ?b then _ else _] => destruct b end;
      exact H.
  - now rewrite pause_craft.
  - unfold GameEngine.resume. rewrite uncaughtError_engine.
    apply start_craft_reachable. exact H.
  - unfold GameEngine.dispose.
    change (CraftController.reachable
              (GameEngine.craft (GameEngine.engine (GameEngine.pause w)))).
    now rewrite pause_craft.
  - destruct hidden; cbn [GameEngine.handleVisibilityChange];
      [now rewrite pause_craft | exact H].
  - unfold GameEngine.frame. apply frames_craft_reachable. exact H.
  - exact H.
  - exact H.
  - unfold App.onMissionSelect. apply startMission_craft_reachable. exact H.
  - unfold App.onSystemToggle, GameEngine.toggleSystem.
    repeat match goal with |- context [if ?b then _ else _] => destruct b end;
      exact H.
  - unfold App.onPause. now rewrite pause_craft.
Qed.

(** The craft of a running application is always a state its
    controller can be in. *)
Lemma run_craft_reachable (os : list App.op) (w : GameEngine.World) :
  CraftController.reachable (GameEngine.craft (GameEngine.engine w)) ->
  CraftController.reachable
    (GameEngine.craft (GameEngine.engine (App.run w os))).
Proof.
  unfold App.run. revert w.
  induction os as [| o os IH]; intros w H; cbn [fold_left]; [exact H |].
  apply IH. now apply perform_craft_reachable.
Qed.

(** What [animate] does when the engine is not paused. *)
Lemma animate_running (w : GameEngine.World) :
  GameEngine.isPaused (GameEngine.engine w) = false ->
  GameEngine.craft (GameEngine.engine (fst (GameEngine.animate w)))
  = CraftController.update
      (fst (Clock.getDelta (GameEngine.now w)
              (GameEngine.clock (GameEngine.engine w))))
      (InputManager.getState
         (InputManager.update (GameEngine.input (GameEngine.engine w))))
      (GameEngine.craft (GameEngine.engine w))
  /\ GameEngine.ticks (fst (GameEngine.animate w)) = S (GameEngine.ticks w).
Proof.
  intros H. rewrite animate_unpaused by exact H.
  split; [rewrite update_craft | rewrite update_ticks]; reflexivity.
Qed.

(** What [startMission] leaves in the craft: the reset state when a
    frame is already requested; otherwise [start()] runs [animate] at
    once, and the tick moves the craft on from the reset state. *)
Lemma startMission_craft (m : string) (w : GameEngine.World) :
  let w' := GameEngine.startMission m w in
  match GameEngine.animationId (GameEngine.engine w) with
  | Some _ =>
      GameEngine.craft (GameEngine.engine w')
      = CraftController.reset (GameEngine.craft (GameEngine.engine w))
      /\ GameEngine.ticks w' = GameEngine.ticks w
  | None =>
      GameEngine.craft (GameEngine.engine w')
      = CraftController.update
          (fst (Clock.getDelta (GameEngine.now w)
                  (GameEngine.clock (GameEngine.engine w))))
          (InputManager.getState
             (InputManager.update (GameEngine.input (GameEngine.engine w))))
          (CraftController.reset (GameEngine.craft (GameEngine.engine w)))
      /\ GameEngine.ticks w' = S (GameEngine.ticks w)
  end.
Proof.
  intros w'. subst w'. unfold GameEngine.startMission.
  rewrite uncaughtError_engine, uncaughtError_ticks.
  unfold GameEngine.start.
  set (w0 := GameEngine.onEngine _ w).
  change (GameEngine.animationId (GameEngine.engine w0))
    with (GameEngine.animationId (GameEngine.engine w)).
  destruct (GameEngine.animationId (GameEngine.engine w)); [split; reflexivity |].
  exact (animate_running w0 eq_refl).
Qed.

(** The published mode and mission after the mission-select handler. *)
Lemma onMissionSelect_published (m : string) (w : GameEngine.World) :
  let g := GameEngine.gameState (App.onMissionSelect m w) in
  GameState.gameMode g = GameState.playing
  /\ GameState.currentMission g = Some m.
Proof.
  intros g. subst g. unfold App.onMissionSelect, GameEngine.startMission.
  rewrite uncaughtError_gameState. unfold GameEngine.start.
  set (w0 := GameEngine.onEngine _ _).
  destruct (GameEngine.animationId (GameEngine.engine w0)); [split; reflexivity |].
  rewrite (animate_unpaused w0 eq_refl), update_gameState.
  split; reflexivity.
Qed.

(** C6, as stated, fails for the craft: [startMission] calls [reset()]
    and then [start()], and when no frame is requested [start()] runs a
    tick at once.  With the page hidden for a second while the menu is
    shown (which pauses the engine), selecting a mission leaves the
    craft one second of free fall below the initial position. *)
Lemma mission_select_after_hidden_menu_moves_craft :
  let w := Scenario.hiddenInMenu in
  let w' := App.onMissionSelect "atmospheric" w in
  GameEngine.animationId (GameEngine.engine w) = None
  /\ GameEngine.ticks w' = S (GameEngine.ticks w)
  /\ CraftState.position (GameEngine.craft (GameEngine.engine w'))
     = Vector3.mk 0 998.9617096 0
  /\ GameEngine.craft (GameEngine.engine w') <> CraftController.constructor.
Proof.
  intros w w'.
  assert (Hid : GameEngine.animationId (GameEngine.engine w) = None)
    by reflexivity.
  unfold App.onMissionSelect in w'.
  set (w0 := GameEngine.setGameState _ w) in w'.
  pose proof (startMission_craft "atmospheric" w0) as H. cbv zeta in H.
  change (GameEngine.animationId (GameEngine.engine w0)) with (@None nat) in H.
  destruct H as [Hc Ht]. fold w' in Hc, Ht.
  set (i := InputManager.getState _) in Hc.
  assert (Hi : CraftController.thrustForce i = Vector3.mk 0 0 0) by reflexivity.
  assert (Hdt : fst (Clock.getDelta (GameEngine.now w0)
                       (GameEngine.clock (GameEngine.engine w0)))
                = 0 + 1 - 0) by reflexivity.
  assert (Hr : CraftController.reset (GameEngine.craft (GameEngine.engine w0))
               = CraftController.constructor)
    by (apply reset_constructor; reflexivity).
  rewrite Hdt, Hr in Hc.
  destruct (update_vertical (0 + 1 - 0) 0 i Hi) as (_ & _ & Hp); [lra |].
  assert (Hpos : CraftState.position (GameEngine.craft (GameEngine.engine w'))
                 = Vector3.mk 0 998.9617096 0).
  { rewrite Hc, Hp. apply vector_eq; lra. }
  split; [exact Hid |]. split; [exact Ht |]. split; [exact Hpos |].
  intros E. rewrite E in Hpos. cbn [CraftController.constructor CraftState.position] in Hpos.
  injection Hpos as Hy. lra.
Qed.

(** C6, amended.  In every state of a running application the
    mission-select handler, which calls [startMission(id)], publishes
    the mode [playing] and [id] as the current mission, and
    [startMission(id)] resets the craft.  If a frame is already
    requested the craft is then exactly the initial state; if not (the
    engine was paused or never started) [start()] runs one tick at once,
    and the craft is the initial state advanced by that tick. *)
Theorem onMissionSelect_effect (env : InputManager.orientationSupport)
    (os : list App.op) (mission : string) :
  let w := App.run (GameEngine.constructor env) os in
  let w' := App.onMissionSelect mission w in
  GameState.gameMode (GameEngine.gameState w') = GameState.playing
  /\ GameState.currentMission (GameEngine.gameState w') = Some mission
  /\ match GameEngine.animationId (GameEngine.engine w) with
     | Some _ =>
         GameEngine.craft (GameEngine.engine w') = CraftController.constructor
         /\ GameEngine.ticks w' = GameEngine.ticks w
     | None =>
         GameEngine.craft (GameEngine.engine w')
         = CraftController.update
             (fst (Clock.getDelta (GameEngine.now w)
                     (GameEngine.clock (GameEngine.engine w))))
             (InputManager.getState
                (InputManager.update (GameEngine.input (GameEngine.engine w))))
             CraftController.constructor
         /\ GameEngine.ticks w' = S (GameEngine.ticks w)
     end.
Proof.
  intros w w'.
  destruct (onMissionSelect_published mission w) as [Hm Hc].
  split; [exact Hm |]. split; [exact Hc |].
  assert (Hreach : CraftController.reachable
                     (GameEngine.craft (GameEngine.engine w))).
  { apply run_craft_reachable. apply CraftController.reachable_constructor. }
  destruct (reachable_constants _ Hreach) as [Hmass Hgr].
  rewrite <- (reset_constructor _ Hmass Hgr).
  subst w'. unfold App.onMissionSelect.
  exact (startMission_craft mission (GameEngine.setGameState _ w)).
Qed.

(** When every promise fulfils, the tick that [start()] runs inside the
    [try] of [initialize()] throws, and the [catch] of [initialize()]
    logs it: one [console.error] in this case too, with the engine
    initialised and the next frame requested. *)
Lemma initialize_logs_first_tick (env : InputManager.orientationSupport)
    (o : GameEngine.outcome) :
  GameEngine.allFulfilled o = true ->
  let w := GameEngine.initialize o (GameEngine.constructor env) in
  GameEngine.errors w = 1%nat /\ GameEngine.uncaught w = 0%nat.
Proof.
  intros Ho w. subst w.
  unfold GameEngine.initialize, GameEngine.initializeCall.
  cbn [GameEngine.constructor GameEngine.engine GameEngine.isInitialized].
  unfold GameEngine.initializeSettled.
  cbn [GameEngine.setInitializing GameEngine.initializing].
  rewrite Ho. split; reflexivity.
Qed.

(** Later ticks throw out of the animation-frame callback, where
    nothing catches them. *)
Lemma frame_error_is_uncaught :
  GameEngine.uncaught Scenario.running = 0%nat
  /\ GameEngine.uncaught (GameEngine.frame Scenario.running) = 1%nat
  /\ GameEngine.errors (GameEngine.frame Scenario.running)
     = GameEngine.errors Scenario.running.
Proof. repeat split. Qed.

(** ** Accessors and sharing *)

(** C3.  [getState()] spreads [this.state] into a new object, which
    copies the numbers and the references: the snapshot and the
    controller hold the same five vector objects.  So a later
    [update()] shows through a snapshot taken before it, and an
    assignment through the snapshot changes the state of the controller
    (the numeric fields, and the vector that [getPosition()] clones, do
    not change).  The same holds for the [touch] record of the snapshot
    that [InputManager.getState()] returns. *)
Theorem getState_snapshot_shares_objects :
  let c0 := Alias.craftConstructor [] in
  let snap := Alias.craftGetState c0 in
  let c1 := Alias.craftUpdate 1 Scenario.noInput c0 in
  let m0 := Alias.managerConstructor InputManager.Unsupported [] in
  let shot := Alias.managerGetState m0 in
  let m1 := Alias.managerPerform
              (InputManager.Event (InputManager.TouchStart 10 20)) m0 in
  (* the snapshot when taken, and after the update *)
  Alias.vectorAt (snd c0) (Alias.position snap) = Vector3.mk 0 1000 0
  /\ Alias.vectorAt (snd c1) (Alias.position snap) = Vector3.mk 0 998.9617096 0
  /\ Alias.altitude snap = 1000
  /\ Alias.altitude (fst c1) = 998.9617096
  (* an assignment through the snapshot reaches the controller *)
  /\ CraftState.position
       (Alias.craftValue (Alias.assignY (Alias.position snap) 0 (snd c0)) (fst c0))
     = Vector3.mk 0 0 0
  (* the clone returned by getPosition() is not affected *)
  /\ (let '(p, h) := Alias.craftGetPosition c0 in
      Alias.vectorAt (snd (Alias.craftUpdate 1 Scenario.noInput (fst c0, h))) p
      = Vector3.mk 0 1000 0)
  (* the touch record of an input snapshot *)
  /\ Touch.active (Alias.touchAt (Alias.store m0) (Alias.touch shot)) = false
  /\ Touch.active (Alias.touchAt (Alias.store m1) (Alias.touch shot)) = true
  /\ Touch.active
       (InputState.touch
          (InputManager.inputState
             (Alias.managerValue
                (Alias.mkManager (Alias.touchRef m0) (Alias.fields m0)
                   (Alias.assignActive (Alias.touch shot) true (Alias.store m0))))))
     = true.
Proof.
  intros c0 snap c1 m0 shot m1.
  destruct (update_vertical 1 0 Scenario.noInput thrustForce_noInput)
    as (_ & _ & Hp); [lra |].
  assert (H1 : Alias.vectorAt (snd c1) (Alias.position snap)
               = CraftState.position
                   (CraftController.update 1 Scenario.noInput
                      CraftController.constructor)) by reflexivity.
  assert (H2 : Alias.altitude (fst c1)
               = Vector3.y
                   (CraftState.position
                      (CraftController.update 1 Scenario.noInput
                         CraftController.constructor))) by reflexivity.
  split; [reflexivity |].
  split; [rewrite H1, Hp; apply vector_eq; lra |].
  split; [reflexivity |].
  split; [rewrite H2, Hp; cbn [Vector3.y]; lra |].
  split; [reflexivity |].
  split; [reflexivity |].
  split; [reflexivity |].
  split; reflexivity.
Qed.

(** ** Rotations keep lengths *)

Lemma setFromEuler_unit (e : Euler.t) :
  let q := Quaternion.setFromEuler e in
  Quaternion.x q * Quaternion.x q + Quaternion.y q * Quaternion.y q
  + Quaternion.z q * Quaternion.z q + Quaternion.w q * Quaternion.w q = 1.
Proof.
  intros q. subst q. unfold Quaternion.setFromEuler.
  cbn [Quaternion.x Quaternion.y Quaternion.z Quaternion.w].
  set (c1 := cos (Euler.x e / 2)). set (s1 := sin (Euler.x e / 2)).
  set (c2 := cos (Euler.y e / 2)). set (s2 := sin (Euler.y e / 2)).
  set (c3 := cos (Euler.z e / 2)). set (s3 := sin (Euler.z e / 2)).
  assert (H1 : s1 * s1 + c1 * c1 = 1) by apply (sin2_cos2 (Euler.x e / 2)).
  assert (H2 : s2 * s2 + c2 * c2 = 1) by apply (sin2_cos2 (Euler.y e / 2)).
  assert (H3 : s3 * s3 + c3 * c3 = 1) by apply (sin2_cos2 (Euler.z e / 2)).
  replace (_ + _ + _ + _)
    with ((s1 * s1 + c1 * c1) * (s2 * s2 + c2 * c2) * (s3 * s3 + c3 * c3))
    by ring.
  rewrite H1, H2, H3. ring.
Qed.

Lemma lengthSq_applyQuaternion (v : Vector3.t) (q : Quaternion.t) :
  Quaternion.x q * Quaternion.x q + Quaternion.y q * Quaternion.y q
  + Quaternion.z q * Quaternion.z q + Quaternion.w q * Quaternion.w q = 1 ->
  Vector3.lengthSq (Rotate.applyQuaternion v q) = Vector3.lengthSq v.
Proof.
  destruct v as [a b c], q as [x y z w].
  unfold Rotate.applyQuaternion, Vector3.lengthSq.
  cbn [Quaternion.x Quaternion.y Quaternion.z Quaternion.w
       Vector3.x Vector3.y Vector3.z].
  intros Hn.
  transitivity
    (a * a + b * b + c * c
     + (x * x + y * y + z * z + w * w - 1)
       * (4 * (x * x + y * y + z * z) * (a * a + b * b + c * c)
          - 4 * (x * a + y * b + z * c) * (x * a + y * b + z * c))).
  - ring.
  - rewrite Hn. ring.
Qed.

Lemma lengthSq_applyEuler (v : Vector3.t) (e : Euler.t) :
  Vector3.lengthSq (Rotate.applyEuler v e) = Vector3.lengthSq v.
Proof.
  unfold Rotate.applyEuler. apply lengthSq_applyQuaternion.
  apply setFromEuler_unit.
Qed.

(** ** Thrust *)

Lemma thrustForce_components (i : InputState.t) :
  CraftController.thrustForce i
  = Vector3.mk
      ((if InputState.right i then 500 else 0)
       - (if InputState.left i then 500 else 0))
      ((if InputState.up i then 500 else 0)
       - (if InputState.down i then 500 else 0))
      ((if InputState.backward i then 500 else 0)
       - (if InputState.forward i then 500 else 0)).
Proof.
  destruct i as [f b l r u d p yw rl t].
  unfold CraftController.thrustForce, CraftController.baseThrust, Vector3.zero.
  cbn [InputState.forward InputState.backward InputState.left InputState.right
       InputState.up InputState.down].
  destruct f, b, l, r, u, d; cbn [Vector3.x Vector3.y Vector3.z];
    apply vector_eq; lra.
Qed.

Lemma thrustForce_lengthSq (i : InputState.t) :
  Vector3.lengthSq (CraftController.thrustForce i) <= 750000.
Proof.
  rewrite thrustForce_components. unfold Vector3.lengthSq.
  cbn [Vector3.x Vector3.y Vector3.z].
  destruct (InputState.right i), (InputState.left i), (InputState.up i),
    (InputState.down i), (InputState.backward i), (InputState.forward i); lra.
Qed.

(** The acceleration a step computes, for a craft with the constants of
    the constructor: gravity plus a rotated thrust of bounded length. *)
Lemma update_acceleration_shape (dt : R) (i : InputState.t) (s : CraftState.t) :
  CraftState.mass s = 1000 -> CraftState.gravityReduction s = 0.892 ->
  exists T : Vector3.t,
    Vector3.lengthSq T <= 750000
    /\ CraftState.acceleration (CraftController.update dt i s)
       = Vector3.mk (Vector3.x T / 1000) (Vector3.y T / 1000 - 1.05948)
                    (Vector3.z T / 1000).
Proof.
  intros Hm Hg.
  exists (Rotate.applyEuler (CraftController.thrustForce i) (CraftState.rotation s)).
  split.
  - rewrite lengthSq_applyEuler. apply thrustForce_lengthSq.
  - rewrite update_acceleration, Hm, Hg.
    unfold Vector3.add, Vector3.divideScalar, Vector3.multiplyScalar,
      CraftController.gravityStrength.
    cbn [Vector3.x Vector3.y Vector3.z]. apply vector_eq; lra.
Qed.

Lemma update_acceleration_downward (dt : R) (i : InputState.t) (s : CraftState.t) :
  CraftState.mass s = 1000 -> CraftState.gravityReduction s = 0.892 ->
  Vector3.y (CraftState.acceleration (CraftController.update dt i s)) <= -0.19.
Proof.
  intros Hm Hg.
  destruct (update_acceleration_shape dt i s Hm Hg) as (T & HT & ->).
  unfold Vector3.lengthSq in HT. cbn [Vector3.y].
  assert (Vector3.y T <= 867) by nra. lra.
Qed.

Lemma update_acceleration_small (dt : R) (i : InputState.t) (s : CraftState.t) :
  CraftState.mass s = 1000 -> CraftState.gravityReduction s = 0.892 ->
  Vector3.length (CraftState.acceleration (CraftController.update dt i s)) <= 2.
Proof.
  intros Hm Hg.
  destruct (update_acceleration_shape dt i s Hm Hg) as (T & HT & ->).
  apply length_le_of_lengthSq; [lra |].
  unfold Vector3.lengthSq in *. cbn [Vector3.x Vector3.y Vector3.z].
  assert (-867 <= Vector3.y T) by nra.
  nra.
Qed.

Lemma update_gForce_one (dt : R) (i : InputState.t) (s : CraftState.t) :
  CraftState.mass s = 1000 -> CraftState.gravityReduction s = 0.892 ->
  CraftState.gForce (CraftController.update dt i s) = 1.
Proof.
  intros Hm Hg.
  pose proof (update_acceleration_small dt i s Hm Hg) as Ha.
  change (CraftState.gForce (CraftController.update dt i s))
    with (Rmax 1 (Vector3.length
                    (CraftState.acceleration (CraftController.update dt i s))
                  / CraftController.gravityStrength)).
  apply Rmax_left. unfold CraftController.gravityStrength. lra.
Qed.

Lemma performAll_reachable (cs : list CraftController.call) (s : CraftState.t) :
  CraftController.reachable s ->
  CraftController.reachable (CraftController.performAll s cs).
Proof.
  unfold CraftController.performAll. revert s.
  induction cs as [| c cs IH]; intros s H; cbn [fold_left]; [exact H |].
  apply IH. now constructor.
Qed.

Lemma reachable_gForce (s : CraftState.t) :
  CraftController.reachable s -> CraftState.gForce s = 1.
Proof.
  intros H. destruct H as [| s c H]; [reflexivity |].
  destruct (reachable_constants s H) as [Hm Hg].
  destruct c as [dt i |]; cbn [CraftController.perform]; [| reflexivity].
  now apply update_gForce_one.
Qed.

Lemma length_zero : Vector3.length (Vector3.mk 0 0 0) = 0.
Proof.
  unfold Vector3.length, Vector3.lengthSq. cbn [Vector3.x Vector3.y Vector3.z].
  replace (0 * 0 + 0 * 0 + 0 * 0) with 0 by lra. apply sqrt_0.
Qed.

Lemma reachable_derived (s : CraftState.t) :
  CraftController.reachable s ->
  CraftState.speed s = Vector3.length (CraftState.velocity s)
  /\ CraftState.altitude s = Vector3.y (CraftState.position s)
  /\ 0 <= CraftState.speed s.
Proof.
  intros H. destruct H as [| s c H].
  - change (CraftState.velocity CraftController.constructor)
      with (Vector3.mk 0 0 0).
    rewrite length_zero. cbn. repeat split; lra.
  - destruct c as [dt i |]; cbn [CraftController.perform].
    + split; [reflexivity |]. split; [reflexivity |].
      apply length_nonneg.
    + change (CraftState.velocity (CraftController.reset s))
        with (Vector3.mk 0 0 0).
      rewrite length_zero. cbn. repeat split; lra.
Qed.

(** ** Sinking *)

Lemma limitSpeed_y_sign (v : Vector3.t) :
  Vector3.y v <= 0 -> Vector3.y (CraftController.limitSpeed v) <= 0.
Proof.
  intros Hy. unfold CraftController.limitSpeed.
  destruct (Rlt_dec _ _) as [Hgt | _]; [| exact Hy].
  unfold CraftController.maxSpeed in *.
  unfold Vector3.normalize, Vector3.divideScalar, Vector3.multiplyScalar,
    Vector3.orOne.
  destruct (Req_dec_T _ 0) as [E | _]; [lra |].
  cbn [Vector3.y].
  assert (0 < 1 / Vector3.length v).
  { apply Rdiv_lt_0_compat; lra. }
  nra.
Qed.

Lemma update_sinks (dt : R) (i : InputState.t) (s : CraftState.t) :
  0 <= dt ->
  CraftState.mass s = 1000 -> CraftState.gravityReduction s = 0.892 ->
  Vector3.y (CraftState.velocity s) <= 0 ->
  Vector3.y (CraftState.velocity (CraftController.update dt i s)) <= 0
  /\ Vector3.y (CraftState.position (CraftController.update dt i s))
     <= Vector3.y (CraftState.position s).
Proof.
  intros Hdt Hm Hg Hv.
  pose proof (update_acceleration_downward dt i s Hm Hg) as Ha.
  assert (Hv' : Vector3.y (CraftState.velocity (CraftController.update dt i s)) <= 0).
  { rewrite update_velocity. apply limitSpeed_y_sign.
    unfold Vector3.multiplyScalar, Vector3.add. cbn [Vector3.y]. nra. }
  split; [exact Hv' |].
  rewrite update_position. unfold Vector3.add, Vector3.multiplyScalar.
  cbn [Vector3.y]. nra.
Qed.

Lemma performAll_sinks (cs : list CraftController.call) (s : CraftState.t) :
  Forall Session.forwardCall cs ->
  CraftState.mass s = 1000 -> CraftState.gravityReduction s = 0.892 ->
  Vector3.y (CraftState.velocity s) <= 0 ->
  Vector3.y (CraftState.position s) <= 1000 ->
  let s' := CraftController.performAll s cs in
  Vector3.y (CraftState.velocity s') <= 0
  /\ Vector3.y (CraftState.position s') <= 1000.
Proof.
  unfold CraftController.performAll. revert s.
  induction cs as [| c cs IH]; intros s Hcs Hm Hg Hv Hp; cbn [fold_left].
  - split; assumption.
  - inversion Hcs as [| c' cs' Hc Hcs']; subst.
    destruct (perform_constants s c) as [Hm' Hg'].
    apply IH; [exact Hcs' | congruence | congruence | |].
    + destruct c as [dt i |]; cbn [CraftController.perform].
      * now apply update_sinks.
      * cbn. lra.
    + destruct c as [dt i |]; cbn [CraftController.perform].
      * destruct (update_sinks dt i s Hc Hm Hg Hv). lra.
      * cbn. lra.
Qed.

Lemma gt_false (a b : R) : a <= b -> CraftCamera.gt a b = false.
Proof. intros H. unfold CraftCamera.gt. destruct (Rlt_dec b a); [lra | reflexivity]. Qed.

Lemma gt_true (a b : R) : b < a -> CraftCamera.gt a b = true.
Proof. intros H. unfold CraftCamera.gt. destruct (Rlt_dec b a); [reflexivity | lra]. Qed.

(** X1.  The thrust is the sum of the flags: each axis gets [+500] for
    one flag and [-500] for the opposite one, so holding both flags of
    an axis gives no thrust along it, and no component leaves
    [-500, 500]. *)
Theorem thrust_flags_add_and_cancel (i : InputState.t) :
  let t := CraftController.thrustForce i in
  Vector3.x t = (if InputState.right i then 500 else 0)
                - (if InputState.left i then 500 else 0)
  /\ Vector3.y t = (if InputState.up i then 500 else 0)
                   - (if InputState.down i then 500 else 0)
  /\ Vector3.z t = (if InputState.backward i then 500 else 0)
                   - (if InputState.forward i then 500 else 0)
  /\ (InputState.left i = InputState.right i -> Vector3.x t = 0)
  /\ (InputState.up i = InputState.down i -> Vector3.y t = 0)
  /\ (InputState.forward i = InputState.backward i -> Vector3.z t = 0).
Proof.
  intros t. subst t. rewrite thrustForce_components.
  cbn [Vector3.x Vector3.y Vector3.z].
  repeat split; try reflexivity; intros ->;
    match goal with |- context [if ?b then _ else _] => destruct b end; lra.
Qed.

Lemma thrust_flags_add_and_cancel_witness :
  let i := InputState.mk true true false false true false 0 0 0
             Scenario.idleTouch in
  InputState.forward i = InputState.backward i
  /\ Vector3.z (CraftController.thrustForce i) = 0.
Proof.
  intros i. split; [reflexivity |].
  exact (proj2 (proj2 (proj2 (proj2 (proj2 (thrust_flags_add_and_cancel i)))))
           eq_refl).
Defined.

(** X2.  In every state a controller can reach, whatever the rotation
    and whatever the control input, the acceleration [update] computes
    points downward: the thrust, at most [500 * sqrt 3] in any
    direction and divided by the mass, stays below the residual
    gravity. *)
Theorem craft_never_accelerates_upward (cs : list CraftController.call)
    (dt : R) (i : InputState.t) :
  let s := CraftController.performAll CraftController.constructor cs in
  Vector3.y (CraftState.acceleration (CraftController.update dt i s)) < 0.
Proof.
  intros s.
  destruct (performAll_constants cs CraftController.constructor) as [Hm Hg].
  pose proof (update_acceleration_downward dt i s Hm Hg). lra.
Qed.

(** X3.  Along any sequence of [update] calls with [deltaTime >= 0]
    and [reset] calls on a new controller the craft never moves upward
    and never rises above its initial altitude. *)
Theorem craft_never_climbs (cs : list CraftController.call) :
  Forall Session.forwardCall cs ->
  let s := CraftController.performAll CraftController.constructor cs in
  Vector3.y (CraftState.velocity s) <= 0
  /\ Vector3.y (CraftState.position s) <= 1000
  /\ CraftState.altitude s <= 1000.
Proof.
  intros Hcs s.
  destruct (performAll_sinks cs CraftController.constructor Hcs)
    as [Hv Hp]; try reflexivity; try (cbn; lra).
  destruct (reachable_derived s) as (_ & Ha & _).
  { apply performAll_reachable. constructor. }
  fold s in Hv, Hp. rewrite Ha. repeat split; assumption.
Qed.

Lemma craft_never_climbs_witness :
  let cs := [CraftController.Update 0.1 Scenario.upOnly;
             CraftController.Reset;
             CraftController.Update 2 Scenario.upOnly] in
  Forall Session.forwardCall cs
  /\ CraftState.altitude
       (CraftController.performAll CraftController.constructor cs) <= 1000.
Proof.
  intros cs.
  assert (H : Forall Session.forwardCall cs).
  { repeat constructor; cbn [Session.forwardCall]; lra. }
  split; [exact H |].
  exact (proj2 (proj2 (craft_never_climbs cs H))).
Defined.

(** X4.  In every state a controller can reach [gForce] is exactly
    [1]: the acceleration never reaches [9.81], so the floor of
    [Math.max(1, ...)] always wins. *)
Theorem gForce_is_always_one (cs : list CraftController.call) :
  CraftState.gForce
    (CraftController.performAll CraftController.constructor cs) = 1.
Proof. apply reachable_gForce, performAll_reachable. constructor. Qed.

(** X5.  The derived fields agree with the vectors in every state a
    controller can reach, also right after construction and after
    [reset()]: [speed] is the length of [velocity] and [altitude] is
    [position.y]. *)
Theorem derived_fields_consistent (cs : list CraftController.call) :
  let s := CraftController.performAll CraftController.constructor cs in
  CraftState.speed s = Vector3.length (CraftState.velocity s)
  /\ CraftState.altitude s = Vector3.y (CraftState.position s)
  /\ 0 <= CraftState.speed s.
Proof.
  intros s. destruct (reachable_derived s) as (H1 & H2 & H3).
  { apply performAll_reachable. constructor. }
  repeat split; assumption.
Qed.

(** X6.  A tick of length zero moves nothing: [update(0, input)] leaves
    position and rotation as they were, for every state and input. *)
Theorem zero_length_tick_moves_nothing (i : InputState.t) (s : CraftState.t) :
  CraftState.position (CraftController.update 0 i s) = CraftState.position s
  /\ CraftState.rotation (CraftController.update 0 i s) = CraftState.rotation s.
Proof.
  split.
  - rewrite update_position. destruct (CraftState.position s) as [a b c].
    unfold Vector3.add, Vector3.multiplyScalar.
    cbn [Vector3.x Vector3.y Vector3.z]. apply vector_eq; lra.
  - unfold CraftController.update, CraftController.updatePhysics.
    cbn [CraftState.rotation Vector3.x Vector3.y Vector3.z].
    destruct (CraftState.rotation s) as [a b c].
    cbn [Euler.x Euler.y Euler.z]. f_equal; lra.
Qed.





(** ** InputManager: more *)

Lemma keys_add_remove (c : string) (K : gset string) :
  c ∉ K -> ({[c]} ∪ K) ∖ {[c]} = K.
Proof.
  intros H. apply set_eq. intros x.
  rewrite elem_of_difference, elem_of_union, !elem_of_singleton.
  split.
  - intros [[-> | Hx] Hne]; [congruence | assumption].
  - intros Hx. split; [now right | intros ->; contradiction].
Qed.

Lemma keys_add_twice (c : string) (K : gset string) :
  {[c]} ∪ ({[c]} ∪ K) = {[c]} ∪ K.
Proof.
  apply set_eq. intros x. rewrite !elem_of_union, !elem_of_singleton. tauto.
Qed.

Lemma keys_remove_absent (c : string) (K : gset string) :
  c ∉ K -> K ∖ {[c]} = K.
Proof.
  intros H. apply set_eq. intros x.
  rewrite elem_of_difference, elem_of_singleton.
  split; [tauto | intros Hx; split; [assumption | intros ->; contradiction]].
Qed.

Lemma keys_add_other (c d : string) (K : gset string) :
  c <> d -> (d ∈ {[c]} ∪ K) <-> (d ∈ K).
Proof.
  intros H. rewrite elem_of_union, elem_of_singleton.
  split; [intros [-> | Hd]; [contradiction | assumption] | tauto].
Qed.

Lemma keys_remove_other (c d : string) (K : gset string) :
  c <> d -> (d ∈ K ∖ {[c]}) <-> (d ∈ K).
Proof.
  intros H. rewrite elem_of_difference, elem_of_singleton.
  split; [tauto | intros Hd; split; [assumption | congruence]].
Qed.

Lemma withKeys_withKeys (m : InputManager.t) (a b : gset string) :
  InputManager.withKeys (InputManager.withKeys m a) b = InputManager.withKeys m b.
Proof. reflexivity. Qed.

Lemma clamp_inside (a : R) : -1 <= a <= 1 -> InputManager.clamp a = a.
Proof.
  intros H. unfold InputManager.clamp.
  rewrite (Rmin_right 1 a) by lra. apply Rmax_right. lra.
Qed.

(** X9.  [update()] reads only the raw input (keys, contact, tilt), so
    calling it again without an event in between changes nothing. *)
Theorem input_update_idempotent (m : InputManager.t) :
  InputManager.update (InputManager.update m) = InputManager.update m.
Proof. reflexivity. Qed.

(** X10.  With no contact active and tilt not engaged (sensing off, or
    gamma within the 5 degree deadband), [update()] reports pitch, yaw
    and roll exactly [0]. *)
Theorem input_neutral_without_contact_or_tilt (m : InputManager.t) :
  Touch.active (InputState.touch (InputManager.inputState m)) = false ->
  InputManager.gyroscopeEnabled m = false
  \/ Rabs (InputManager.gyroGamma m) <= 5 ->
  let i := InputManager.getState (InputManager.update m) in
  InputState.pitch i = 0 /\ InputState.yaw i = 0 /\ InputState.roll i = 0.
Proof.
  intros Ht Hg i. subst i.
  unfold InputManager.getState, InputManager.update.
  cbn [InputManager.inputState InputState.pitch InputState.yaw InputState.roll].
  rewrite Ht.
  assert (He : InputManager.gyroscopeEnabled m
               && InputManager.gt (Rabs (InputManager.gyroGamma m)) 5 = false).
  { destruct Hg as [-> | Hg]; [reflexivity |].
    unfold InputManager.gt. destruct (Rlt_dec _ _); [lra |].
    apply andb_false_r. }
  rewrite He. rewrite clamp_inside by lra. repeat split.
Qed.

Lemma input_neutral_without_contact_or_tilt_witness :
  let m := InputManager.handle
             (InputManager.DeviceOrientation (Some 40) (Some 10) (Some 3))
             (InputManager.constructor InputManager.Supported) in
  Touch.active (InputState.touch (InputManager.inputState m)) = false
  /\ Rabs (InputManager.gyroGamma m) <= 5
  /\ InputState.roll (InputManager.getState (InputManager.update m)) = 0.
Proof.
  intros m.
  assert (Hg : Rabs (InputManager.gyroGamma m) <= 5).
  { change (InputManager.gyroGamma m) with 3. rewrite Rabs_right; lra. }
  split; [reflexivity |]. split; [exact Hg |].
  exact (proj2 (proj2 (input_neutral_without_contact_or_tilt m eq_refl
                         (or_intror Hg)))).
Defined.

Lemma withKeys_same (m : InputManager.t) :
  InputManager.withKeys m (InputManager.keys m) = m.
Proof. now destruct m. Qed.

(** X11.  The key set is a set: a repeated [keydown] of a held key
    changes nothing, a [keyup] of a key that is not held changes
    nothing, and [keydown] followed by [keyup] of a key that was not
    held gives back the manager as it was. *)
Theorem key_events_round_trip (code : string) (m : InputManager.t) :
  InputManager.handleKeyDown code (InputManager.handleKeyDown code m)
  = InputManager.handleKeyDown code m
  /\ (code ∉ InputManager.keys m ->
      InputManager.handleKeyUp code m = m
      /\ InputManager.handleKeyUp code (InputManager.handleKeyDown code m) = m).
Proof.
  unfold InputManager.handleKeyUp, InputManager.handleKeyDown.
  rewrite !withKeys_withKeys.
  change (InputManager.keys (InputManager.withKeys m ?a)) with a.
  cbn [InputManager.withKeys InputManager.keys].
  split.
  - rewrite keys_add_twice. reflexivity.
  - intros Hn. rewrite keys_add_remove, keys_remove_absent by exact Hn.
    split; apply withKeys_same.
Qed.

Lemma key_events_round_trip_witness :
  let m := InputManager.constructor InputManager.Unsupported in
  ("KeyW" ∉ InputManager.keys m)
  /\ InputManager.handleKeyUp "KeyW" (InputManager.handleKeyDown "KeyW" m) = m.
Proof.
  intros m.
  assert (H : "KeyW" ∉ InputManager.keys m) by apply not_elem_of_empty.
  split; [exact H |].
  exact (proj2 (proj2 (key_events_round_trip "KeyW" m) H)).
Defined.

Lemma handle_keys_held (e : InputManager.event) (code : string)
    (m : InputManager.t) :
  InputManager.has (InputManager.handle e m) code
  = Session.heldAfter [e] code (InputManager.has m code).
Proof.
  unfold InputManager.has.
  destruct e; cbn [InputManager.handle Session.heldAfter];
    try reflexivity.
  - (* keydown *)
    unfold InputManager.handleKeyDown. cbn [InputManager.withKeys InputManager.keys].
    destruct (String.eqb_spec code0 code) as [-> | Hne].
    + apply bool_decide_eq_true, elem_of_union_l, elem_of_singleton. reflexivity.
    + apply bool_decide_ext. now apply keys_add_other.
  - (* keyup *)
    unfold InputManager.handleKeyUp. cbn [InputManager.withKeys InputManager.keys].
    destruct (String.eqb_spec code0 code) as [-> | Hne].
    + apply bool_decide_eq_false.
      rewrite elem_of_difference, elem_of_singleton. tauto.
    + apply bool_decide_ext. now apply keys_remove_other.
  - unfold InputManager.handleTouchMove.
    destruct (negb _); reflexivity.
  - unfold InputManager.handleMouseMove.
    destruct (negb _); reflexivity.
  - unfold InputManager.handleDeviceOrientation.
    destruct (negb _); reflexivity.
Qed.

Lemma heldAfter_cons (e : InputManager.event) (es : list InputManager.event)
    (code : string) (b : bool) :
  Session.heldAfter (e :: es) code b
  = Session.heldAfter es code (Session.heldAfter [e] code b).
Proof. destruct e; reflexivity. Qed.

(** X12.  After any sequence of raw events a key is in the key set
    exactly when its last [keydown] or [keyup] was a [keydown] (or, with
    neither, when it was held before); and each thrust flag that
    [update()] reports is the disjunction of its two keys. *)
Theorem keys_follow_last_key_event (es : list InputManager.event)
    (m : InputManager.t) :
  let m' := fold_left (fun a e => InputManager.handle e a) es m in
  (forall code : string,
     InputManager.has m' code
     = Session.heldAfter es code (InputManager.has m code))
  /\ (let i := InputManager.getState (InputManager.update m') in
      let held c := Session.heldAfter es c (InputManager.has m c) in
      InputState.forward i = held "KeyW" || held "ArrowUp"
      /\ InputState.backward i = held "KeyS" || held "ArrowDown"
      /\ InputState.left i = held "KeyA" || held "ArrowLeft"
      /\ InputState.right i = held "KeyD" || held "ArrowRight"
      /\ InputState.up i = held "Space" || held "KeyQ"
      /\ InputState.down i = held "ShiftLeft" || held "KeyE").
Proof.
  intros m'.
  assert (H : forall code : string,
             InputManager.has m' code
             = Session.heldAfter es code (InputManager.has m code)).
  { subst m'. revert m. induction es as [| e es IH]; intros m code.
    - reflexivity.
    - cbn [fold_left]. rewrite IH, heldAfter_cons, handle_keys_held.
      reflexivity. }
  split; [exact H |].
  unfold InputManager.getState, InputManager.update.
  cbn [InputManager.inputState InputState.forward InputState.backward
       InputState.left InputState.right InputState.up InputState.down].
  rewrite !H. repeat split.
Qed.

(** X13.  A drag turns into look axes, and ends without residue.  With
    tilt sensing off: after a contact starts at [(x0, y0)] and moves to
    [(x1, y1)], [update()] reports yaw [-(x1 - x0) * 0.002] and pitch
    [-(y1 - y0) * 0.002], each clamped to [-1, 1], and roll [0]; after
    the contact ends, [update()] reports [0] for all three. *)
Theorem drag_sets_look_axes (x0 y0 x1 y1 : R) (m : InputManager.t) :
  InputManager.gyroscopeEnabled m = false ->
  let steps := [InputManager.Event (InputManager.TouchStart x0 y0);
                InputManager.Event (InputManager.TouchMove x1 y1);
                InputManager.Update] in
  let i := InputManager.getState (InputManager.performAll m steps) in
  let j := InputManager.getState
             (InputManager.performAll m
                (steps ++ [InputManager.Event InputManager.TouchEnd;
                           InputManager.Update])) in
  InputState.yaw i = InputManager.clamp (- (x1 - x0) * 0.002)
  /\ InputState.pitch i = InputManager.clamp (- (y1 - y0) * 0.002)
  /\ InputState.roll i = 0
  /\ InputState.yaw j = 0 /\ InputState.pitch j = 0 /\ InputState.roll j = 0.
Proof.
  intros Hg steps i j. subst i j steps.
  unfold InputManager.getState, InputManager.performAll.
  cbn [fold_left app InputManager.perform InputManager.handle].
  unfold InputManager.update.
  cbn [InputManager.inputState InputState.pitch InputState.yaw InputState.roll
       InputManager.handleTouchEnd InputManager.withTouch InputState.touch
       Touch.active Touch.deltaX Touch.deltaY InputManager.gyroscopeEnabled].
  unfold InputManager.handleTouchMove, InputManager.handleTouchStart.
  cbn [InputManager.inputState InputManager.withLastTouch InputManager.withTouch
       InputState.touch Touch.active negb Touch.deltaX Touch.deltaY
       InputManager.lastTouchX InputManager.lastTouchY
       InputManager.gyroscopeEnabled InputManager.gyroGamma
       InputManager.gyroAlpha InputManager.gyroBeta].
  rewrite Hg. cbn [andb].
  rewrite (clamp_inside 0) by lra.
  repeat split.
Qed.

Lemma drag_sets_look_axes_witness :
  let m := InputManager.constructor InputManager.Unsupported in
  InputManager.gyroscopeEnabled m = false
  /\ InputState.yaw
       (InputManager.getState
          (InputManager.performAll m
             [InputManager.Event (InputManager.TouchStart 100 100);
              InputManager.Event (InputManager.TouchMove 200 150);
              InputManager.Update]))
     = InputManager.clamp (- (200 - 100) * 0.002).
Proof.
  intros m. split; [reflexivity |].
  exact (proj1 (drag_sets_look_axes 100 100 200 150 m eq_refl)).
Defined.

Lemma perform_gyro_off (m : InputManager.t) (s : InputManager.step) :
  Session.grants s = false ->
  InputManager.gyroscopeEnabled m = false ->
  InputManager.gyroGamma m = 0 ->
  InputManager.gyroscopeEnabled (InputManager.perform m s) = false
  /\ InputManager.gyroGamma (InputManager.perform m s) = 0.
Proof.
  intros Hs He Hg. destruct s as [e |]; cbn [InputManager.perform].
  - destruct e; cbn [InputManager.handle Session.grants] in *;
      try (split; assumption).
    + unfold InputManager.handleTouchMove. destruct (negb _); split; assumption.
    + unfold InputManager.handleMouseMove. destruct (negb _); split; assumption.
    + unfold InputManager.handleDeviceOrientation. rewrite He.
      split; assumption.
  - split; assumption.
Qed.

(** X14.  Tilt stays off until permission is granted: on a page without
    orientation events, or one that asks for permission, as long as no
    permission request resolves with ['granted'], orientation events are
    dropped and every [update()] reports roll [0]. *)
Theorem tilt_stays_off_without_permission
    (env : InputManager.orientationSupport) (ss : list InputManager.step) :
  env <> InputManager.Supported ->
  forallb (fun s => negb (Session.grants s)) ss = true ->
  let m := InputManager.performAll (InputManager.constructor env) ss in
  InputManager.gyroscopeEnabled m = false
  /\ InputManager.gyroGamma m = 0
  /\ InputState.roll (InputManager.getState (InputManager.update m)) = 0.
Proof.
  intros Henv Hss m.
  assert (H : InputManager.gyroscopeEnabled m = false
              /\ InputManager.gyroGamma m = 0).
  { subst m. unfold InputManager.performAll.
    assert (H0 : InputManager.gyroscopeEnabled (InputManager.constructor env) = false
                 /\ InputManager.gyroGamma (InputManager.constructor env) = 0).
    { destruct env; [split; reflexivity | contradiction | split; reflexivity]. }
    revert H0 Hss. generalize (InputManager.constructor env) as a.
    induction ss as [| s ss IH]; intros a H0 Hss; cbn [fold_left]; [exact H0 |].
    cbn [forallb] in Hss. apply andb_prop in Hss as [Hs Hss].
    apply negb_true_iff in Hs. destruct H0 as [He Hg].
    apply IH; [now apply perform_gyro_off | exact Hss]. }
  destruct H as [He Hg]. split; [exact He |]. split; [exact Hg |].
  unfold InputManager.getState, InputManager.update.
  cbn [InputManager.inputState InputState.roll]. rewrite He. cbn [andb].
  apply clamp_inside. lra.
Qed.

Lemma tilt_stays_off_without_permission_witness :
  let ss := [InputManager.Event (InputManager.PermissionResolved "denied");
             InputManager.Event
               (InputManager.DeviceOrientation (Some 10) (Some 20) (Some 30));
             InputManager.Update] in
  InputManager.NeedsPermission <> InputManager.Supported
  /\ forallb (fun s => negb (Session.grants s)) ss = true
  /\ InputState.roll
       (InputManager.getState
          (InputManager.update
             (InputManager.performAll
                (InputManager.constructor InputManager.NeedsPermission) ss))) = 0.
Proof.
  intros ss.
  assert (H1 : InputManager.NeedsPermission <> InputManager.Supported)
    by discriminate.
  assert (H2 : forallb (fun s => negb (Session.grants s)) ss = true)
    by reflexivity.
  split; [exact H1 |]. split; [exact H2 |].
  exact (proj2 (proj2 (tilt_stays_off_without_permission
                         InputManager.NeedsPermission ss H1 H2))).
Defined.

(** ** The loop *)

Lemma update_bookkeeping (w : GameEngine.World) :
  GameEngine.frames (fst (GameEngine.update w)) = GameEngine.frames w
  /\ GameEngine.animationId (GameEngine.engine (fst (GameEngine.update w)))
     = GameEngine.animationId (GameEngine.engine w)
  /\ GameEngine.isPaused (GameEngine.engine (fst (GameEngine.update w)))
     = GameEngine.isPaused (GameEngine.engine w).
Proof.
  unfold GameEngine.update.
  destruct (Clock.getDelta _ _) as [dt c1].
  destruct (Clock.getElapsedTime _ _) as [el c2].
  repeat split.
Qed.

Lemma animate_loop (w : GameEngine.World) :
  GameEngine.frames w = [] ->
  Session.loopInvariant (fst (GameEngine.animate w))
  \/ (GameEngine.isPaused (GameEngine.engine w) = true
      /\ GameEngine.animate w = (w, GameEngine.Returns)).
Proof.
  intros Hf.
  destruct (GameEngine.isPaused (GameEngine.engine w)) eqn:Hp;
    [right; split; [reflexivity | now apply animate_paused] |].
  left. rewrite animate_unpaused by exact Hp.
  cbn [GameEngine.requestAnimationFrame snd].
  match goal with |- Session.loopInvariant (fst (GameEngine.update ?x)) =>
    destruct (update_bookkeeping x) as (H1 & H2 & H3) end.
  unfold Session.loopInvariant. rewrite H1, H2, H3.
  cbn [GameEngine.onEngine GameEngine.frames GameEngine.engine
       GameEngine.setAnimationId GameEngine.animationId GameEngine.isPaused
       Session.framesOf].
  rewrite Hf, Hp. split; [reflexivity | discriminate].
Qed.

(** The loop invariant does not read the counters. *)
Lemma loop_uncaughtError (r : GameEngine.World * GameEngine.completion) :
  Session.loopInvariant (fst r) ->
  Session.loopInvariant (GameEngine.uncaughtError r).
Proof. destruct r as [w []]; exact (fun H => H). Qed.

Lemma start_loop (w : GameEngine.World) :
  Session.loopInvariant w -> Session.loopInvariant (fst (GameEngine.start w)).
Proof.
  intros [Hf Hp]. unfold GameEngine.start.
  destruct (GameEngine.animationId (GameEngine.engine w)) eqn:Ha.
  - cbn [fst]. split; now rewrite Ha.
  - destruct (animate_loop w Hf) as [H | [_ ->]]; [exact H |].
    cbn [fst]. split; now rewrite Ha.
Qed.

Lemma pause_loop (w : GameEngine.World) :
  Session.loopInvariant w -> Session.loopInvariant (GameEngine.pause w).
Proof.
  intros [Hf Hp]. unfold GameEngine.pause.
  cbn [GameEngine.onEngine GameEngine.engine GameEngine.setIsPaused
       GameEngine.animationId].
  destruct (GameEngine.animationId (GameEngine.engine w)) eqn:Ha.
  - split; [| reflexivity].
    cbn [GameEngine.onEngine GameEngine.cancelAnimationFrame GameEngine.frames
         GameEngine.engine GameEngine.setAnimationId GameEngine.animationId
         Session.framesOf].
    rewrite Hf. cbn [Session.framesOf].
    rewrite filter_cons. destruct (decide _) as [Hd | _]; [| reflexivity].
    rewrite Nat.eqb_refl in Hd. contradiction.
  - split; [| intros _; exact Ha].
    cbn [GameEngine.onEngine GameEngine.frames GameEngine.engine
         GameEngine.setIsPaused GameEngine.animationId].
    now rewrite Ha.
Qed.

Lemma frame_loop (w : GameEngine.World) :
  Session.loopInvariant w -> Session.loopInvariant (GameEngine.frame w).
Proof.
  intros [Hf Hp]. unfold GameEngine.frame. rewrite Hf.
  destruct (GameEngine.animationId (GameEngine.engine w)) eqn:Ha;
    cbn [Session.framesOf fold_left].
  - apply loop_uncaughtError.
    match goal with |- Session.loopInvariant (fst (GameEngine.animate ?x)) =>
      destruct (animate_loop x eq_refl) as [H | [Hq _]] end; [exact H |].
    cbn [GameEngine.engine] in Hq. specialize (Hp Hq). discriminate.
  - split; [cbn; now rewrite Ha | intros _; exact Ha].
Qed.

(** Changes that leave the frames, the handle and the pause flag alone
    keep the invariant. *)
Lemma loop_ext (w w' : GameEngine.World) :
  GameEngine.frames w' = GameEngine.frames w ->
  GameEngine.animationId (GameEngine.engine w')
  = GameEngine.animationId (GameEngine.engine w) ->
  (GameEngine.isPaused (GameEngine.engine w') = true ->
   GameEngine.isPaused (GameEngine.engine w) = true) ->
  Session.loopInvariant w -> Session.loopInvariant w'.
Proof.
  intros Hf Ha Hp [If Ip]. split; [now rewrite Hf, Ha |].
  intros H. rewrite Ha. auto.
Qed.

Lemma perform_loop (w : GameEngine.World) (o : App.op) :
  Session.loopInvariant w -> Session.loopInvariant (App.perform w o).
Proof.
  intros H. destruct o; cbn [App.perform].
  - unfold GameEngine.initializeCall.
    destruct (GameEngine.isInitialized _); [exact H |].
    revert H. now apply loop_ext.
  - unfold GameEngine.initializeSettled.
    destruct (GameEngine.initializing w); [exact H |].
    destruct (GameEngine.allFulfilled o).
    + match goal with |- context [GameEngine.start ?x] =>
        assert (K : Session.loopInvariant (fst (GameEngine.start x)))
          by (apply start_loop; revert H; now apply loop_ext);
        destruct (GameEngine.start x) as [w2 []] end; exact K.
    + revert H. now apply loop_ext.
  - unfold GameEngine.startMission. apply loop_uncaughtError, start_loop.
    revert H. apply loop_ext; [reflexivity | reflexivity | discriminate].
  - unfold GameEngine.toggleSystem. revert H.
    apply loop_ext; cbn [GameEngine.onEngine GameEngine.frames GameEngine.engine];
      try reflexivity;
      repeat match goal with |- context [if ?b then _ else _] => destruct b end;
      auto.
  - now apply pause_loop.
  - unfold GameEngine.resume. apply loop_uncaughtError, start_loop.
    revert H. apply loop_ext; [reflexivity | reflexivity | discriminate].
  - unfold GameEngine.dispose.
    apply (loop_ext (GameEngine.pause w)); [reflexivity | reflexivity | auto |].
    now apply pause_loop.
  - destruct hidden; cbn [GameEngine.handleVisibilityChange];
      [now apply pause_loop | exact H].
  - now apply frame_loop.
  - revert H. now apply loop_ext.
  - revert H. now apply loop_ext.
  - unfold App.onMissionSelect, GameEngine.startMission.
    apply loop_uncaughtError, start_loop.
    revert H. apply loop_ext; [reflexivity | reflexivity | discriminate].
  - unfold App.onSystemToggle, GameEngine.toggleSystem. revert H.
    apply loop_ext; cbn [GameEngine.onEngine GameEngine.frames GameEngine.engine];
      try reflexivity;
      repeat match goal with |- context [if ?b then _ else _] => destruct b end;
      auto.
  - unfold App.onPause. apply pause_loop. revert H. now apply loop_ext.
Qed.

Lemma run_loop (os : list App.op) (w : GameEngine.World) :
  Session.loopInvariant w -> Session.loopInvariant (App.run w os).
Proof.
  unfold App.run. revert w.
  induction os as [| o os IH]; intros w H; cbn [fold_left]; [exact H |].
  apply IH. now apply perform_loop.
Qed.

Lemma constructor_loop (env : InputManager.orientationSupport) :
  Session.loopInvariant (GameEngine.constructor env).
Proof. split; [reflexivity | discriminate]. Qed.

(** X15.  In every state of a running application at most one
    animation frame is pending: the frame queue holds exactly the handle
    the engine keeps in [animationId], and nothing while the engine is
    paused.  No sequence of [start], [pause], [resume], [startMission]
    and frames makes the loop run twice per frame. *)
Theorem at_most_one_frame_pending (env : InputManager.orientationSupport)
    (os : list App.op) :
  let w := App.run (GameEngine.constructor env) os in
  GameEngine.frames w
  = Session.framesOf (GameEngine.animationId (GameEngine.engine w))
  /\ (length (GameEngine.frames w) <= 1)%nat
  /\ (GameEngine.isPaused (GameEngine.engine w) = true -> GameEngine.frames w = []).
Proof.
  intros w.
  destruct (run_loop os _ (constructor_loop env)) as [Hf Hp]. fold w in Hf, Hp.
  split; [exact Hf |]. split.
  - rewrite Hf. destruct (GameEngine.animationId _); cbn; lia.
  - intros H. rewrite Hf, (Hp H). reflexivity.
Qed.

(** X16.  In every state of a running application a frame delivered by
    the host runs exactly one tick when a frame was requested, and none
    otherwise (the engine is paused or was never started). *)
Theorem one_tick_per_frame (env : InputManager.orientationSupport)
    (os : list App.op) :
  let w := App.run (GameEngine.constructor env) os in
  GameEngine.ticks (GameEngine.frame w)
  = match GameEngine.animationId (GameEngine.engine w) with
    | Some _ => S (GameEngine.ticks w)
    | None => GameEngine.ticks w
    end.
Proof.
  intros w.
  destruct (run_loop os _ (constructor_loop env)) as [Hf Hp]. fold w in Hf, Hp.
  unfold GameEngine.frame. rewrite Hf.
  destruct (GameEngine.animationId (GameEngine.engine w)) eqn:Ha;
    cbn [Session.framesOf fold_left]; [| reflexivity].
  destruct (GameEngine.isPaused (GameEngine.engine w)) eqn:Hq;
    [specialize (Hp eq_refl); discriminate |].
  rewrite uncaughtError_ticks.
  match goal with |- GameEngine.ticks (fst (GameEngine.animate ?x)) = _ =>
    destruct (animate_running x Hq) as [_ Ht] end.
  exact Ht.
Qed.

(** ** Invariants of the content of a world *)

(** The content of a world does not include the counters. *)
Lemma content_uncaughtError (r : GameEngine.World * GameEngine.completion) :
  Session.contentOf (GameEngine.uncaughtError r) = Session.contentOf (fst r).
Proof. destruct r as [w []]; reflexivity. Qed.

Section Ladder.

Variable I : Session.content -> Prop.
Variable ok : App.op -> Prop.

Hypothesis I_tick : forall w,
  I (Session.contentOf w) -> I (Session.contentOf (fst (GameEngine.update w))).
Hypothesis I_reset : forall w,
  I (Session.contentOf w) ->
  I (Session.contentOf
       (GameEngine.onEngine
          (fun e => GameEngine.setCraft
                      (CraftController.reset (GameEngine.craft e)) e) w)).
Hypothesis I_elapse : forall w d,
  ok (App.Elapse d) ->
  I (Session.contentOf w) -> I (Session.contentOf (GameEngine.elapse d w)).
Hypothesis I_input : forall w e,
  I (Session.contentOf w) ->
  I (Session.contentOf
       (GameEngine.onEngine
          (fun g => GameEngine.setInput
                      (InputManager.handle e (GameEngine.input g)) g) w)).
Hypothesis I_toggle : forall w s b,
  ok (App.ToggleSystem s b) ->
  I (Session.contentOf w) ->
  I (Session.contentOf (GameEngine.toggleSystem s b w)).
Hypothesis I_publish : forall w m c,
  I (Session.contentOf w) ->
  I (Session.contentOf
       (GameEngine.setGameState
          (GameState.updateGameState (GameEngine.gameState w)
             (GameState.mkPartial m c None None None None None None None))
          w)).
Hypothesis I_systemToggle : forall w s b,
  I (Session.contentOf w) ->
  I (Session.contentOf (App.onSystemToggle s b w)).

Lemma content_animate (w : GameEngine.World) :
  I (Session.contentOf w) -> I (Session.contentOf (fst (GameEngine.animate w))).
Proof.
  intros H.
  destruct (GameEngine.isPaused (GameEngine.engine w)) eqn:Hp.
  - now rewrite animate_paused.
  - rewrite animate_unpaused by exact Hp. apply I_tick. exact H.
Qed.

Lemma content_start (w : GameEngine.World) :
  I (Session.contentOf w) -> I (Session.contentOf (fst (GameEngine.start w))).
Proof.
  intros H. unfold GameEngine.start.
  destruct (GameEngine.animationId _); [exact H | now apply content_animate].
Qed.

Lemma content_frames (l : list nat) (w : GameEngine.World) :
  I (Session.contentOf w) ->
  I (Session.contentOf
       (fold_left (fun w' _ => GameEngine.uncaughtError (GameEngine.animate w'))
                  l w)).
Proof.
  revert w. induction l as [| h l IH]; intros w H; cbn [fold_left];
    [exact H |].
  apply IH. rewrite content_uncaughtError. now apply content_animate.
Qed.

Lemma content_pause (w : GameEngine.World) :
  Session.contentOf (GameEngine.pause w) = Session.contentOf w.
Proof.
  unfold GameEngine.pause.
  cbn [GameEngine.onEngine GameEngine.engine GameEngine.setIsPaused
       GameEngine.animationId].
  destruct (GameEngine.animationId _); reflexivity.
Qed.

Lemma content_perform (w : GameEngine.World) (o : App.op) :
  ok o ->
  I (Session.contentOf w) -> I (Session.contentOf (App.perform w o)).
Proof.
  intros Ho H. destruct o; cbn [App.perform].
  - unfold GameEngine.initializeCall.
    destruct (GameEngine.isInitialized _); exact H.
  - unfold GameEngine.initializeSettled.
    destruct (GameEngine.initializing w); [exact H |].
    destruct (GameEngine.allFulfilled o); [| exact H].
    match goal with |- context [GameEngine.start ?x] =>
      pose proof (content_start x H) as K;
      destruct (GameEngine.start x) as [w2 []] end; exact K.
  - unfold GameEngine.startMission. rewrite content_uncaughtError.
    apply content_start. exact (I_reset w H).
  - now apply I_toggle.
  - now rewrite content_pause.
  - unfold GameEngine.resume. rewrite content_uncaughtError.
    apply content_start. exact H.
  - unfold GameEngine.dispose.
    change (I (Session.contentOf (GameEngine.pause w))).
    now rewrite content_pause.
  - destruct hidden; cbn [GameEngine.handleVisibilityChange];
      [now rewrite content_pause | exact H].
  - unfold GameEngine.frame. apply content_frames. exact H.
  - now apply I_elapse.
  - now apply I_input.
  - unfold App.onMissionSelect, GameEngine.startMission.
    rewrite content_uncaughtError. apply content_start.
    exact (I_reset _ (I_publish w (Some GameState.playing)
                        (Some (Some mission)) H)).
  - now apply I_systemToggle.
  - unfold App.onPause. rewrite content_pause.
    exact (I_publish w (Some GameState.paused) None H).
Qed.

Lemma content_run (os : list App.op) (w : GameEngine.World) :
  Forall ok os ->
  I (Session.contentOf w) -> I (Session.contentOf (App.run w os)).
Proof.
  unfold App.run. revert w.
  induction os as [| o os IH]; intros w Hos H; cbn [fold_left]; [exact H |].
  inversion Hos; subst. apply IH; [assumption |].
  now apply content_perform.
Qed.

End Ladder.

(** ** Soundness of the session *)

(** What a tick leaves behind: the craft advanced, the clock read, the
    input refreshed, and the published state as it was. *)
Lemma update_content (w : GameEngine.World) :
  let c := GameEngine.craft (GameEngine.engine (fst (GameEngine.update w))) in
  exists el : R,
    Session.contentOf (fst (GameEngine.update w))
    = Session.mkContent c
        (Clock.mk true (GameEngine.now w) el)
        (InputManager.update (GameEngine.input (GameEngine.engine w)))
        (Session.engineSystems w)
        (GameEngine.now w)
        (GameEngine.gameState w).
Proof.
  unfold GameEngine.update, Clock.getElapsedTime, Clock.getDelta.
  destruct (Clock.running (GameEngine.clock (GameEngine.engine w)));
    eexists; reflexivity.
Qed.

Lemma getDelta_nonneg (now : R) (c : Clock.t) :
  (Clock.running c = true -> Clock.oldTime c <= now) ->
  0 <= fst (Clock.getDelta now c).
Proof.
  intros H. unfold Clock.getDelta.
  destruct (Clock.running c); cbn [fst]; [specialize (H eq_refl) |]; lra.
Qed.

Lemma sound_ext (c c' : Session.content) :
  Session.cCraft c' = Session.cCraft c ->
  Session.cClock c' = Session.cClock c ->
  Session.cNow c' = Session.cNow c ->
  Session.sound c -> Session.sound c'.
Proof.
  unfold Session.sound. intros -> -> ->. exact (fun H => H).
Qed.

Lemma toggleSystem_content (w : GameEngine.World) (s : string) (b : bool) :
  let w' := GameEngine.toggleSystem s b w in
  GameEngine.craft (GameEngine.engine w') = GameEngine.craft (GameEngine.engine w)
  /\ GameEngine.clock (GameEngine.engine w') = GameEngine.clock (GameEngine.engine w)
  /\ GameEngine.input (GameEngine.engine w') = GameEngine.input (GameEngine.engine w)
  /\ GameEngine.now w' = GameEngine.now w
  /\ GameEngine.gameState w' = GameEngine.gameState w
  /\ GameEngine.ticks w' = GameEngine.ticks w.
Proof.
  unfold GameEngine.toggleSystem.
  cbn [GameEngine.onEngine GameEngine.engine GameEngine.now
       GameEngine.gameState GameEngine.ticks].
  repeat match goal with |- context [if ?c then _ else _] => destruct c end;
    repeat split.
Qed.

Lemma sound_tick (w : GameEngine.World) :
  Session.sound (Session.contentOf w) ->
  Session.sound (Session.contentOf (fst (GameEngine.update w))).
Proof.
  intros (Hc & Hm & Hg & Hv & Hp & _).
  cbn [Session.contentOf Session.cClock Session.cCraft Session.cNow] in *.
  destruct (update_content w) as [el ->]. rewrite update_craft.
  set (dt := fst (Clock.getDelta _ _)).
  set (i := InputManager.getState _).
  pose proof (getDelta_nonneg _ _ Hc) as Hdt. fold dt in Hdt.
  destruct (update_sinks dt i _ Hdt Hm Hg Hv) as [Hv' Hp'].
  pose proof (update_gForce_one dt i _ Hm Hg) as Hgf.
  unfold Session.sound.
  cbn [Session.cClock Session.cCraft Session.cNow Clock.running Clock.oldTime].
  repeat split; try assumption; try reflexivity; try lra.
Qed.

Lemma sound_perform (w : GameEngine.World) (o : App.op) :
  Session.forwardOp o ->
  Session.sound (Session.contentOf w) ->
  Session.sound (Session.contentOf (App.perform w o)).
Proof.
  apply (content_perform Session.sound Session.forwardOp).
  - apply sound_tick.
  - intros w0 (Hc & Hm & Hg & Hv & Hp & H1 & H2 & H3).
    unfold Session.sound.
    cbn [Session.contentOf Session.cClock Session.cCraft Session.cNow
         GameEngine.onEngine GameEngine.engine
         GameEngine.setCraft GameEngine.craft GameEngine.clock GameEngine.now]
      in *.
    change (CraftState.velocity (CraftController.reset ?s))
      with (Vector3.mk 0 0 0).
    rewrite length_zero.
    cbn [CraftController.reset CraftState.mass CraftState.gravityReduction
         CraftState.velocity CraftState.position CraftState.gForce
         CraftState.altitude CraftState.speed Vector3.set Vector3.y].
    repeat split; try assumption; try reflexivity; try lra.
  - intros w0 d Hd (Hc & Hrest).
    cbn [Session.forwardOp] in Hd.
    split; [| exact Hrest].
    cbn [Session.contentOf Session.cClock Session.cNow GameEngine.elapse
         GameEngine.engine GameEngine.now] in *.
    intros Hr. specialize (Hc Hr). lra.
  - intros w0 e H. exact H.
  - intros w0 s b _.
    destruct (toggleSystem_content w0 s b) as (H1 & H2 & _ & H4 & _).
    apply sound_ext; cbn [Session.contentOf Session.cCraft Session.cClock
                          Session.cNow]; assumption.
  - intros w0 m c H. exact H.
  - intros w0 s b. unfold App.onSystemToggle.
    match goal with |- context [GameEngine.toggleSystem s b ?x] =>
      destruct (toggleSystem_content x s b) as (H1 & H2 & _ & H4 & _) end.
    apply sound_ext; cbn [Session.contentOf Session.cCraft Session.cClock
                          Session.cNow]; assumption.
Qed.

Lemma sound_constructor (env : InputManager.orientationSupport) :
  Session.sound (Session.contentOf (GameEngine.constructor env)).
Proof.
  unfold Session.sound.
  cbn [Session.contentOf Session.cClock Session.cCraft Session.cNow
       GameEngine.constructor GameEngine.engine
       GameEngine.craft GameEngine.clock GameEngine.now
       Clock.constructor Clock.running].
  change (CraftState.velocity CraftController.constructor) with (Vector3.mk 0 0 0).
  rewrite length_zero. cbn.
  repeat split; try reflexivity; try lra; discriminate.
Qed.

Lemma sound_run (env : InputManager.orientationSupport) (os : list App.op) :
  Forall Session.forwardOp os ->
  Session.sound (Session.contentOf (App.run (GameEngine.constructor env) os)).
Proof.
  intros Hos. unfold App.run.
  pose proof (sound_constructor env) as H. revert H.
  generalize (GameEngine.constructor env) as w.
  induction os as [| o os IH]; intros w H; cbn [fold_left]; [exact H |].
  inversion Hos; subst. apply IH; [assumption |].
  now apply sound_perform.
Qed.

(** No operation writes the motion fields of the published state: the
    handlers publish the mode, the mission and the system flags, and
    the tick, which would publish the motion, throws before it does. *)
Lemma unpublished_perform (w : GameEngine.World) (o : App.op) :
  Session.unpublished (Session.contentOf w) ->
  Session.unpublished (Session.contentOf (App.perform w o)).
Proof.
  apply (content_perform Session.unpublished (fun _ => True)); [..| exact I].
  - intros w0 H. destruct (update_content w0) as [el ->]. exact H.
  - intros w0 H. exact H.
  - intros w0 d _ H. exact H.
  - intros w0 e H. exact H.
  - intros w0 s b _ H. unfold Session.unpublished.
    cbn [Session.contentOf Session.cGameState].
    destruct (toggleSystem_content w0 s b) as (_ & _ & _ & _ & -> & _).
    exact H.
  - intros w0 m c H. exact H.
  - intros w0 s b H. unfold App.onSystemToggle, Session.unpublished.
    cbn [Session.contentOf Session.cGameState].
    match goal with |- context [GameEngine.toggleSystem s b ?x] =>
      destruct (toggleSystem_content x s b) as (_ & _ & _ & _ & -> & _) end.
    exact H.
Qed.

Lemma unpublished_run (env : InputManager.orientationSupport) (os : list App.op) :
  Session.unpublished
    (Session.contentOf (App.run (GameEngine.constructor env) os)).
Proof.
  unfold App.run.
  assert (H : Session.unpublished (Session.contentOf (GameEngine.constructor env)))
    by reflexivity.
  revert H. generalize (GameEngine.constructor env) as w.
  induction os as [| o os IH]; intros w H; cbn [fold_left]; [exact H |].
  apply IH. now apply unpublished_perform.
Qed.

(** X17.  The loop never publishes the motion of the craft.  Every
    tick throws at [this.propulsion.isActive()] while the argument of
    [this.updateGameState] is being built, after the craft has been
    advanced, so in every state of a running application the published
    position, velocity, altitude, speed and g-force are still those of
    [initialGameState]. *)
Theorem published_motion_never_changes (env : InputManager.orientationSupport)
    (os : list App.op) :
  let w := App.run (GameEngine.constructor env) os in
  App.published w = (Vector3.mk 0 1000 0, Vector3.mk 0 0 0, 1000, 0, 1)
  /\ snd (GameEngine.update w) = GameEngine.Throws
  /\ GameEngine.gameState (fst (GameEngine.update w)) = GameEngine.gameState w.
Proof.
  intros w. split; [| split].
  - exact (unpublished_run env os).
  - apply update_throws.
  - apply update_gameState.
Qed.

(** X18.  In any session in which host time does not run backwards the
    craft never rises: whatever keys are held and however the device
    is turned, the altitude of the craft and the altitude published to
    the HUD never exceed the initial [1000]. *)
Theorem session_never_climbs (env : InputManager.orientationSupport)
    (os : list App.op) :
  Forall Session.forwardOp os ->
  let w := App.run (GameEngine.constructor env) os in
  CraftState.altitude (GameEngine.craft (GameEngine.engine w)) <= 1000
  /\ Vector3.y (CraftState.velocity (GameEngine.craft (GameEngine.engine w))) <= 0
  /\ GameState.altitude (GameEngine.gameState w) <= 1000.
Proof.
  intros Hos w.
  destruct (sound_run env os Hos) as (_ & _ & _ & Hv & Hp & _ & Ha & _).
  fold w in Hv, Hp, Ha.
  cbn [Session.contentOf Session.cCraft] in *.
  rewrite Ha. split; [exact Hp |]. split; [exact Hv |].
  pose proof (unpublished_run env os) as Hu. fold w in Hu.
  injection Hu as _ _ Halt _ _. rewrite Halt. cbn. lra.
Qed.

Lemma session_never_climbs_witness :
  let os := [App.Initialize; App.InitializeSettled Scenario.allOk;
             App.Input (InputManager.KeyDown "Space");
             App.Elapse 0.016; App.Frame; App.Elapse 0.016; App.Frame] in
  Forall Session.forwardOp os
  /\ GameState.altitude
       (GameEngine.gameState
          (App.run (GameEngine.constructor InputManager.Unsupported) os))
     <= 1000.
Proof.
  intros os.
  assert (H : Forall Session.forwardOp os).
  { repeat constructor; cbn [Session.forwardOp]; lra. }
  split; [exact H |].
  exact (proj2 (proj2 (session_never_climbs InputManager.Unsupported os H))).
Defined.

(** X19.  In every state of a running application the published
    g-force is exactly [1], so the HUD never renders its HIGH G-FORCE
    WARNING (shown for [gForce > 5]). *)
Theorem hud_never_shows_high_g_warning (env : InputManager.orientationSupport)
    (os : list App.op) :
  let g := GameEngine.gameState (App.run (GameEngine.constructor env) os) in
  GameState.gForce g = 1 /\ HUD.highGWarning g = false.
Proof.
  intros g. subst g.
  pose proof (unpublished_run env os) as Hu.
  injection Hu as _ _ _ _ H. cbn in H.
  split; [exact H |]. unfold HUD.highGWarning. rewrite H. apply gt_false. lra.
Qed.

(** ** The system flags *)

Lemma onSystemToggle_sync (w : GameEngine.World) (s : string) (b : bool) :
  Session.inSync (Session.contentOf w) ->
  Session.inSync (Session.contentOf (App.onSystemToggle s b w)).
Proof.
  unfold Session.inSync, App.onSystemToggle, GameEngine.toggleSystem,
    Session.contentOf, Session.engineSystems.
  cbn [Session.cGameState Session.cSystems GameEngine.onEngine
       GameEngine.engine GameEngine.gameState GameEngine.setGameState
       GameState.updateGameState GameState.systems GameState.p_systems].
  intros H. rewrite H.
  cbn [GameState.propulsion GameState.cloaking GameState.sensors].
  destruct (String.eqb s "propulsion"); [reflexivity |].
  destruct (String.eqb s "cloaking"); [reflexivity |].
  destruct (String.eqb s "sensors"); reflexivity.
Qed.

Lemma sync_perform (w : GameEngine.World) (o : App.op) :
  Session.viaHandlers o = true ->
  Session.inSync (Session.contentOf w) ->
  Session.inSync (Session.contentOf (App.perform w o)).
Proof.
  apply (content_perform Session.inSync
           (fun o => Session.viaHandlers o = true)).
  - intros w0 H. destruct (update_content w0) as [el ->]. exact H.
  - intros w0 H. exact H.
  - intros w0 d _ H. exact H.
  - intros w0 e H. exact H.
  - intros w0 s b Hf. discriminate Hf.
  - intros w0 m c H. exact H.
  - intros w0 s b. apply onSystemToggle_sync.
Qed.

(** X20.  As long as the system flags are changed through the HUD
    handler (and not by calling [GameEngine.toggleSystem] directly),
    the published flags and the flags the engine holds are the same
    after every operation. *)
Theorem hud_toggles_stay_in_sync (env : InputManager.orientationSupport)
    (os : list App.op) :
  Forall (fun o => Session.viaHandlers o = true) os ->
  let w := App.run (GameEngine.constructor env) os in
  GameState.systems (GameEngine.gameState w) = Session.engineSystems w.
Proof.
  intros Hos w. subst w. unfold App.run.
  assert (H : Session.inSync (Session.contentOf (GameEngine.constructor env)))
    by reflexivity.
  revert H. generalize (GameEngine.constructor env) as w.
  induction os as [| o os IH]; intros w H; cbn [fold_left]; [exact H |].
  inversion Hos; subst. apply IH; [assumption |].
  now apply sync_perform.
Qed.

Lemma hud_toggles_stay_in_sync_witness :
  let os := [App.Initialize; App.InitializeSettled Scenario.allOk;
             App.MissionSelect "space"; App.SystemToggle "cloaking" true;
             App.Frame; App.SystemToggle "sensors" false] in
  let w := App.run (GameEngine.constructor InputManager.Unsupported) os in
  Forall (fun o => Session.viaHandlers o = true) os
  /\ GameState.systems (GameEngine.gameState w) = Session.engineSystems w.
Proof.
  intros os w.
  assert (H : Forall (fun o => Session.viaHandlers o = true) os).
  { repeat constructor. }
  split; [exact H |].
  exact (hud_toggles_stay_in_sync InputManager.Unsupported os H).
Defined.

Lemma eqb_false (a b : string) : a <> b -> String.eqb a b = false.
Proof. intros H. now apply String.eqb_neq. Qed.

(** X21.  Toggles are independent and touch nothing else:
    [toggleSystem] sets the flag of the module it names and leaves the
    other two flags alone; a name other than the three known ones
    changes no flag; and in every case the craft, the published state
    and the tick count are untouched. *)
Theorem toggleSystem_independent (w : GameEngine.World) (s : string) (b : bool) :
  let e := GameEngine.engine w in
  let w' := GameEngine.toggleSystem s b w in
  GameEngine.craft (GameEngine.engine w') = GameEngine.craft e
  /\ GameEngine.gameState w' = GameEngine.gameState w
  /\ GameEngine.ticks w' = GameEngine.ticks w
  /\ Session.engineSystems (GameEngine.toggleSystem "propulsion" b w)
     = GameState.mkSystems b (GameEngine.cloaking e) (GameEngine.sensors e)
  /\ Session.engineSystems (GameEngine.toggleSystem "cloaking" b w)
     = GameState.mkSystems (GameEngine.propulsion e) b (GameEngine.sensors e)
  /\ Session.engineSystems (GameEngine.toggleSystem "sensors" b w)
     = GameState.mkSystems (GameEngine.propulsion e) (GameEngine.cloaking e) b
  /\ (s <> "propulsion" -> s <> "cloaking" -> s <> "sensors" ->
      Session.engineSystems w' = Session.engineSystems w).
Proof.
  intros e w'.
  destruct (toggleSystem_content w s b) as (H1 & _ & _ & _ & H5 & H6).
  split; [exact H1 |]. split; [exact H5 |]. split; [exact H6 |].
  split; [reflexivity |]. split; [reflexivity |]. split; [reflexivity |].
  intros Hp Hc Hs. subst w'. unfold GameEngine.toggleSystem, Session.engineSystems.
  cbn [GameEngine.onEngine GameEngine.engine].
  rewrite (eqb_false _ _ Hp), (eqb_false _ _ Hc), (eqb_false _ _ Hs).
  reflexivity.
Qed.

Lemma toggleSystem_independent_witness :
  let w := GameEngine.constructor InputManager.Unsupported in
  "shields" <> "propulsion"
  /\ Session.engineSystems (GameEngine.toggleSystem "shields" false w)
     = Session.engineSystems w.
Proof.
  intros w.
  assert (H1 : "shields" <> "propulsion") by discriminate.
  assert (H2 : "shields" <> "cloaking") by discriminate.
  assert (H3 : "shields" <> "sensors") by discriminate.
  split; [exact H1 |].
  exact (proj2 (proj2 (proj2 (proj2 (proj2 (proj2
           (toggleSystem_independent w "shields" false)))))) H1 H2 H3).
Defined.

(** ** Pause and resume *)

(** X22.  [pause()] is idempotent, as is the HUD's pause handler, and
    [resume()] changes nothing when the engine is running (not paused,
    a frame requested). *)
Theorem pause_idempotent_resume_noop (w : GameEngine.World) :
  GameEngine.pause (GameEngine.pause w) = GameEngine.pause w
  /\ App.onPause (App.onPause w) = App.onPause w
  /\ (GameEngine.isPaused (GameEngine.engine w) = false ->
      GameEngine.animationId (GameEngine.engine w) <> None ->
      GameEngine.resume w = w).
Proof.
  destruct w as [e now fr nh g ini t er un].
  destruct e as [ck a cr p c s au inp isI isP rel].
  split; [| split].
  - unfold GameEngine.pause.
    cbn [GameEngine.onEngine GameEngine.engine GameEngine.setIsPaused
         GameEngine.animationId].
    destruct a; reflexivity.
  - unfold App.onPause, GameEngine.pause.
    cbn [GameEngine.onEngine GameEngine.engine GameEngine.setIsPaused
         GameEngine.animationId GameEngine.setGameState].
    destruct a; reflexivity.
  - cbn [GameEngine.engine GameEngine.isPaused GameEngine.animationId].
    intros -> Ha. destruct a as [id |]; [reflexivity | contradiction].
Qed.

Lemma pause_idempotent_resume_noop_witness :
  GameEngine.isPaused (GameEngine.engine Scenario.running) = false
  /\ GameEngine.animationId (GameEngine.engine Scenario.running) <> None
  /\ GameEngine.resume Scenario.running = Scenario.running.
Proof.
  assert (H1 : GameEngine.isPaused (GameEngine.engine Scenario.running) = false)
    by reflexivity.
  assert (H2 : GameEngine.animationId (GameEngine.engine Scenario.running) <> None)
    by discriminate.
  split; [exact H1 |]. split; [exact H2 |].
  exact (proj2 (proj2 (pause_idempotent_resume_noop Scenario.running)) H1 H2).
Defined.

(** ** The clock *)

Lemma update_clock (w : GameEngine.World) :
  exists el : R,
    GameEngine.clock (GameEngine.engine (fst (GameEngine.update w)))
    = Clock.mk true (GameEngine.now w) el
    /\ GameEngine.now (fst (GameEngine.update w)) = GameEngine.now w.
Proof.
  destruct (update_content w) as [el H]. exists el.
  split; [exact (f_equal Session.cClock H) | exact (f_equal Session.cNow H)].
Qed.

(** X23.  The step a tick integrates is the host time since the
    previous tick, and pausing does not stop the clock.  After a frame
    of a running application, a frame [d] seconds later advances the
    craft by [update(d, ...)]; and if the engine is paused for those [d]
    seconds instead, the tick [resume()] runs at once advances the craft
    by the same [update(d, ...)]: the whole pause in one step. *)
Theorem tick_integrates_elapsed_time (env : InputManager.orientationSupport)
    (os : list App.op) (d : R) :
  let w := App.run (GameEngine.constructor env) os in
  GameEngine.animationId (GameEngine.engine w) <> None ->
  let w1 := GameEngine.frame w in
  let next :=
    CraftController.update d
      (InputManager.getState
         (InputManager.update (GameEngine.input (GameEngine.engine w1))))
      (GameEngine.craft (GameEngine.engine w1)) in
  GameEngine.craft (GameEngine.engine (GameEngine.frame (GameEngine.elapse d w1)))
  = next
  /\ GameEngine.craft
       (GameEngine.engine
          (GameEngine.resume (GameEngine.elapse d (GameEngine.pause w1))))
     = next.
Proof.
  intros w Ha w1 next.
  pose proof (run_loop os _ (constructor_loop env)) as Hw. fold w in Hw.
  (* the frame that has just run *)
  assert (H1 : Session.loopInvariant w1) by now apply frame_loop.
  assert (Hc : exists el, GameEngine.clock (GameEngine.engine w1)
                          = Clock.mk true (GameEngine.now w1) el).
  { destruct Hw as [Hf Hp]. subst w1. unfold GameEngine.frame. rewrite Hf.
    destruct (GameEngine.animationId (GameEngine.engine w)) eqn:E;
      [| contradiction].
    cbn [Session.framesOf fold_left].
    rewrite uncaughtError_engine, uncaughtError_now.
    destruct (GameEngine.isPaused (GameEngine.engine w)) eqn:Hq;
      [specialize (Hp eq_refl); discriminate |].
    rewrite animate_unpaused by exact Hq.
    match goal with |- context [GameEngine.update ?x] =>
      destruct (update_clock x) as (el & -> & ->) end.
    exists el. reflexivity. }
  assert (Hr : GameEngine.isPaused (GameEngine.engine w1) = false
               /\ exists id, GameEngine.animationId (GameEngine.engine w1) = Some id).
  { destruct Hw as [Hf Hp]. subst w1. unfold GameEngine.frame. rewrite Hf.
    destruct (GameEngine.animationId (GameEngine.engine w)) eqn:E;
      [| contradiction].
    cbn [Session.framesOf fold_left].
    rewrite uncaughtError_engine.
    destruct (GameEngine.isPaused (GameEngine.engine w)) eqn:Hq;
      [specialize (Hp eq_refl); discriminate |].
    rewrite animate_unpaused by exact Hq.
    match goal with |- context [GameEngine.update ?x] =>
      destruct (update_bookkeeping x) as (_ & -> & ->) end.
    split; [exact Hq | eexists; reflexivity]. }
  destruct Hc as [el Hc]. destruct Hr as [Hq [id Hid]].
  assert (Hdt : forall c' : Clock.t,
             c' = GameEngine.clock (GameEngine.engine w1) ->
             fst (Clock.getDelta (GameEngine.now w1 + d) c') = d).
  { intros c' ->. rewrite Hc. cbn. lra. }
  assert (Hstep : forall x : GameEngine.World,
             GameEngine.isPaused (GameEngine.engine x) = false ->
             GameEngine.now x = GameEngine.now w1 + d ->
             GameEngine.clock (GameEngine.engine x)
             = GameEngine.clock (GameEngine.engine w1) ->
             GameEngine.input (GameEngine.engine x)
             = GameEngine.input (GameEngine.engine w1) ->
             GameEngine.craft (GameEngine.engine x)
             = GameEngine.craft (GameEngine.engine w1) ->
             GameEngine.craft (GameEngine.engine (fst (GameEngine.animate x)))
             = next).
  { intros x Hx Hn Hk Hi Hcr.
    destruct (animate_running x Hx) as [-> _].
    rewrite Hn, Hi, Hcr, (Hdt _ Hk). reflexivity. }
  split.
  - (* the next frame *)
    destruct H1 as [Hf1 _]. unfold GameEngine.frame.
    cbn [GameEngine.elapse GameEngine.frames]. rewrite Hf1, Hid.
    cbn [Session.framesOf fold_left]. rewrite uncaughtError_engine.
    apply Hstep; [exact Hq | reflexivity ..].
  - (* pause, wait, resume *)
    unfold GameEngine.resume. rewrite uncaughtError_engine.
    unfold GameEngine.start.
    assert (Hn : GameEngine.animationId
                   (GameEngine.engine
                      (GameEngine.onEngine (GameEngine.setIsPaused false)
                         (GameEngine.elapse d (GameEngine.pause w1)))) = None).
    { unfold GameEngine.pause.
      cbn [GameEngine.onEngine GameEngine.engine GameEngine.setIsPaused
           GameEngine.animationId]. rewrite Hid. reflexivity. }
    rewrite Hn.
    pose proof (content_pause w1) as Hcp.
    apply Hstep; [reflexivity | | | |].
    + change (GameEngine.now (GameEngine.pause w1) + d = GameEngine.now w1 + d).
      now rewrite (f_equal Session.cNow Hcp : GameEngine.now _ = _).
    + exact (f_equal Session.cClock Hcp).
    + exact (f_equal Session.cInput Hcp).
    + exact (f_equal Session.cCraft Hcp).
Qed.

Lemma tick_integrates_elapsed_time_witness :
  let w := App.run (GameEngine.constructor InputManager.Unsupported)
             [App.Initialize; App.InitializeSettled Scenario.allOk] in
  let w1 := GameEngine.frame w in
  GameEngine.animationId (GameEngine.engine w) <> None
  /\ GameEngine.craft
       (GameEngine.engine (GameEngine.frame (GameEngine.elapse 0.5 w1)))
     = CraftController.update 0.5
         (InputManager.getState
            (InputManager.update (GameEngine.input (GameEngine.engine w1))))
         (GameEngine.craft (GameEngine.engine w1)).
Proof.
  intros w w1.
  assert (H : GameEngine.animationId (GameEngine.engine w) <> None)
    by discriminate.
  split; [exact H |].
  exact (proj1 (tick_integrates_elapsed_time InputManager.Unsupported
                  [App.Initialize; App.InitializeSettled Scenario.allOk]
                  0.5 H)).
Defined.

(** ** The published state *)

(** X24.  The state updater merges: an update that carries nothing is
    the identity, applying the same update twice is applying it once,
    and an update that carries no [hud] or no [systems] keeps the group
    it does not carry. *)
Theorem updateGameState_merges (g : GameState.t) (u : GameState.partial) :
  GameState.updateGameState g GameState.noUpdates = g
  /\ GameState.updateGameState (GameState.updateGameState g u) u
     = GameState.updateGameState g u
  /\ (GameState.p_hud u = None ->
      GameState.hud (GameState.updateGameState g u) = GameState.hud g)
  /\ (GameState.p_systems u = None ->
      GameState.systems (GameState.updateGameState g u) = GameState.systems g).
Proof.
  split; [now destruct g |]. split.
  - destruct u as [m c p v a s f sy h].
    destruct m, c, p, v, a, s, f, sy, h; reflexivity.
  - split; intros H; unfold GameState.updateGameState;
      cbn [GameState.hud GameState.systems]; now rewrite H.
Qed.

Lemma updateGameState_merges_witness :
  let u := GameState.mkPartial (Some GameState.paused) None None None None None
             None None None in
  GameState.p_hud u = None
  /\ GameState.hud (GameState.updateGameState GameState.initialGameState u)
     = GameState.hud GameState.initialGameState.
Proof.
  intros u. split; [reflexivity |].
  exact (proj1 (proj2 (proj2 (updateGameState_merges
                                GameState.initialGameState u))) eq_refl).
Defined.

(** ** Environment *)

Lemma channel_range (c : R) : 0 <= Environment.channel c <= 1.
Proof.
  unfold Environment.channel.
  assert (0 <= Rmax 0 (Rmin 255 c) <= 255).
  { split; [apply Rmax_l |].
    apply Rmax_lub; [lra | apply Rmin_l]. }
  lra.
Qed.

Lemma channel_255 : Environment.channel 255 = 1.
Proof.
  unfold Environment.channel. rewrite Rmin_left by lra.
  rewrite Rmax_right by lra. lra.
Qed.

Lemma channel_0 : Environment.channel 0 = 0.
Proof.
  unfold Environment.channel. rewrite Rmin_right by lra.
  rewrite Rmax_left by lra. lra.
Qed.

(** X26.  Every colour [temperatureToRGB] returns has its three
    channels in [[0, 1]], whatever the temperature.  Up to 6600 the red
    channel is full, from 6600 on the blue channel is full, and up to
    1900 there is no blue. *)
Theorem temperatureToRGB_range (temp : R) :
  let '(r, g, b) := Environment.temperatureToRGB temp in
  0 <= r <= 1 /\ 0 <= g <= 1 /\ 0 <= b <= 1
  /\ (temp <= 6600 -> r = 1)
  /\ (6600 <= temp -> b = 1)
  /\ (temp <= 1900 -> b = 0).
Proof.
  unfold Environment.temperatureToRGB.
  destruct (Rle_dec (temp / 100) 66) as [H66 | H66];
    (split; [apply channel_range |]);
    (split; [apply channel_range |]);
    (split; [apply channel_range |]).
  - split; [intros _; apply channel_255 |].
    destruct (Rle_dec 66 (temp / 100)) as [G66 | G66].
    + split; [intros _; apply channel_255 | intros; lra].
    + split; [intros; lra |].
      destruct (Rle_dec (temp / 100) 19); [intros _; apply channel_0 | intros; lra].
  - split; [intros; lra |].
    destruct (Rle_dec 66 (temp / 100)) as [G66 | G66]; [| lra].
    split; [intros _; apply channel_255 | intros; lra].
Qed.

Lemma temperatureToRGB_range_witness :
  3000 <= 6600 /\ fst (fst (Environment.temperatureToRGB 3000)) = 1.
Proof.
  assert (H : 3000 <= 6600) by lra.
  split; [exact H |].
  pose proof (temperatureToRGB_range 3000) as K.
  destruct (Environment.temperatureToRGB 3000) as [[r g] b].
  exact (proj1 (proj2 (proj2 (proj2 K))) H).
Defined.

(** ** AudioSystem *)

Lemma audio_perform_shape (a : AudioSystem.t) (c : AudioSystem.call) :
  AudioSystem.audioContext a = AudioSystem.isInitialized a ->
  length (AudioSystem.engines a)
  = (if AudioSystem.isInitialized a then 3 else 0)%nat ->
  let a' := AudioSystem.perform a c in
  AudioSystem.audioContext a' = AudioSystem.isInitialized a'
  /\ length (AudioSystem.engines a')
     = (if AudioSystem.isInitialized a' then 3 else 0)%nat.
Proof.
  intros Hc Hl. destruct c as [b | s]; cbn [AudioSystem.perform].
  - unfold AudioSystem.initialize.
    destruct (AudioSystem.isInitialized a) eqn:Hi; [now rewrite Hi |].
    destruct b; [| now rewrite Hi].
    cbn. split; [reflexivity |].
    rewrite length_app, Hl. reflexivity.
  - unfold AudioSystem.update.
    destruct (negb _ || negb _); [now split |].
    cbn [AudioSystem.audioContext AudioSystem.isInitialized AudioSystem.engines].
    rewrite length_imap. now split.
Qed.

Lemma audio_update_frequency (s : CraftState.t) (a : AudioSystem.t)
    (k : nat) (f : R) :
  0 <= CraftState.speed s -> 0 <= CraftState.gForce s ->
  AudioSystem.isInitialized a = true -> AudioSystem.audioContext a = true ->
  AudioSystem.engines (AudioSystem.update s a) !! k = Some f ->
  432.7 + INR k * 10 <= f <= 432.7 + INR k * 10 + 150.
Proof.
  intros Hs Hg Hi Hc. unfold AudioSystem.update. rewrite Hi, Hc.
  cbn [negb orb AudioSystem.engines].
  rewrite list_lookup_imap.
  destruct (AudioSystem.engines a !! k); cbn; [| discriminate].
  intros [= <-].
  assert (0 <= Rmin (CraftState.speed s / 1000) 1 <= 1).
  { split; [apply Rmin_glb; lra | apply Rmin_r]. }
  assert (0 <= Rmin (CraftState.gForce s / 5) 1 <= 1).
  { split; [apply Rmin_glb; lra | apply Rmin_r]. }
  lra.
Qed.

(** X27.  However often [initialize()] and [update()] are called, the
    audio system has three oscillators once initialised and none
    before (a second [initialize()] adds nothing); and after an
    [update] for a craft with non-negative speed and g-force the
    frequency of oscillator [k] lies between its base
    [432.7 + 10 k] and [150] above it. *)
Theorem audio_oscillators_bounded (cs : list AudioSystem.call)
    (s : CraftState.t) :
  0 <= CraftState.speed s -> 0 <= CraftState.gForce s ->
  let a := AudioSystem.update s
             (fold_left AudioSystem.perform cs AudioSystem.constructor) in
  length (AudioSystem.engines a)
  = (if AudioSystem.isInitialized a then 3 else 0)%nat
  /\ forall (k : nat) (f : R),
       AudioSystem.engines a !! k = Some f ->
       432.7 + INR k * 10 <= f <= 432.7 + INR k * 10 + 150.
Proof.
  intros Hs Hg a.
  assert (H : let b := fold_left AudioSystem.perform cs AudioSystem.constructor in
              AudioSystem.audioContext b = AudioSystem.isInitialized b
              /\ length (AudioSystem.engines b)
                 = (if AudioSystem.isInitialized b then 3 else 0)%nat).
  { assert (H0 : AudioSystem.audioContext AudioSystem.constructor
                 = AudioSystem.isInitialized AudioSystem.constructor
                 /\ length (AudioSystem.engines AudioSystem.constructor)
                    = (if AudioSystem.isInitialized AudioSystem.constructor
                       then 3 else 0)%nat) by (split; reflexivity).
    revert H0. generalize AudioSystem.constructor as b.
    induction cs as [| c cs IH]; intros b H0; cbn [fold_left]; [exact H0 |].
    apply IH. destruct H0. now apply audio_perform_shape. }
  cbv zeta in H. destruct H as [Hc Hl].
  split.
  - exact (proj2 (audio_perform_shape _ (AudioSystem.Update s) Hc Hl)).
  - intros k f Hk. subst a.
    destruct (AudioSystem.isInitialized
                (fold_left AudioSystem.perform cs AudioSystem.constructor)) eqn:Hi.
    + now apply (audio_update_frequency s _ k f Hs Hg Hi Hc).
    + unfold AudioSystem.update in Hk. rewrite Hi in Hk. cbn [negb orb] in Hk.
      destruct (fold_left AudioSystem.perform cs AudioSystem.constructor)
        as [ctx en ini].
      cbn in *. destruct en; [| discriminate]. now rewrite lookup_nil in Hk.
Qed.

Lemma audio_oscillators_bounded_witness :
  let cs := [AudioSystem.Initialize false; AudioSystem.Initialize true;
             AudioSystem.Initialize true] in
  let a := AudioSystem.update CraftController.constructor
             (fold_left AudioSystem.perform cs AudioSystem.constructor) in
  0 <= CraftState.speed CraftController.constructor
  /\ length (AudioSystem.engines a)
     = (if AudioSystem.isInitialized a then 3 else 0)%nat.
Proof.
  intros cs a.
  assert (H1 : 0 <= CraftState.speed CraftController.constructor) by (cbn; lra).
  assert (H2 : 0 <= CraftState.gForce CraftController.constructor) by (cbn; lra).
  split; [exact H1 |].
  exact (proj1 (audio_oscillators_bounded cs CraftController.constructor H1 H2)).
Defined.

(** ** CloakingSystem *)




(** ** PropulsionSystem *)

Lemma small_vector_within (a b c m : R) :
  0 <= m -> m * m * 3 <= 100 * 100 ->
  -m <= a <= m -> -m <= b <= m -> -m <= c <= m ->
  Vector3.length (Vector3.mk a b c) <= 100.
Proof.
  intros Hm Hb Ha Hb' Hc. apply length_le_of_lengthSq; [lra |].
  unfold Vector3.lengthSq. cbn [Vector3.x Vector3.y Vector3.z]. nra.
Qed.

Lemma stepParticle_within (rng : PropulsionSystem.random) (dt : R)
    (pv : Vector3.t * Vector3.t) (k : nat) :
  Session.unitRandom rng ->
  let r := PropulsionSystem.stepParticle rng dt pv k in
  Vector3.length (fst (fst r)) <= 100 /\ snd (fst r) = snd pv.
Proof.
  intros Hr. unfold Session.unitRandom in Hr.
  destruct pv as [p v]. unfold PropulsionSystem.stepParticle.
  cbv zeta.
  match goal with |- context [CraftCamera.gt ?d 100] =>
    destruct (CraftCamera.gt d 100) eqn:Hg end; cbn [fst snd].
  - split; [| reflexivity].
    pose proof (Hr k). pose proof (Hr (S k)). pose proof (Hr (S (S k))).
    apply (small_vector_within _ _ _ 5); lra.
  - split; [| reflexivity].
    unfold CraftCamera.gt in Hg. destruct (Rlt_dec _ _) as [| Hn];
      [discriminate |].
    unfold Vector3.length, Vector3.lengthSq.
    cbn [Vector3.x Vector3.y Vector3.z] in *. lra.
Qed.

Lemma stepParticles_within (rng : PropulsionSystem.random) (dt : R)
    (ps : list (Vector3.t * Vector3.t)) (k : nat) :
  Session.unitRandom rng ->
  let r := PropulsionSystem.stepParticles rng dt ps k in
  Forall (fun pv => Vector3.length (fst pv) <= 100) (fst r)
  /\ map snd (fst r) = map snd ps.
Proof.
  intros Hr. revert k. induction ps as [| pv ps IH]; intros k;
    cbn [PropulsionSystem.stepParticles].
  - split; [constructor | reflexivity].
  - pose proof (stepParticle_within rng dt pv k Hr) as H1. cbv zeta in H1.
    destruct (PropulsionSystem.stepParticle rng dt pv k) as [pv' k1].
    specialize (IH k1). cbv zeta in IH.
    destruct (PropulsionSystem.stepParticles rng dt ps k1) as [rest k2].
    cbn [fst snd] in *. destruct H1 as [H1 H2]. destruct IH as [H3 H4].
    split; [now constructor | cbn [map]; now rewrite H2, H4].
Qed.

Lemma createParticles_within (rng : PropulsionSystem.random) (n k : nat) :
  Session.unitRandom rng ->
  let r := PropulsionSystem.createParticles rng n k in
  Forall (fun pv => Vector3.length (fst pv) <= 100) (fst r)
  /\ length (fst r) = n.
Proof.
  intros Hr. unfold Session.unitRandom in Hr.
  revert k. induction n as [| n IH]; intros k;
    cbn [PropulsionSystem.createParticles].
  - split; [constructor | reflexivity].
  - specialize (IH (k + 6)%nat). cbv zeta in IH.
    destruct (PropulsionSystem.createParticles rng n (k + 6)) as [rest k'].
    cbn [fst] in *. destruct IH as [H1 H2].
    split; [| cbn [length]; now rewrite H2].
    constructor; [| exact H1]. cbn [fst].
    pose proof (Hr k). pose proof (Hr (k + 1)%nat). pose proof (Hr (k + 2)%nat).
    apply (small_vector_within _ _ _ 25); lra.
Qed.

(** X29.  Particles never stray: provided [Math.random()] returns
    numbers in [[0, 1)], all 1000 particles [initialize()] creates lie
    within distance [100] of the origin, and after every [update] of an
    active system every particle lies within [100] again, whatever the
    time step and wherever the particles were, with its velocity
    unchanged; and for a craft with non-negative speed the ring
    intensity is set within [[0.5, 1]]. *)
Theorem particles_stay_within_range (rng : PropulsionSystem.random)
    (k : nat) (now dt : R) (craftState : CraftState.t)
    (s : PropulsionSystem.t) (ps : list (Vector3.t * Vector3.t)) :
  Session.unitRandom rng ->
  PropulsionSystem.isActive s = true ->
  PropulsionSystem.particles s = Some ps ->
  0 <= CraftState.speed craftState ->
  (exists ps0,
     PropulsionSystem.particles (fst (PropulsionSystem.initialize rng k s))
     = Some ps0
     /\ length ps0 = 1000%nat
     /\ Forall (fun pv => Vector3.length (fst pv) <= 100) ps0)
  /\ (exists ps',
        PropulsionSystem.particles
          (fst (PropulsionSystem.update rng k now dt craftState s)) = Some ps'
        /\ Forall (fun pv => Vector3.length (fst pv) <= 100) ps'
        /\ map snd ps' = map snd ps)
  /\ Forall (fun r => 0.5 <= PropulsionSystem.intensity r <= 1)
       (PropulsionSystem.plasmaRings
          (fst (PropulsionSystem.update rng k now dt craftState s))).
Proof.
  intros Hr Ha Hp Hs. split; [| split].
  - unfold PropulsionSystem.initialize.
    pose proof (createParticles_within rng 1000 k Hr) as H. cbv zeta in H.
    destruct (PropulsionSystem.createParticles rng 1000 k) as [ps0 k'].
    cbn [fst PropulsionSystem.particles] in *.
    exists ps0. destruct H. repeat split; assumption.
  - unfold PropulsionSystem.update. rewrite Ha, Hp. cbn [negb].
    pose proof (stepParticles_within rng dt ps k Hr) as H. cbv zeta in H.
    destruct (PropulsionSystem.stepParticles rng dt ps k) as [ps' k'].
    cbn [fst PropulsionSystem.particles] in *.
    exists ps'. destruct H. repeat split; assumption.
  - unfold PropulsionSystem.update. rewrite Ha, Hp. cbn [negb].
    destruct (PropulsionSystem.stepParticles rng dt ps k) as [ps' k'].
    cbn [fst PropulsionSystem.plasmaRings].
    apply List.Forall_forall. intros r Hin. apply in_map_iff in Hin.
    destruct Hin as (r0 & <- & _). cbn [PropulsionSystem.intensity].
    assert (0 <= Rmin (CraftState.speed craftState / 1000) 1 <= 1).
    { split; [apply Rmin_glb; lra | apply Rmin_r]. }
    lra.
Qed.

Lemma particles_stay_within_range_witness :
  let rng : PropulsionSystem.random := fun _ => 0.25 in
  let s := PropulsionSystem.mk []
             (Some [(Vector3.mk 99 0 0, Vector3.mk 10 0 0)]) true in
  Session.unitRandom rng
  /\ exists ps',
       PropulsionSystem.particles
         (fst (PropulsionSystem.update rng 0 0 1 CraftController.constructor s))
       = Some ps'
       /\ Forall (fun pv => Vector3.length (fst pv) <= 100) ps'
       /\ map snd ps' = [Vector3.mk 10 0 0].
Proof.
  intros rng s.
  assert (H1 : Session.unitRandom rng) by (intros k; unfold rng; lra).
  assert (H2 : 0 <= CraftState.speed CraftController.constructor) by (cbn; lra).
  split; [exact H1 |].
  exact (proj1 (proj2 (particles_stay_within_range rng 0 0 1
                         CraftController.constructor s _ H1 eq_refl eq_refl H2))).
Defined.

(** ** Clones *)

Lemma writeBack_frame (s : CraftState.t) (c : Alias.controller) (p : nat) :
  Session.apartFrom p (fst c) ->
  let c' := Alias.writeBack s c in
  snd c' !! p = snd c !! p /\ Session.apartFrom p (fst c').
Proof.
  destruct c as [o h]. unfold Session.apartFrom. cbn [fst snd].
  intros (H1 & H2 & H3 & H4 & H5). unfold Alias.writeBack. cbn [fst snd].
  split; [| repeat split; assumption].
  unfold Alias.heap in *.
  rewrite !list_lookup_insert_ne by assumption. reflexivity.
Qed.

Lemma aliasPerform_frame (c : Alias.controller) (k : CraftController.call)
    (p : nat) :
  Session.apartFrom p (fst c) ->
  let c' := Session.aliasPerform c k in
  snd c' !! p = snd c !! p /\ Session.apartFrom p (fst c').
Proof.
  intros Hw c'. subst c'.
  destruct k as [dt i |]; cbn [Session.aliasPerform];
    unfold Alias.craftUpdate, Alias.craftReset; now apply writeBack_frame.
Qed.

Lemma vectorAt_unfold (h : list Alias.object) (p : nat) :
  Alias.vectorAt h p
  = match h !! p with
    | Some (Alias.VectorObj v) => v
    | _ => Vector3.zero
    end.
Proof. reflexivity. Qed.

Lemma vectorAt_lookup (h : list Alias.object) (p : nat) (v : Vector3.t) :
  h !! p = Some (Alias.VectorObj v) -> Alias.vectorAt h p = v.
Proof. intros E. rewrite vectorAt_unfold, E. reflexivity. Qed.

Lemma vectorAt_ext (h h' : list Alias.object) (p : nat) :
  h' !! p = h !! p -> Alias.vectorAt h' p = Alias.vectorAt h p.
Proof. intros E. rewrite !vectorAt_unfold, E. reflexivity. Qed.

Lemma aliasPerformAll_frame (ks : list CraftController.call)
    (c : Alias.controller) (p : nat) :
  Session.apartFrom p (fst c) ->
  snd (fold_left Session.aliasPerform ks c) !! p = snd c !! p.
Proof.
  revert c. induction ks as [| k ks IH]; intros c Hw; cbn [fold_left];
    [reflexivity |].
  destruct (aliasPerform_frame c k p Hw) as [E W].
  rewrite (IH _ W). exact E.
Qed.

(** X30.  [getPosition()] hands out a copy: the vector it returns holds
    the position at the time of the call, and no later sequence of
    [update] and [reset] calls on the controller changes it. *)
Theorem getPosition_clone_is_isolated (c : Alias.controller)
    (ks : list CraftController.call) :
  Session.wellFormed c ->
  let '(p, h) := Alias.craftGetPosition c in
  let c' := fold_left Session.aliasPerform ks (fst c, h) in
  Alias.vectorAt h p = CraftState.position (Alias.craftValue (snd c) (fst c))
  /\ Alias.vectorAt (snd c') p = Alias.vectorAt h p.
Proof.
  intros Hw. unfold Alias.craftGetPosition, Alias.alloc.
  cbv beta iota zeta.
  set (p := length (snd c)).
  set (h := snd c ++ [_]).
  assert (Hp : h !! p = Some (Alias.VectorObj
                                (Alias.vectorAt (snd c) (Alias.position (fst c))))).
  { subst h p. apply list_lookup_middle. reflexivity. }
  split.
  - now apply vectorAt_lookup.
  - apply vectorAt_ext, aliasPerformAll_frame.
    unfold Session.wellFormed in Hw. unfold Session.apartFrom. cbn [fst].
    fold p in Hw. destruct Hw as (H1 & H2 & H3 & H4 & H5).
    repeat split; lia.
Qed.

Lemma getPosition_clone_is_isolated_witness :
  let c := Alias.craftConstructor [] in
  let ks := [CraftController.Update 1 Scenario.noInput; CraftController.Reset;
             CraftController.Update 2 Scenario.upOnly] in
  Session.wellFormed c
  /\ Alias.vectorAt
       (snd (fold_left Session.aliasPerform ks
               (fst c, snd (Alias.craftGetPosition c))))
       (fst (Alias.craftGetPosition c))
     = Alias.vectorAt (snd (Alias.craftGetPosition c))
         (fst (Alias.craftGetPosition c)).
Proof.
  intros c ks.
  assert (H : Session.wellFormed c).
  { unfold Session.wellFormed. cbn. repeat split; lia. }
  split; [exact H |].
  pose proof (getPosition_clone_is_isolated c ks H) as K.
  destruct (Alias.craftGetPosition c) as [p h]. exact (proj2 K).
Defined.
